(** * Site workflows of BB-Betting: login detection, login, bet history

    A shallow embedding of the three site workflows
    ([PinnacleWorkflow], [Sports411Workflow], [BetOnlineWorkflow]) over an
    abstract browser.  The capability calls a workflow makes
    ([this.exists], [this.click], [page.$], [page.evaluate], ...) are the
    constructors of [Action]; the browser answers each of them, or faults,
    and moves the page on.  A workflow method is a computation in the monad
    [M]: it takes the page it starts from and gives back the calls it made
    (in order, each with the fault it met, if any), the page it ends on and
    how it ended: a returned value, a thrown exception, or no answer yet
    because a [while] loop was cut off by the iteration budget. *)

From Stdlib Require Import ZArith List String Ascii Bool Lia Arith.
Import ListNotations.
Local Open Scope string_scope.

(** ** JavaScript strings and values *)

Module Js.

(** [s.includes(needle)] *)
Fixpoint includes (s needle : string) : bool :=
  String.prefix needle s ||
  match s with
  | EmptyString => false
  | String _ rest => includes rest needle
  end.

(** [s.endsWith(suffix)] *)
Definition endsWith (s suffix : string) : bool :=
  let n := String.length s in
  let k := String.length suffix in
  (k <=? n)%nat && String.eqb (substring (n - k) k s) suffix.

(** Truthiness of a string: only the empty string is falsy. *)
Definition truthy (s : string) : bool := negb (String.eqb s "").

(** [a || b] on values that are strings or [undefined]. *)
Definition or_else (o : option string) (d : string) : string :=
  match o with
  | Some s => if truthy s then s else d
  | None => d
  end.

(** [a || null] *)
Definition or_null (o : option string) : option string :=
  match o with
  | Some s => if truthy s then Some s else None
  | None => None
  end.

Definition is_digit (c : ascii) : bool :=
  let n := nat_of_ascii c in (48 <=? n)%nat && (n <=? 57)%nat.

(** White space removed by [trim], on the characters of a byte string:
    tab, line feed, vertical tab, form feed, carriage return, space. *)
Definition is_space (c : ascii) : bool :=
  let n := nat_of_ascii c in
  ((9 <=? n)%nat && (n <=? 13)%nat) || (n =? 32)%nat.

Fixpoint trimStart (s : string) : string :=
  match s with
  | String c rest => if is_space c then trimStart rest else s
  | EmptyString => EmptyString
  end.

Fixpoint rev_append (s acc : string) : string :=
  match s with
  | EmptyString => acc
  | String c rest => rev_append rest (String c acc)
  end.

Definition rev (s : string) : string := rev_append s EmptyString.

(** [s.trim()] *)
Definition trim (s : string) : string := rev (trimStart (rev (trimStart s))).

Fixpoint filter (f : ascii -> bool) (s : string) : string :=
  match s with
  | EmptyString => EmptyString
  | String c rest => if f c then String c (filter f rest) else filter f rest
  end.

Fixpoint map (f : ascii -> ascii) (s : string) : string :=
  match s with
  | EmptyString => EmptyString
  | String c rest => String (f c) (map f rest)
  end.

(** The longest prefix of [s] whose characters satisfy [f], and the rest. *)
Fixpoint span (f : ascii -> bool) (s : string) : string * string :=
  match s with
  | String c rest =>
      if f c then let (a, b) := span f rest in (String c a, b)
      else (EmptyString, s)
  | EmptyString => (EmptyString, EmptyString)
  end.

(** [s.split(sep)[0]] for a one-character separator. *)
Fixpoint before (sep : ascii) (s : string) : string :=
  match s with
  | EmptyString => EmptyString
  | String c rest => if Ascii.eqb c sep then EmptyString else String c (before sep rest)
  end.

(** A [Date]: a valid one is known by its [toISOString()], an invalid one
    makes [toISOString()] throw a RangeError. *)
Inductive Date : Type :=
| ValidDate (iso : string)
| InvalidDate.

End Js.

(** ** Regular expressions of the scraping scripts *)

Module Regex.
Import Js.

(** A match of [\d+] at the head of [s]: the digits and what follows. *)
Definition digits1 (s : string) : option (string * string) :=
  let (d, rest) := span is_digit s in
  if truthy d then Some (d, rest) else None.

(** A literal character at the head of [s]. *)
Definition lit (c : ascii) (s : string) : option string :=
  match s with
  | String c' rest => if Ascii.eqb c c' then Some rest else None
  | EmptyString => None
  end.

(** A literal string at the head of [s]. *)
Fixpoint lits (p s : string) : option string :=
  match p with
  | EmptyString => Some s
  | String c p' =>
      match lit c s with
      | Some rest => lits p' rest
      | None => None
      end
  end.

(** The leftmost position at which [at_head] matches. *)
Fixpoint search {A : Type} (at_head : string -> option A) (s : string) : option A :=
  match at_head s with
  | Some r => Some r
  | None =>
      match s with
      | EmptyString => None
      | String _ rest => search at_head rest
      end
  end.

Definition is_digit_or_comma (c : ascii) : bool :=
  is_digit c || Ascii.eqb c ","%char.

(** [/\$[\d,]+\.\d+/] at the head of [s]: the matched text.  The class
    [[\d,]] holds neither [.] nor a character outside itself, so giving
    back characters of its greedy run never helps. *)
Definition money_here (s : string) : option string :=
  match lit "$"%char s with
  | None => None
  | Some s1 =>
      let (whole, s2) := span is_digit_or_comma s1 in
      if truthy whole then
        match lit "."%char s2 with
        | None => None
        | Some s3 =>
            match digits1 s3 with
            | Some (frac, _) => Some ("$" ++ whole ++ "." ++ frac)
            | None => None
            end
        end
      else None
  end.

(** [s.match(/\$[\d,]+\.\d+/)?.[0]], also the first entry of the [/g] match. *)
Definition money (s : string) : option string := search money_here s.

(** [/Ticket # (\d+)/] at the head of [s]: group 1. *)
Definition ticket_here (s : string) : option string :=
  match lits "Ticket # " s with
  | None => None
  | Some s1 =>
      match digits1 s1 with
      | Some (d, _) => Some d
      | None => None
      end
  end.

Definition ticket (s : string) : option string := search ticket_here s.

Definition is_A_or_P (c : ascii) : bool :=
  Ascii.eqb c "A"%char || Ascii.eqb c "P"%char.

(** [/(\d+\/\d+)@(\d+:\d+ [AP]M)/] at the head of [s]: groups 1 and 2.
    Every [\d+] is followed by a character that is not a digit, so its
    greedy run is the only one that can match. *)
Definition stamp_here (s : string) : option (string * string) :=
  match digits1 s with
  | None => None
  | Some (m, s1) =>
  match lit "/"%char s1 with
  | None => None
  | Some s2 =>
  match digits1 s2 with
  | None => None
  | Some (d, s3) =>
  match lit "@"%char s3 with
  | None => None
  | Some s4 =>
  match digits1 s4 with
  | None => None
  | Some (hh, s5) =>
  match lit ":"%char s5 with
  | None => None
  | Some s6 =>
  match digits1 s6 with
  | None => None
  | Some (mm, s7) =>
  match lit " "%char s7 with
  | None => None
  | Some s8 =>
  match s8 with
  | String c (String "M"%char _) =>
      if is_A_or_P c
      then Some (m ++ "/" ++ d, hh ++ ":" ++ mm ++ " " ++ String c "M")
      else None
  | _ => None
  end end end end end end end end end.

Definition stamp (s : string) : option (string * string) := search stamp_here s.

End Regex.

(** ** Results, configuration and the browser capability *)

(** [WorkflowResult<T>]: [{ success, data?, error?, timestamp }]. *)
Record WorkflowResult (T : Type) : Type := mkResult {
  success : bool;
  data : option T;
  error : option string;
  timestamp : Z
}.
Arguments mkResult {T} _ _ _ _.
Arguments success {T} _.
Arguments data {T} _.
Arguments error {T} _.
Arguments timestamp {T} _.

(** The fields of [SiteConfig] (with the stored credentials of
    [StoredSiteConfig]) that the workflows read. *)
Record SiteConfig : Type := mkSiteConfig {
  id : string;
  name : string;
  baseUrl : option string;
  username : option string;
  password : option string
}.

(** [{ ...config, baseUrl: config.baseUrl || DEFAULT_URL }] *)
Definition with_default_url (default : string) (config : SiteConfig) : SiteConfig :=
  {| id := id config;
     name := name config;
     baseUrl := Some (Js.or_else (baseUrl config) default);
     username := username config;
     password := password config |}.

(** The guard [username && password], with the two values it lets through. *)
Definition credentials (config : SiteConfig) : option (string * string) :=
  match username config, password config with
  | Some u, Some p => if Js.truthy u && Js.truthy p then Some (u, p) else None
  | _, _ => None
  end.

(** What the Sports411 scraping script reads off one
    [app-history-ticket .ticket] element: the text of [.date-data],
    [.bet-type] and [.game] (when the element is there), the texts of the
    [.col-2 .amount] elements, and the page's [new Date().toISOString()]. *)
Record TicketNode : Type := mkTicketNode {
  date_data : option string;
  bet_type : option string;
  game : option string;
  amounts : list string;
  ticket_seen_at : string
}.

(** What the BetOnline scraping script reads off one
    [.bet-history__table__body__rows] element: the texts of its column
    [div]s and the page's [new Date().toISOString()]. *)
Record RowNode : Type := mkRowNode {
  columns : list string;
  row_seen_at : string
}.

(** The calls a workflow makes on its page, through the helpers of
    [BaseSiteWorkflow] or on the page handle itself. *)
Inductive Action : Type :=
| Exists (selector : string)                 (* this.exists(selector) *)
| Query (selector : string)                  (* page.$(selector): a handle or null *)
| ClickHandle (selector : string)            (* handle.click() on what page.$ found *)
| Click (selector : string)                  (* this.click(selector) *)
| TypeText (selector text : string)          (* this.type(selector, text) *)
| WaitFor (selector : string) (timeout : Z)  (* this.waitFor(selector, timeout) *)
| Sleep (ms : Z)                             (* this.sleep(ms) *)
| RandomDelay (lo hi : Z)                    (* this.randomDelay(lo, hi) *)
| SaveSession                                (* this.saveSession() *)
| SuperLogin                                 (* super.login() of BaseSiteWorkflow *)
| EvalSetDateRange (from to : string)        (* page.evaluate: fill #start and #end *)
| EvalTickets                                (* page.evaluate: the ticket elements *)
| EvalCaptchaResponse                        (* page.evaluate: grecaptcha response *)
| EvalScrollToBottom                         (* page.evaluate: window.scrollTo *)
| EvalRows.                                  (* page.evaluate: the history rows *)

(** The type of what each call resolves to. *)
Definition answer (a : Action) : Type :=
  match a with
  | Exists _ | Query _ | EvalCaptchaResponse => bool
  | SuperLogin => WorkflowResult unit
  | EvalTickets => list TicketNode
  | EvalRows => list RowNode
  | _ => unit
  end.

(** A capability call resolves to a value or rejects with a message; the
    page moves on either way. *)
Inductive Res (S A : Type) : Type :=
| Ok (v : A) (s : S)
| Fault (msg : string) (s : S).
Arguments Ok {S A} _ _.
Arguments Fault {S A} _ _.

Definition res_state {S A : Type} (r : Res S A) : S :=
  match r with
  | Ok _ s => s
  | Fault _ s => s
  end.

(** The browser a workflow is bound to.  [getPage()] is the page itself:
    a workflow instance binds one live page.  [Date.now()] and
    [page.url()] read the page state without changing it. *)
Record Browser : Type := mkBrowser {
  page : Type;
  clock : page -> Z;
  url : page -> string;
  perform : forall a : Action, page -> Res page (answer a)
}.

(** ** The workflow monad *)

Inductive Out (A : Type) : Type :=
| Ret (v : A)
| Throw (msg : string)
| Diverge.
Arguments Ret {A} _.
Arguments Throw {A} _.
Arguments Diverge {A}.

(** One capability call and the fault it met. *)
Record Event : Type := mkEvent {
  action : Action;
  fault : option string
}.

Record Run (S A : Type) : Type := mkRun {
  evs : list Event;
  fin : S;
  out : Out A
}.
Arguments mkRun {S A} _ _ _.
Arguments evs {S A} _.
Arguments fin {S A} _.
Arguments out {S A} _.

Definition actions {S A : Type} (r : Run S A) : list Action :=
  map action (evs r).

Definition M (B : Browser) (A : Type) : Type := page B -> Run (page B) A.

Section Monad.
Variable B : Browser.

Definition ret {A : Type} (v : A) : M B A :=
  fun p => mkRun [] p (Ret v).

Definition throw {A : Type} (msg : string) : M B A :=
  fun p => mkRun [] p (Throw msg).

(** A loop that has used up its iteration budget. *)
Definition diverge {A : Type} : M B A :=
  fun p => mkRun [] p Diverge.

Definition bind {A C : Type} (m : M B A) (k : A -> M B C) : M B C :=
  fun p =>
    let r := m p in
    match out r with
    | Ret v => let r' := k v (fin r) in mkRun (evs r ++ evs r') (fin r') (out r')
    | Throw msg => mkRun (evs r) (fin r) (Throw msg)
    | Diverge => mkRun (evs r) (fin r) Diverge
    end.

(** [try { m } catch (err) { handler(err.message) }] *)
Definition try_catch {A : Type} (m : M B A) (handler : string -> M B A) : M B A :=
  fun p =>
    let r := m p in
    match out r with
    | Throw msg =>
        let r' := handler msg (fin r) in mkRun (evs r ++ evs r') (fin r') (out r')
    | _ => r
    end.

(** [await] of one capability call. *)
Definition call (a : Action) : M B (answer a) :=
  fun p =>
    match perform B a p with
    | Ok v p' => mkRun [mkEvent a None] p' (Ret v)
    | Fault msg p' => mkRun [mkEvent a (Some msg)] p' (Throw msg)
    end.

(** [Date.now()], [new Date()] *)
Definition now : M B Z := fun p => mkRun [] p (Ret (clock B p)).

(** [page.url()] *)
Definition page_url : M B string := fun p => mkRun [] p (Ret (url B p)).

End Monad.

Arguments ret {B A} _.
Arguments throw {B A} _.
Arguments diverge {B A}.
Arguments bind {B A C} _ _.
Arguments try_catch {B A} _ _.
Arguments call {B} _.
Arguments now {B}.
Arguments page_url {B}.

Declare Scope workflow_scope.
Delimit Scope workflow_scope with wf.
Notation "x <- m ;; k" := (bind m (fun x => k))
  (at level 61, m at next level, right associativity) : workflow_scope.
Notation "m ;; k" := (bind m (fun _ => k))
  (at level 61, right associativity) : workflow_scope.
Local Open Scope workflow_scope.

(** ** Helpers shared by the workflows *)

Section Helpers.
Variable B : Browser.

(** [{ success: true, timestamp: new Date() }] *)
Definition success_now : M B (WorkflowResult unit) :=
  t <- now ;; ret (mkResult true None None t).

(** [{ success: false, error: msg, timestamp: new Date() }] *)
Definition failure_now (msg : string) : M B (WorkflowResult unit) :=
  t <- now ;; ret (mkResult false None (Some msg) t).

(** Modelled from the spec: [BaseSiteWorkflow.result(success, data, error)]
    is not among the sources; the spec gives a [WorkflowResult] a success
    flag, an optional payload, an optional error message and a
    timestamp.  *)
Definition result {T : Type} (ok : bool) (payload : T) (err : option string)
  : M B (WorkflowResult T) :=
  t <- now ;; ret (mkResult ok (Some payload) err t).

(** [for (const sel of selectors) { if (await this.exists(sel)) { await act(sel); break; } }] *)
Fixpoint first_match (selectors : list string) (act : string -> M B unit) : M B unit :=
  match selectors with
  | [] => ret tt
  | sel :: rest =>
      found <- call (Exists sel) ;;
      if found then act sel else first_match rest act
  end.

(** [date.toISOString().split('T')[0]] *)
Definition iso_day (d : Js.Date) : M B string :=
  match d with
  | Js.ValidDate iso => ret (Js.before "T"%char iso)
  | Js.InvalidDate => throw "Invalid time value"
  end.

End Helpers.

Arguments success_now {B}.
Arguments failure_now {B} _.
Arguments result {B T} _ _ _.
Arguments first_match {B} _ _.
Arguments iso_day {B} _.

(** ** Selectors *)

(** The selectors carry double quotes: [quoted "LOG IN"] is the text
    between quotes as it stands in the source. *)
Definition quoted (s : string) : string :=
  String (ascii_of_nat 34) (s ++ String (ascii_of_nat 34) EmptyString).

(** ** Pinnacle (probet42) *)

Module Pinnacle.

Definition DEFAULT_URL : string := "https://probet42.com".

(** [PinnacleBetHistoryItem.status] *)
Inductive Status : Type := pending | won | lost | void | cashout.

(** [PinnacleBetHistoryItem]; dates as epoch milliseconds, amounts and odds
    in thousandths. *)
Record PinnacleBetHistoryItem : Type := mkItem {
  betId : string;
  placedAt : Z;
  settledAt : option Z;
  sport : string;
  league : string;
  event : string;
  betType : string;
  selection : string;
  odds : Z;
  stake : Z;
  currency : string;
  potentialWin : Z;
  result_amount : option Z;
  status : Status
}.

Definition sel_sign_in : string := "button:has-text(" ++ quoted "SIGN IN" ++ ")".
Definition sel_username : string := "input[placeholder=" ++ quoted "Username" ++ "]".
Definition sel_password : string := "input[type=" ++ quoted "password" ++ "]".
Definition sel_account_menu : string := ".account-menu, .user-menu, .balance".
Definition sel_logout : string :=
  "[data-action=" ++ quoted "logout" ++ "], .logout, a[href*=" ++ quoted "logout" ++ "]".

Section Workflow.
Variable B : Browser.
Variable config : SiteConfig.

Definition isLoggedIn : M B bool :=
  hasSignInButton <- call (Exists sel_sign_in) ;;
  hasUsernameField <- call (Exists sel_username) ;;
  hasPasswordField <- call (Exists sel_password) ;;
  if hasSignInButton || hasUsernameField || hasPasswordField then ret false
  else
    hasAccountMenu <- call (Exists sel_account_menu) ;;
    hasLogoutOption <- call (Exists sel_logout) ;;
    ret (hasAccountMenu || hasLogoutOption).

(** The [try] block of [login] up to the check of the outcome. *)
Definition enter_credentials (user pass : string) : M B unit :=
  call (WaitFor "#loginId" 5000) ;;
  call (TypeText "#loginId" user) ;;
  call (RandomDelay 1200 2500) ;;
  call (TypeText "#pass" pass) ;;
  call (RandomDelay 800 1800) ;;
  call (Click sel_sign_in) ;;
  call (RandomDelay 2500 4000).

(** The [try] block of [login]: [Some r] when it returns [r], [None]
    when control leaves it for the manual fall-back. *)
Definition auto_login (user pass : string) : M B (option (WorkflowResult unit)) :=
  enter_credentials user pass ;;
  confirmed <- isLoggedIn ;;
  if confirmed then
    call SaveSession ;;
    r <- success_now ;;
    ret (Some r)
  else ret None.

Definition login : M B (WorkflowResult unit) :=
  logged <- isLoggedIn ;;
  if logged then success_now
  else
    early <- match credentials config with
             | Some (user, pass) =>
                 try_catch (auto_login user pass) (fun _ => ret None)
             | None => ret None
             end ;;
    match early with
    | Some r => ret r
    | None => call SuperLogin
    end.

Definition getBetHistory (date endDate : option Js.Date)
  : M B (WorkflowResult (list PinnacleBetHistoryItem)) :=
  try_catch
    (logged <- isLoggedIn ;;
     if negb logged then result false [] (Some "Not logged in. Call login() first.")
     else result true [] (Some "Not implemented - need to discover history page"))
    (fun msg => result false [] (Some msg)).

End Workflow.

End Pinnacle.

(** ** Sports411 *)

Module Sports411.

Definition DEFAULT_URL : string := "https://sports411.ag".

(** One scraped ticket. *)
Record Bet : Type := mkBet {
  betId : option string;
  betType : option string;
  selection : option string;
  date : option string;
  time : option string;
  riskWin : option string;
  winLoss : option string;
  site : string;
  scrapedAt : string
}.

Definition newline_to_space (c : ascii) : ascii :=
  if Ascii.eqb c (ascii_of_nat 10) then " "%char else c.

(** The function mapped over the ticket elements by the scraping script. *)
Definition scrape_ticket (t : TicketNode) : Bet :=
  let ticketMatch := match date_data t with
                     | Some txt => Regex.ticket txt
                     | None => None
                     end in
  let dateMatch := match date_data t with
                   | Some txt => Regex.stamp txt
                   | None => None
                   end in
  {| betId := Js.or_null ticketMatch;
     betType := option_map Js.trim (bet_type t);
     selection := option_map (fun s => Js.map newline_to_space (Js.trim s)) (game t);
     date := Js.or_null (option_map fst dateMatch);
     time := Js.or_null (option_map snd dateMatch);
     riskWin := option_map Js.trim (nth_error (amounts t) 0);
     winLoss := option_map Js.trim (nth_error (amounts t) 1);
     site := "sports411";
     scrapedAt := ticket_seen_at t |}.

Definition sel_login_form : string :=
  "input[placeholder=" ++ quoted "Account" ++ "], input[name=" ++ quoted "account" ++ "]".
Definition sel_login_button : string :=
  "button:has-text(" ++ quoted "LOG IN" ++ "), input[value=" ++ quoted "LOG IN" ++ "]".
Definition accountSelectors : list string :=
  [ "input[placeholder=" ++ quoted "Account" ++ "]";
    "input[name=" ++ quoted "account" ++ "]";
    "#account" ].
Definition passSelectors : list string :=
  [ "input[placeholder=" ++ quoted "Password" ++ "]";
    "input[name=" ++ quoted "password" ++ "]";
    "#password";
    "input[type=" ++ quoted "password" ++ "]" ].
Definition loginBtnSelectors : list string :=
  [ "button:has-text(" ++ quoted "LOG IN" ++ ")";
    "input[value=" ++ quoted "LOG IN" ++ "]";
    "input.btn.login";
    ".login-btn" ].
Definition sel_history : string := "text=History".
Definition sel_custom_range : string := "button:has-text(" ++ quoted "Custom Range" ++ ")".
Definition sel_next : string := "#nextBtn a:not(.disabled)".

Section Workflow.
Variable B : Browser.
Variable config : SiteConfig.

Definition isLoggedIn : M B bool :=
  hasLoginForm <- call (Exists sel_login_form) ;;
  hasLoginButton <- call (Exists sel_login_button) ;;
  if hasLoginForm || hasLoginButton then ret false
  else
    url <- page_url ;;
    if Js.includes url "/en/" && negb (Js.endsWith url ".ag/") then ret true
    else ret true.

(** The [try] block of [login]. *)
Definition submit_credentials (user pass : string) : M B (WorkflowResult unit) :=
  first_match accountSelectors (fun sel => call (TypeText sel user)) ;;
  call (RandomDelay 1200 2500) ;;
  first_match passSelectors (fun sel => call (TypeText sel pass)) ;;
  call (RandomDelay 800 1800) ;;
  first_match loginBtnSelectors (fun sel => call (Click sel)) ;;
  call (RandomDelay 3000 5000) ;;
  call SaveSession ;;
  success_now.

Definition login : M B (WorkflowResult unit) :=
  logged <- isLoggedIn ;;
  if logged then success_now
  else
    match credentials config with
    | Some (user, pass) =>
        try_catch (submit_credentials user pass) (fun msg => failure_now msg)
    | None => failure_now "No credentials provided"
    end.

(** [while (hasNextPage) { ... }], at most [fuel] times round. *)
Fixpoint scrape_pages (fuel : nat) (allBets : list Bet) : M B (list Bet) :=
  match fuel with
  | O => diverge
  | S fuel' =>
      tickets <- call EvalTickets ;;
      let allBets' := (allBets ++ map scrape_ticket tickets)%list in
      nextBtn <- call (Query sel_next) ;;
      if nextBtn then
        call (ClickHandle sel_next) ;;
        call (Sleep 1500) ;;
        scrape_pages fuel' allBets'
      else ret allBets'
  end.

(** [if (fromDate && toDate) { ... }] *)
Definition set_date_range (fromDate toDate : option Js.Date) : M B unit :=
  match fromDate, toDate with
  | Some f, Some t =>
      fromStr <- iso_day f ;;
      toStr <- iso_day t ;;
      call (EvalSetDateRange fromStr toStr) ;;
      call (Click sel_custom_range) ;;
      call (Sleep 2000)
  | _, _ => ret tt
  end.

(** From the click on the History link to the first page of results. *)
Definition open_history (fromDate toDate : option Js.Date) : M B unit :=
  call (Click sel_history) ;;
  call (Sleep 2000) ;;
  set_date_range fromDate toDate.

(** What follows the login check inside the [try] block of [getBetHistory]. *)
Definition scrape_history (fuel : nat) (fromDate toDate : option Js.Date)
  : M B (WorkflowResult (list Bet)) :=
  open_history fromDate toDate ;;
  allBets <- scrape_pages fuel [] ;;
  result true allBets None.

Definition getBetHistory (fuel : nat) (fromDate toDate : option Js.Date)
  : M B (WorkflowResult (list Bet)) :=
  try_catch
    (logged <- isLoggedIn ;;
     if negb logged then result false [] (Some "Not logged in. Call login() first.")
     else scrape_history fuel fromDate toDate)
    (fun msg => result false [] (Some msg)).

End Workflow.

End Sports411.

(** ** BetOnline *)

Module BetOnline.

Definition DEFAULT_URL : string := "https://www.betonline.ag".

(** One scraped history row. *)
Record Bet : Type := mkBet {
  betId : option string;
  date : option string;
  description : option string;
  betType : option string;
  status : string;
  stake : string;
  toWin : string;
  site : string;
  scrapedAt : string
}.

Definition is_digit_or_hyphen (c : ascii) : bool :=
  Js.is_digit c || Ascii.eqb c "-"%char.

(** [amountEl?.textContent?.includes(word)] as a condition. *)
Definition mentions (el : option string) (word : string) : bool :=
  match el with
  | Some txt => Js.includes txt word
  | None => false
  end.

(** The function mapped over the row elements by the scraping script. *)
Definition scrape_row (row : RowNode) : Bet :=
  let cols := columns row in
  let ticketEl := nth_error cols 0 in
  let dateEl := nth_error cols 1 in
  let descEl := nth_error cols 2 in
  let statusEl := nth_error cols 4 in
  let amountEl := nth_error cols 5 in
  let toWinEl := nth_error cols 6 in
  let amountText := Js.or_else (option_map Js.trim amountEl) "" in
  let first_amount := Regex.money amountText in
  {| betId := option_map (fun s => Js.filter is_digit_or_hyphen (Js.trim s)) ticketEl;
     date := option_map Js.trim dateEl;
     description := option_map Js.trim descEl;
     betType := option_map Js.trim statusEl;
     status := if mentions amountEl "Won" then "Won"
               else if mentions amountEl "Lost" then "Lost"
               else if mentions amountEl "Cancel" then "Cancelled"
               else "Pending";
     stake := Js.or_else first_amount "";
     toWin := Js.or_else (match toWinEl with
                          | Some txt => Regex.money txt
                          | None => None
                          end) "";
     site := "betonline";
     scrapedAt := row_seen_at row |}.

Definition sel_login : string :=
  "button:has-text(" ++ quoted "LOGIN" ++ "), a:has-text(" ++ quoted "LOGIN" ++ ")".
Definition sel_kc_login : string := "#kc-login".
Definition sel_balance : string :=
  "[class*=" ++ quoted "balance" ++ "], [class*=" ++ quoted "account-info" ++ "]".
Definition sel_recaptcha : string :=
  "iframe[src*=" ++ quoted "recaptcha" ++ "], .g-recaptcha, #recaptcha".
Definition sel_got_it : string := "button:has-text(" ++ quoted "GOT IT" ++ ")".
Definition sel_bet_history : string := "text=Bet History".

Definition captchaTimeout : Z := 60000.

(** The bound of the scroll loop, [for (let i = 0; i < 5; i++)]. *)
Definition scroll_attempts : nat := 5.

Section Workflow.
Variable B : Browser.
Variable config : SiteConfig.

Definition isLoggedIn : M B bool :=
  hasLoginBtn <- call (Exists sel_login) ;;
  hasKcLogin <- call (Exists sel_kc_login) ;;
  if hasLoginBtn || hasKcLogin then ret false
  else
    hasBalance <- call (Exists sel_balance) ;;
    ret hasBalance.

(** [while (Date.now() - startTime < captchaTimeout) { ... }], at most
    [fuel] times round: [Some r] when the loop returns [r] from [login],
    [None] when it is left by [break] or by its condition. *)
Fixpoint captcha_wait (fuel : nat) (startTime : Z) {struct fuel}
  : M B (option (WorkflowResult unit)) :=
  t <- now ;;
  if (t - startTime <? captchaTimeout)%Z then
    match fuel with
    | O => diverge
    | S fuel' =>
        solved <- try_catch (call EvalCaptchaResponse) (fun _ => ret false) ;;
        if solved then ret None
        else
          logged <- isLoggedIn ;;
          if logged then
            call SaveSession ;;
            r <- success_now ;;
            ret (Some r)
          else
            call (Sleep 2000) ;;
            captcha_wait fuel' startTime
    end
  else ret None.

(** [try { const gotItBtn = ...; if (gotItBtn) { ... } } catch { }] *)
Definition dismiss_popup : M B unit :=
  try_catch
    (gotItBtn <- call (Query sel_got_it) ;;
     if gotItBtn then
       call (ClickHandle sel_got_it) ;;
       call (RandomDelay 400 800)
     else ret tt)
    (fun _ => ret tt).

(** From [this.click('#kc-login')] to the end of the [try] block. *)
Definition submit : M B (WorkflowResult unit) :=
  call (Click sel_kc_login) ;;
  call (RandomDelay 2500 4000) ;;
  dismiss_popup ;;
  call SaveSession ;;
  success_now.

(** The [try] block of [login]. *)
Definition auto_login (fuel : nat) (user pass : string) : M B (WorkflowResult unit) :=
  loginBtn <- call (Query sel_login) ;;
  (if loginBtn then
     call (ClickHandle sel_login) ;;
     call (RandomDelay 1500 2500)
   else ret tt) ;;
  call (WaitFor "#username" 5000) ;;
  call (TypeText "#username" user) ;;
  call (RandomDelay 1200 2500) ;;
  call (TypeText "#password" pass) ;;
  call (RandomDelay 800 1800) ;;
  hasRecaptcha <- call (Exists sel_recaptcha) ;;
  early <- (if hasRecaptcha then
              startTime <- now ;;
              captcha_wait fuel startTime
            else ret None) ;;
  match early with
  | Some r => ret r
  | None => submit
  end.

Definition login (fuel : nat) : M B (WorkflowResult unit) :=
  logged <- isLoggedIn ;;
  if logged then success_now
  else
    match credentials config with
    | Some (user, pass) =>
        try_catch (auto_login fuel user pass) (fun msg => failure_now msg)
    | None => failure_now "No credentials provided"
    end.

(** [for (let i = 0; i < n; i++) { scrollTo(...); await this.sleep(800); }] *)
Fixpoint scroll (n : nat) : M B unit :=
  match n with
  | O => ret tt
  | S n' =>
      call EvalScrollToBottom ;;
      call (Sleep 800) ;;
      scroll n'
  end.

(** What follows the login check inside the [try] block of [getBetHistory]. *)
Definition scrape_history : M B (WorkflowResult (list Bet)) :=
  call (Click sel_balance) ;;
  call (Sleep 1000) ;;
  call (Click sel_bet_history) ;;
  call (Sleep 2000) ;;
  scroll scroll_attempts ;;
  rows <- call EvalRows ;;
  result true (map scrape_row rows) None.

Definition getBetHistory (fromDate toDate : option Js.Date)
  : M B (WorkflowResult (list Bet)) :=
  try_catch
    (logged <- isLoggedIn ;;
     if negb logged then result false [] (Some "Not logged in. Call login() first.")
     else scrape_history)
    (fun msg => result false [] (Some msg)).

End Workflow.

End BetOnline.

(** ** The workflow contract *)

(** What every site workflow offers.  [budget] bounds the rounds of the
    [while] loops of a method, where it has one. *)
Record SiteWorkflow (B : Browser) : Type := mkWorkflow {
  item : Type;
  isLoggedIn : M B bool;
  login : forall budget : nat, M B (WorkflowResult unit);
  getBetHistory : forall budget : nat, option Js.Date -> option Js.Date ->
                  M B (WorkflowResult (list item))
}.
Arguments item {B} _.
Arguments isLoggedIn {B} _.
Arguments login {B} _ _.
Arguments getBetHistory {B} _ _ _ _.

Section Sites.
Variable B : Browser.

(** [new PinnacleWorkflow(config, manager)] *)
Definition PinnacleWorkflow (config : SiteConfig) : SiteWorkflow B :=
  let config := with_default_url Pinnacle.DEFAULT_URL config in
  {| item := Pinnacle.PinnacleBetHistoryItem;
     isLoggedIn := Pinnacle.isLoggedIn B;
     login := fun _ => Pinnacle.login B config;
     getBetHistory := fun _ => Pinnacle.getBetHistory B |}.

(** [new Sports411Workflow(config, manager)] *)
Definition Sports411Workflow (config : SiteConfig) : SiteWorkflow B :=
  let config := with_default_url Sports411.DEFAULT_URL config in
  {| item := Sports411.Bet;
     isLoggedIn := Sports411.isLoggedIn B;
     login := fun _ => Sports411.login B config;
     getBetHistory := Sports411.getBetHistory B |}.

(** [new BetOnlineWorkflow(config, manager)] *)
Definition BetOnlineWorkflow (config : SiteConfig) : SiteWorkflow B :=
  let config := with_default_url BetOnline.DEFAULT_URL config in
  {| item := BetOnline.Bet;
     isLoggedIn := BetOnline.isLoggedIn B;
     login := BetOnline.login B config;
     getBetHistory := fun _ => BetOnline.getBetHistory B |}.

(** The site workflows of the repository, each built from its own configuration. *)
Inductive site_workflow : SiteWorkflow B -> Prop :=
| site_pinnacle (config : SiteConfig) : site_workflow (PinnacleWorkflow config)
| site_sports411 (config : SiteConfig) : site_workflow (Sports411Workflow config)
| site_betonline (config : SiteConfig) : site_workflow (BetOnlineWorkflow config).

End Sites.

Arguments PinnacleWorkflow {B} _.
Arguments Sports411Workflow {B} _.
Arguments BetOnlineWorkflow {B} _.
Arguments site_workflow {B} _.

(** ** A simulated browser

    A small site to run the workflows on: a set of selectors that match,
    history pages behind a next-page control, history rows, a CAPTCHA that
    may be solved at some time, a login form that accepts the credentials
    or not, and calls that can be made to fault. *)

Module Sim.

Record Site : Type := mkSite {
  sim_clock : Z;
  sim_url : string;
  (** the selectors that match an element now *)
  sim_present : list string;
  (** the selectors that match once the submit control has been clicked *)
  sim_after_submit : list string;
  (** the history pages, from the one on display *)
  sim_pages : list (list TicketNode);
  (** the next-page control stays enabled and leads nowhere *)
  sim_stuck : bool;
  sim_rows : list RowNode;
  (** the time from which the CAPTCHA has a response *)
  sim_solved_at : option Z;
  (** the message of the fault of a call, if it is to fault *)
  sim_fault : Action -> option string
}.

Definition matches (p : Site) (selector : string) : bool :=
  existsb (String.eqb selector) (sim_present p).

Definition later (ms : Z) (p : Site) : Site :=
  {| sim_clock := sim_clock p + Z.max 0 ms;
     sim_url := sim_url p;
     sim_present := sim_present p;
     sim_after_submit := sim_after_submit p;
     sim_pages := sim_pages p;
     sim_stuck := sim_stuck p;
     sim_rows := sim_rows p;
     sim_solved_at := sim_solved_at p;
     sim_fault := sim_fault p |}.

Definition submitted (p : Site) : Site :=
  {| sim_clock := sim_clock p;
     sim_url := sim_url p;
     sim_present := sim_after_submit p;
     sim_after_submit := sim_after_submit p;
     sim_pages := sim_pages p;
     sim_stuck := sim_stuck p;
     sim_rows := sim_rows p;
     sim_solved_at := sim_solved_at p;
     sim_fault := sim_fault p |}.

Definition next_page (p : Site) : Site :=
  {| sim_clock := sim_clock p;
     sim_url := sim_url p;
     sim_present := sim_present p;
     sim_after_submit := sim_after_submit p;
     sim_pages := if sim_stuck p then sim_pages p else tl (sim_pages p);
     sim_stuck := sim_stuck p;
     sim_rows := sim_rows p;
     sim_solved_at := sim_solved_at p;
     sim_fault := sim_fault p |}.

Definition has_next (p : Site) : bool :=
  sim_stuck p || (1 <? List.length (sim_pages p))%nat.

Definition is_submit (selector : string) : bool :=
  String.eqb selector Pinnacle.sel_sign_in
  || String.eqb selector BetOnline.sel_kc_login
  || existsb (String.eqb selector) Sports411.loginBtnSelectors.

Definition click (selector : string) (p : Site) : Site :=
  if String.eqb selector Sports411.sel_next then next_page p
  else if is_submit selector then submitted p
  else p.

Definition solved (p : Site) : bool :=
  match sim_solved_at p with
  | Some t => (t <=? sim_clock p)%Z
  | None => false
  end.

Definition respond (a : Action) : Site -> Res Site (answer a) :=
  match a as a0 return Site -> Res Site (answer a0) with
  | Exists selector => fun p => Ok (matches p selector) p
  | Query selector => fun p =>
      Ok (if String.eqb selector Sports411.sel_next then has_next p
          else matches p selector) p
  | ClickHandle selector => fun p => Ok tt (click selector p)
  | Click selector => fun p => Ok tt (click selector p)
  | TypeText _ _ => fun p => Ok tt p
  | WaitFor _ _ => fun p => Ok tt p
  | Sleep ms => fun p => Ok tt (later ms p)
  | RandomDelay lo _ => fun p => Ok tt (later lo p)
  | SaveSession => fun p => Ok tt p
  | SuperLogin => fun p =>
      Ok (mkResult false None (Some "Manual login timed out") (sim_clock p)) p
  | EvalSetDateRange _ _ => fun p => Ok tt p
  | EvalTickets => fun p => Ok (hd [] (sim_pages p)) p
  | EvalCaptchaResponse => fun p => Ok (solved p) p
  | EvalScrollToBottom => fun p => Ok tt p
  | EvalRows => fun p => Ok (sim_rows p) p
  end.

Definition sim_perform (a : Action) (p : Site) : Res Site (answer a) :=
  match sim_fault p a with
  | Some msg => Fault msg p
  | None => respond a p
  end.

Definition browser : Browser :=
  {| page := Site;
     clock := sim_clock;
     url := sim_url;
     perform := sim_perform |}.

Definition no_fault : Action -> option string := fun _ => None.

Definition ticket (n : string) : TicketNode :=
  {| date_data := Some ("Ticket # " ++ n ++ " 12/25@3:30 PM");
     bet_type := Some " Straight ";
     game := Some "Lakers -3.5";
     amounts := ["110 / 100"; "100"];
     ticket_seen_at := "2024-12-26T10:00:00.000Z" |}.

(** A Sports411 session that is logged in, with the given history pages. *)
Definition sports411_logged_in (pages : list (list TicketNode)) (stuck : bool) : Site :=
  {| sim_clock := 0;
     sim_url := "https://sports411.ag/en/sports";
     sim_present := [];
     sim_after_submit := [];
     sim_pages := pages;
     sim_stuck := stuck;
     sim_rows := [];
     sim_solved_at := None;
     sim_fault := no_fault |}.

Definition three_pages : list (list TicketNode) :=
  [ [ticket "101"; ticket "102"]; [ticket "103"; ticket "104"]; [ticket "105"; ticket "106"] ].

(** One page of history behind a next-page control that stays enabled. *)
Definition sports411_stuck : Site :=
  sports411_logged_in [[ticket "101"; ticket "102"]] true.

(** A Sports411 login page whose form stays whatever is submitted. *)
Definition sports411_rejecting : Site :=
  {| sim_clock := 0;
     sim_url := "https://sports411.ag/";
     sim_present := [Sports411.sel_login_form; "#account"; "#password"; "input.btn.login"];
     sim_after_submit := [Sports411.sel_login_form; "#account"; "#password"; "input.btn.login"];
     sim_pages := [];
     sim_stuck := false;
     sim_rows := [];
     sim_solved_at := None;
     sim_fault := no_fault |}.

(** A BetOnline login page with a CAPTCHA that has a response from
    [solved_at] on, and a submit control that logs in or not. *)
Definition betonline_captcha (solved_at : option Z) (accepts : bool)
    (faults : Action -> option string) : Site :=
  {| sim_clock := 1000;
     sim_url := "https://www.betonline.ag/";
     sim_present := [BetOnline.sel_login; BetOnline.sel_recaptcha];
     sim_after_submit := if accepts then [BetOnline.sel_balance]
                         else [BetOnline.sel_login; BetOnline.sel_recaptcha];
     sim_pages := [];
     sim_stuck := false;
     sim_rows := [];
     sim_solved_at := solved_at;
     sim_fault := faults |}.


(** A BetOnline session that is logged in, with the given history rows. *)
Definition betonline_logged_in (rows : list RowNode) : Site :=
  {| sim_clock := 0;
     sim_url := "https://www.betonline.ag/sportsbook";
     sim_present := [BetOnline.sel_balance];
     sim_after_submit := [BetOnline.sel_balance];
     sim_pages := [];
     sim_stuck := false;
     sim_rows := rows;
     sim_solved_at := None;
     sim_fault := no_fault |}.

Definition won_row : RowNode :=
  {| columns := [" 12345-1 "; "12/25/2024"; "Lakers -3.5"; ""; "Straight";
                 " $110.00 Won "; "$100.00"];
     row_seen_at := "2024-12-26T10:00:00.000Z" |}.

(** What the scraping script makes of [won_row]. *)
Definition won_bet : BetOnline.Bet :=
  Eval vm_compute in BetOnline.scrape_row won_row.




(** A Pinnacle login page: the form goes away on submission or stays. *)
Definition pinnacle_login_page (accepts : bool) : Site :=
  {| sim_clock := 0;
     sim_url := "https://probet42.com/";
     sim_present := [Pinnacle.sel_sign_in; Pinnacle.sel_username; Pinnacle.sel_password];
     sim_after_submit := if accepts then [Pinnacle.sel_account_menu]
                         else [Pinnacle.sel_sign_in; Pinnacle.sel_username;
                               Pinnacle.sel_password];
     sim_pages := [];
     sim_stuck := false;
     sim_rows := [];
     sim_solved_at := None;
     sim_fault := no_fault |}.

(** The Sports411 front page with neither login form nor LOG IN button. *)
Definition sports411_front_page : Site :=
  {| sim_clock := 0;
     sim_url := "https://sports411.ag/";
     sim_present := [];
     sim_after_submit := [];
     sim_pages := [];
     sim_stuck := false;
     sim_rows := [];
     sim_solved_at := None;
     sim_fault := no_fault |}.

Definition with_credentials : SiteConfig :=
  {| id := "s1"; name := "Site one"; baseUrl := None;
     username := Some "alice"; password := Some "secret" |}.

Definition without_credentials : SiteConfig :=
  {| id := "s2"; name := "Site two"; baseUrl := None;
     username := None; password := None |}.

End Sim.

(** The calls that only look at the page. *)
Definition is_probe (a : Action) : bool :=
  match a with
  | Exists _ => true
  | _ => false
  end.

Definition is_poll (a : Action) : bool :=
  match a with
  | EvalCaptchaResponse => true
  | _ => false
  end.

(** The pause between two polls of the CAPTCHA wait. *)
Definition is_pause (a : Action) : bool :=
  match a with
  | Sleep 2000 => true
  | _ => false
  end.

Definition is_scroll (a : Action) : bool :=
  match a with
  | EvalScrollToBottom => true
  | _ => false
  end.

Definition is_extraction (a : Action) : bool :=
  match a with
  | EvalRows | EvalTickets => true
  | _ => false
  end.

Definition is_save (a : Action) : bool :=
  match a with
  | SaveSession => true
  | _ => false
  end.

Definition is_super_login (a : Action) : bool :=
  match a with
  | SuperLogin => true
  | _ => false
  end.

(** How many of the calls satisfy [f]. *)
Definition count (f : Action -> bool) (l : list Action) : nat :=
  List.length (List.filter f l).


(** ** Vocabulary of the properties *)

Section Vocabulary.
Variable B : Browser.

(** [wp m Q p]: the run of [m] from page [p] satisfies [Q]. *)
Definition wp {A : Type} (m : M B A) (Q : Run (page B) A -> Prop) (p : page B) : Prop :=
  Q (m p).

(** How the run of [m] is continued by [k]. *)
Definition continue {A C : Type} (r : Run (page B) A) (r' : Run (page B) C)
  : Run (page B) C :=
  mkRun (evs r ++ evs r') (fin r') (out r').

(** The run met a fault with message [msg] in a call that [hidden] does not cover. *)
Definition faulted {S A : Type} (hidden : Action -> bool) (r : Run S A) (msg : string) : Prop :=
  exists e, In e (evs r) /\ fault e = Some msg /\ hidden (action e) = false.

(** A fault in a call that [hidden] does not cover ends [m] with that fault. *)
Definition propagates {A : Type} (hidden : Action -> bool) (m : M B A) : Prop :=
  forall p msg, faulted hidden (m p) msg -> out (m p) = Throw msg.

(** [m] throws nothing but the faults of its calls that [hidden] does not cover. *)
Definition throws_faults_only {A : Type} (hidden : Action -> bool) (m : M B A) : Prop :=
  forall p msg, out (m p) = Throw msg -> faulted hidden (m p) msg.

(** [m] comes to an end: it returns or throws. *)
Definition halts {A : Type} (m : M B A) : Prop :=
  forall p, out (m p) <> Diverge.

(** Every call of [m] is one that [hidden] covers. *)
Definition calls_only {A : Type} (hidden : Action -> bool) (m : M B A) : Prop :=
  forall p, Forall (fun a => hidden a = true) (actions (m p)).

(** When [m] returns a result early, it is a success and the session has been saved. *)
Definition early_saved (m : M B (option (WorkflowResult unit))) : Prop :=
  forall p res, out (m p) = Ret (Some res) ->
                success res = true /\ In SaveSession (actions (m p)).

(** When [m] returns a result, it is a success and the session has been saved. *)
Definition returns_saved (m : M B (WorkflowResult unit)) : Prop :=
  forall p res, out (m p) = Ret res ->
                success res = true /\ In SaveSession (actions (m p)).

(** The workflows whose [login] has no manual fall-back. *)
Inductive no_manual_fallback : SiteConfig -> SiteWorkflow B -> Prop :=
| strict_sports411 (config : SiteConfig) :
    no_manual_fallback config (Sports411Workflow config)
| strict_betonline (config : SiteConfig) :
    no_manual_fallback config (BetOnlineWorkflow config).

(** [paginated pages p]: from page [p] on, the Sports411 history shows
    the ticket elements [pages], one list per page, each page but the
    last with an enabled next-page control that leads to the next. *)
Inductive paginated : list (list TicketNode) -> page B -> Prop :=
| last_page (tickets : list TicketNode) (p p1 p2 : page B) :
    perform B EvalTickets p = Ok tickets p1 ->
    perform B (Query Sports411.sel_next) p1 = Ok false p2 ->
    paginated [tickets] p
| next_page (tickets : list TicketNode) (rest : list (list TicketNode))
            (p p1 p2 p3 p4 : page B) :
    perform B EvalTickets p = Ok tickets p1 ->
    perform B (Query Sports411.sel_next) p1 = Ok true p2 ->
    perform B (ClickHandle Sports411.sel_next) p2 = Ok tt p3 ->
    perform B (Sleep 1500) p3 = Ok tt p4 ->
    paginated rest p4 ->
    paginated (tickets :: rest) p.

(** The clock never runs backwards and a pause that ends lasts at least
    what was asked. *)
Definition clock_advances : Prop :=
  (forall a p, (clock B p <= clock B (res_state (perform B a p)))%Z) /\
  (forall ms p q, perform B (Sleep ms) p = Ok tt q -> (clock B p + ms <= clock B q)%Z).

End Vocabulary.

Arguments wp {B A} _ _ _.
Arguments continue {B A C} _ _.
Arguments faulted {S A} _ _ _.
Arguments propagates {B A} _ _.
Arguments throws_faults_only {B A} _ _.
Arguments calls_only {B A} _ _.
Arguments halts {B A} _.
Arguments returns_saved {B} _.
Arguments early_saved {B} _.
Arguments no_manual_fallback {B} _ _.
Arguments paginated {B} _ _.

(** The calls that neither save the session nor hand over to the base class. *)
Definition keeps_session (a : Action) : bool :=
  negb (is_save a || is_super_login a).

(** No call is covered. *)
Definition nothing_hidden : Action -> bool := fun _ => false.

(** The calls whose faults BetOnline's [login] swallows: the look-up of
    the CAPTCHA response and the dismissal of the pop-up. *)
Definition betonline_swallowed (a : Action) : bool :=
  match a with
  | EvalCaptchaResponse => true
  | Query selector => String.eqb selector BetOnline.sel_got_it
  | ClickHandle selector => String.eqb selector BetOnline.sel_got_it
  | RandomDelay lo hi => (lo =? 400)%Z && (hi =? 800)%Z
  | _ => false
  end.

(** The calls of a successful BetOnline [getBetHistory], in order. *)
Definition betonline_history_script : list Action :=
  ([ Exists BetOnline.sel_login; Exists BetOnline.sel_kc_login; Exists BetOnline.sel_balance;
     Click BetOnline.sel_balance; Sleep 1000; Click BetOnline.sel_bet_history; Sleep 2000 ]
   ++ List.concat (repeat [EvalScrollToBottom; Sleep 800] BetOnline.scroll_attempts)
   ++ [ EvalRows ])%list.

(** The status values of the spec's [BetHistoryItem], as strings. *)
Definition spec_statuses : list string := ["pending"; "won"; "lost"; "void"; "cashout"].

(** The status values BetOnline's scraping script writes. *)
Definition betonline_statuses : list string := ["Won"; "Lost"; "Cancelled"; "Pending"].

(** The calls of a list that do more than look at the page. *)
Definition authentication_calls (l : list Action) : list Action :=
  List.filter (fun a => negb (is_probe a)) l.


(** ** The balance placeholder of Pinnacle *)

Module PinnacleBalance.

(** [{ balance: number; currency: string }], the balance in thousandths. *)
Record Balance : Type := mkBalance {
  balance : Z;
  currency : string
}.

Section Workflow.
Variable B : Browser.

(** [PinnacleWorkflow.getBalance]; [null] is [None]. *)
Definition getBalance : M B (WorkflowResult (option Balance)) :=
  try_catch
    (logged <- Pinnacle.isLoggedIn B ;;
     if negb logged then result false None (Some "Not logged in")
     else result true None (Some "Not implemented"))
    (fun msg => result false None (Some msg)).

(** [PinnacleWorkflow.navigateToBetHistory] *)
Definition navigateToBetHistory : M B bool := ret false.

End Workflow.

End PinnacleBalance.

(** ** JavaScript maps with string keys

    A [Map] keeps its entries in the order in which their keys were first
    set; setting a key that is there replaces the value in place.  A key
    stands once in the list of entries: [empty] has it so, and [set] and
    [remove] keep it so. *)

Module JsMap.

Definition t (V : Type) : Type := list (string * V).

(** [new Map()], [m.clear()] *)
Definition empty {V : Type} : t V := [].

(** [m.get(k)] *)
Fixpoint get {V : Type} (m : t V) (k : string) : option V :=
  match m with
  | [] => None
  | (k', v) :: rest => if String.eqb k' k then Some v else get rest k
  end.

(** [m.has(k)], which is also what [m.delete(k)] returns. *)
Definition has {V : Type} (m : t V) (k : string) : bool :=
  match get m k with
  | Some _ => true
  | None => false
  end.

(** [m.set(k, v)] *)
Fixpoint set {V : Type} (m : t V) (k : string) (v : V) : t V :=
  match m with
  | [] => [(k, v)]
  | (k', v') :: rest =>
      if String.eqb k' k then (k, v) :: rest else (k', v') :: set rest k v
  end.

(** The entries left by [m.delete(k)]. *)
Fixpoint remove {V : Type} (m : t V) (k : string) : t V :=
  match m with
  | [] => []
  | (k', v) :: rest =>
      if String.eqb k' k then remove rest k else (k', v) :: remove rest k
  end.

Definition keys {V : Type} (m : t V) : list string := map fst m.

(** [Array.from(m.values())] *)
Definition values {V : Type} (m : t V) : list V := map snd m.

End JsMap.

(** ** The store of site and proxy configurations *)

Module ConfigStore.

Definition DEFAULT_SITES_FILE : string := "./config/sites.json".
Definition DEFAULT_PROXIES_FILE : string := "./config/proxies.json".

(** [StoredSiteConfig]: the fields of [SiteConfig] the sources read and
    the optional ones the store adds. *)
Record StoredSiteConfig : Type := mkStoredSite {
  id : string;
  name : string;
  baseUrl : option string;
  username : option string;
  password : option string;
  proxyName : option string;
  workflowImplemented : option bool;
  createdAt : option string
}.

(** [Partial<StoredSiteConfig>]: [None] for a property that is not there.
    An optional property can be there and hold [undefined]; [id] and
    [name], when they are there, hold a string. *)
Record SiteUpdates : Type := mkSiteUpdates {
  new_id : option string;
  new_name : option string;
  new_baseUrl : option (option string);
  new_username : option (option string);
  new_password : option (option string);
  new_proxyName : option (option string);
  new_workflowImplemented : option (option bool);
  new_createdAt : option (option string)
}.

Definition no_updates : SiteUpdates :=
  mkSiteUpdates None None None None None None None None.

Definition overridden {T : Type} (old : T) (new : option T) : T :=
  match new with
  | Some v => v
  | None => old
  end.

(** [{ ...existing, ...updates }] *)
Definition merge (existing : StoredSiteConfig) (updates : SiteUpdates) : StoredSiteConfig :=
  {| id := overridden (id existing) (new_id updates);
     name := overridden (name existing) (new_name updates);
     baseUrl := overridden (baseUrl existing) (new_baseUrl updates);
     username := overridden (username existing) (new_username updates);
     password := overridden (password existing) (new_password updates);
     proxyName := overridden (proxyName existing) (new_proxyName updates);
     workflowImplemented :=
       overridden (workflowImplemented existing) (new_workflowImplemented updates);
     createdAt := overridden (createdAt existing) (new_createdAt updates) |}.

(** [{ ...site, createdAt: site.createdAt || now }] *)
Definition stamped (site : StoredSiteConfig) (now : string) : StoredSiteConfig :=
  {| id := id site;
     name := name site;
     baseUrl := baseUrl site;
     username := username site;
     password := password site;
     proxyName := proxyName site;
     workflowImplemented := workflowImplemented site;
     createdAt := Some (Js.or_else (createdAt site) now) |}.

(** [StoredProxy] *)
Record StoredProxy : Type := mkStoredProxy {
  proxy_name : string;
  proxy_server : string;
  proxy_username : option string;
  proxy_password : option string
}.

(** [ProxyConfig], as [getProxyForSite] builds it. *)
Record ProxyConfig : Type := mkProxyConfig {
  server : string;
  server_username : option string;
  server_password : option string
}.

(** The state of a [SiteConfigManager]. *)
Record Manager : Type := mkManager {
  sitesFile : string;
  proxiesFile : string;
  sites : JsMap.t StoredSiteConfig;
  proxies : JsMap.t StoredProxy
}.

(** [new SiteConfigManager(sitesFile, proxiesFile)]; [??] replaces only
    an argument that is not given. *)
Definition create (sitesFile proxiesFile : option string) : Manager :=
  {| sitesFile := match sitesFile with Some f => f | None => DEFAULT_SITES_FILE end;
     proxiesFile := match proxiesFile with Some f => f | None => DEFAULT_PROXIES_FILE end;
     sites := JsMap.empty;
     proxies := JsMap.empty |}.

Definition with_sites (m : Manager) (s : JsMap.t StoredSiteConfig) : Manager :=
  {| sitesFile := sitesFile m; proxiesFile := proxiesFile m;
     sites := s; proxies := proxies m |}.

Definition with_proxies (m : Manager) (s : JsMap.t StoredProxy) : Manager :=
  {| sitesFile := sitesFile m; proxiesFile := proxiesFile m;
     sites := sites m; proxies := s |}.

(** [getSite(id)] *)
Definition getSite (m : Manager) (key : string) : option StoredSiteConfig :=
  JsMap.get (sites m) key.

(** [listSites()] *)
Definition listSites (m : Manager) : list StoredSiteConfig := JsMap.values (sites m).

(** [getProxy(name)] *)
Definition getProxy (m : Manager) (key : string) : option StoredProxy :=
  JsMap.get (proxies m) key.

(** [listProxies()] *)
Definition listProxies (m : Manager) : list StoredProxy := JsMap.values (proxies m).

(** [getProxyForSite(siteId)] *)
Definition getProxyForSite (m : Manager) (siteId : string) : option ProxyConfig :=
  match JsMap.get (sites m) siteId with
  | None => None
  | Some site =>
      match proxyName site with
      | None => None
      | Some pname =>
          if Js.truthy pname then
            match JsMap.get (proxies m) pname with
            | None => None
            | Some proxy =>
                Some {| server := proxy_server proxy;
                        server_username := proxy_username proxy;
                        server_password := proxy_password proxy |}
            end
          else None
      end
  end.

(** [s.lastIndexOf(c)], [None] for -1. *)
Fixpoint lastIndexOf (c : ascii) (s : string) : option nat :=
  match s with
  | EmptyString => None
  | String c' rest =>
      match lastIndexOf c rest with
      | Some i => Some (S i)
      | None => if Ascii.eqb c' c then Some O else None
      end
  end.

(** [file.substring(0, file.lastIndexOf('/'))]; [substring] takes a
    negative end for 0.  The slash is one byte and no part of another
    character, so the bytes before the last slash are the characters
    before it. *)
Definition dir_of (file : string) : string :=
  match lastIndexOf "/"%char file with
  | Some i => substring 0 i file
  | None => EmptyString
  end.

(** What [JSON.parse] makes of the text of a file that is to hold an
    array of records: it throws, or gives a value that [for ... of]
    cannot go through (an object, a number, a boolean, [null]), or gives
    the array.  The entries of an array are taken for records, as the
    cast of the source takes them; a text that holds a JSON string, which
    [for ... of] goes through character by character, is left out. *)
Inductive Parsed (T : Type) : Type :=
| ParseThrows
| NotIterable
| ParsedArray (items : list T).
Arguments ParseThrows {T}.
Arguments NotIterable {T}.
Arguments ParsedArray {T} _.

(** The calls on [fs/promises]. *)
Inductive FsCall : Type :=
| ReadFile (path : string)                  (* readFile(path, 'utf-8') *)
| WriteFile (path : string) (text : string) (* writeFile(path, text, 'utf-8') *)
| Mkdir (path : string).                    (* mkdir(path, { recursive: true }) *)

Definition fs_answer (c : FsCall) : Type :=
  match c with
  | ReadFile _ => string
  | _ => unit
  end.

(** What the store runs on: the disk with [existsSync] and the calls of
    [fs/promises], the clock, and [JSON] on arrays of sites and of proxies. *)
Record Platform : Type := mkPlatform {
  disk : Type;
  existsSync : string -> disk -> bool;
  isoNow : disk -> string;
  fs : forall c : FsCall, disk -> Res disk (fs_answer c);
  parseSites : string -> Parsed StoredSiteConfig;
  parseProxies : string -> Parsed StoredProxy;
  stringifySites : list StoredSiteConfig -> string;
  stringifyProxies : list StoredProxy -> string
}.

(** How a promise settles. *)
Inductive Settled (A : Type) : Type :=
| Resolved (v : A)
| Rejected (msg : string).
Arguments Resolved {A} _.
Arguments Rejected {A} _.

(** One call on the file system and the fault it met. *)
Record FsEvent : Type := mkFsEvent {
  fs_call : FsCall;
  fs_fault : option string
}.

(** What a method of the store leaves: the calls it made, the manager,
    the disk, and how it settled. *)
Record Step (D A : Type) : Type := mkStep {
  fs_calls : list FsEvent;
  mem : Manager;
  dsk : D;
  settled : Settled A
}.
Arguments mkStep {D A} _ _ _ _.
Arguments fs_calls {D A} _.
Arguments mem {D A} _.
Arguments dsk {D A} _.
Arguments settled {D A} _.

Definition Op (P : Platform) (A : Type) : Type :=
  Manager -> disk P -> Step (disk P) A.

Section Store.
Variable P : Platform.

Definition pure {A : Type} (v : A) : Op P A :=
  fun m d => mkStep [] m d (Resolved v).

Definition reject {A : Type} (msg : string) : Op P A :=
  fun m d => mkStep [] m d (Rejected msg).

Definition and_then {A C : Type} (o : Op P A) (k : A -> Op P C) : Op P C :=
  fun m d =>
    let s := o m d in
    match settled s with
    | Resolved v =>
        let s' := k v (mem s) (dsk s) in
        mkStep (fs_calls s ++ fs_calls s')%list (mem s') (dsk s') (settled s')
    | Rejected msg => mkStep (fs_calls s) (mem s) (dsk s) (Rejected msg)
    end.

(** [try { o } catch (err) { handler }] *)
Definition catching {A : Type} (o : Op P A) (handler : string -> Op P A) : Op P A :=
  fun m d =>
    let s := o m d in
    match settled s with
    | Rejected msg =>
        let s' := handler msg (mem s) (dsk s) in
        mkStep (fs_calls s ++ fs_calls s')%list (mem s') (dsk s') (settled s')
    | Resolved _ => s
    end.

(** [await] of one call on the file system. *)
Definition on_fs (c : FsCall) : Op P (fs_answer c) :=
  fun m d =>
    match fs P c d with
    | Ok v d' => mkStep [mkFsEvent c None] m d' (Resolved v)
    | Fault msg d' => mkStep [mkFsEvent c (Some msg)] m d' (Rejected msg)
    end.

(** Reading a field of [this]. *)
Definition this {A : Type} (field : Manager -> A) : Op P A :=
  fun m d => mkStep [] m d (Resolved (field m)).

(** Changing [this.sites]. *)
Definition change_sites (f : JsMap.t StoredSiteConfig -> JsMap.t StoredSiteConfig)
  : Op P unit :=
  fun m d => mkStep [] (with_sites m (f (sites m))) d (Resolved tt).

(** Changing [this.proxies]. *)
Definition change_proxies (f : JsMap.t StoredProxy -> JsMap.t StoredProxy) : Op P unit :=
  fun m d => mkStep [] (with_proxies m (f (proxies m))) d (Resolved tt).

(** [existsSync(path)] *)
Definition exists_sync (path : string) : Op P bool :=
  fun m d => mkStep [] m d (Resolved (existsSync P path d)).

(** [new Date().toISOString()] *)
Definition iso_now : Op P string :=
  fun m d => mkStep [] m d (Resolved (isoNow P d)).

(** [ensureDir(file)] *)
Definition ensureDir (file : string) : Op P unit :=
  let dir := dir_of file in
  and_then (exists_sync dir) (fun there =>
  if Js.truthy dir && negb there then on_fs (Mkdir dir) else pure tt).

(** [saveSites()] *)
Definition saveSites : Op P unit :=
  and_then (this sitesFile) (fun file =>
  and_then (ensureDir file) (fun _ =>
  and_then (this listSites) (fun all =>
  on_fs (WriteFile file (stringifySites P all))))).

(** [saveProxies()] *)
Definition saveProxies : Op P unit :=
  and_then (this proxiesFile) (fun file =>
  and_then (ensureDir file) (fun _ =>
  and_then (this listProxies) (fun all =>
  on_fs (WriteFile file (stringifyProxies P all))))).

(** [addSite(site)] *)
Definition addSite (site : StoredSiteConfig) : Op P unit :=
  and_then iso_now (fun now =>
  and_then (change_sites (fun s => JsMap.set s (id site) (stamped site now))) (fun _ =>
  saveSites)).

(** [deleteSite(id)] *)
Definition deleteSite (key : string) : Op P bool :=
  and_then (this (fun m => JsMap.has (sites m) key)) (fun deleted =>
  and_then (change_sites (fun s => JsMap.remove s key)) (fun _ =>
  and_then (if deleted then saveSites else pure tt) (fun _ =>
  pure deleted))).

(** [updateSite(id, updates)]; [null] is [None]. *)
Definition updateSite (key : string) (updates : SiteUpdates)
  : Op P (option StoredSiteConfig) :=
  and_then (this (fun m => getSite m key)) (fun existing =>
  match existing with
  | None => pure None
  | Some e =>
      let updated := merge e updates in
      and_then (change_sites (fun s => JsMap.set s key updated)) (fun _ =>
      and_then saveSites (fun _ =>
      pure (Some updated)))
  end).

(** [addProxy(proxy)] *)
Definition addProxy (proxy : StoredProxy) : Op P unit :=
  and_then (change_proxies (fun s => JsMap.set s (proxy_name proxy) proxy)) (fun _ =>
  saveProxies).

(** [deleteProxy(name)] *)
Definition deleteProxy (key : string) : Op P bool :=
  and_then (this (fun m => JsMap.has (proxies m) key)) (fun deleted =>
  and_then (change_proxies (fun s => JsMap.remove s key)) (fun _ =>
  and_then (if deleted then saveProxies else pure tt) (fun _ =>
  pure deleted))).

(** [for (const site of sites) { this.sites.set(site.id, site); }] *)
Definition set_all_sites (items : list StoredSiteConfig) (s : JsMap.t StoredSiteConfig)
  : JsMap.t StoredSiteConfig :=
  fold_left (fun acc site => JsMap.set acc (id site) site) items s.

(** [for (const proxy of proxies) { this.proxies.set(proxy.name, proxy); }] *)
Definition set_all_proxies (items : list StoredProxy) (s : JsMap.t StoredProxy)
  : JsMap.t StoredProxy :=
  fold_left (fun acc proxy => JsMap.set acc (proxy_name proxy) proxy) items s.

(** [loadSites()] *)
Definition loadSites : Op P unit :=
  and_then (this sitesFile) (fun file =>
  and_then (exists_sync file) (fun there =>
  if negb there then pure tt
  else
    catching
      (and_then (on_fs (ReadFile file)) (fun data =>
       match parseSites P data with
       | ParseThrows => reject "Unexpected token in JSON"
       | NotIterable =>
           and_then (change_sites (fun _ => JsMap.empty)) (fun _ =>
           reject "sites is not iterable")
       | ParsedArray items =>
           and_then (change_sites (fun _ => JsMap.empty)) (fun _ =>
           change_sites (set_all_sites items))
       end))
      (fun _ => pure tt))).

(** [loadProxies()] *)
Definition loadProxies : Op P unit :=
  and_then (this proxiesFile) (fun file =>
  and_then (exists_sync file) (fun there =>
  if negb there then pure tt
  else
    catching
      (and_then (on_fs (ReadFile file)) (fun data =>
       match parseProxies P data with
       | ParseThrows => reject "Unexpected token in JSON"
       | NotIterable =>
           and_then (change_proxies (fun _ => JsMap.empty)) (fun _ =>
           reject "proxies is not iterable")
       | ParsedArray items =>
           and_then (change_proxies (fun _ => JsMap.empty)) (fun _ =>
           change_proxies (set_all_proxies items))
       end))
      (fun _ => pure tt))).

(** [load()] *)
Definition load : Op P unit :=
  and_then loadSites (fun _ => loadProxies).

End Store.

Arguments pure {P A} _.
Arguments reject {P A} _.
Arguments and_then {P A C} _ _.
Arguments catching {P A} _ _.
Arguments on_fs {P} _.

(** What [saveSites] and [saveProxies] do with their file and its text. *)
Definition save (P : Platform) (file text : string) : Op P unit :=
  and_then (ensureDir P file) (fun _ => on_fs (WriteFile file text)).

Definition is_read (c : FsCall) : bool :=
  match c with
  | ReadFile _ => true
  | _ => false
  end.

Definition is_mkdir (c : FsCall) : bool :=
  match c with
  | Mkdir _ => true
  | _ => false
  end.

(** The files written by the calls that met no fault, in order, with
    their texts. *)
Fixpoint written (l : list FsEvent) : list (string * string) :=
  match l with
  | [] => []
  | e :: rest =>
      match fs_call e, fs_fault e with
      | WriteFile path text, None => (path, text) :: written rest
      | _, _ => written rest
      end
  end.

(** The directories made by the calls that met no fault. *)
Fixpoint made (l : list FsEvent) : list string :=
  match l with
  | [] => []
  | e :: rest =>
      match fs_call e, fs_fault e with
      | Mkdir path, None => path :: made rest
      | _, _ => made rest
      end
  end.

(** One of the calls met the fault [msg]. *)
Definition fs_faulted {D A : Type} (s : Step D A) (msg : string) : Prop :=
  exists e, In e (fs_calls s) /\ fs_fault e = Some msg.


(** Every site is stored under its own id, and under one key only. *)
Definition keyed_by_id (s : JsMap.t StoredSiteConfig) : Prop :=
  Forall (fun entry => fst entry = id (snd entry)) s /\ NoDup (JsMap.keys s).

(** A disk that gives back what was written to it. *)
Definition keeps_files (P : Platform) : Prop :=
  forall path text d d',
    fs P (WriteFile path text) d = Ok tt d' ->
    existsSync P path d' = true /\
    exists d'', fs P (ReadFile path) d' = Ok text d''.

End ConfigStore.

(** ** A simulated disk and codec for the store *)

Module SimStore.
Import ConfigStore.

(** The files with their texts, the directories, the time, the files
    that can be neither read nor written, and whether the disk takes
    changes at all. *)
Record Disk : Type := mkDisk {
  files : JsMap.t string;
  dirs : list string;
  today : string;
  locked : list string;
  frozen : bool
}.

Definition is_dir (d : Disk) (path : string) : bool :=
  existsb (String.eqb path) (dirs d).

Definition is_locked (d : Disk) (path : string) : bool :=
  existsb (String.eqb path) (locked d).

Definition sim_exists (path : string) (d : Disk) : bool :=
  JsMap.has (files d) path || is_dir d path.

Definition with_files (d : Disk) (f : JsMap.t string) : Disk :=
  {| files := f; dirs := dirs d; today := today d; locked := locked d;
     frozen := frozen d |}.

Definition with_dir (d : Disk) (path : string) : Disk :=
  {| files := files d; dirs := path :: dirs d; today := today d;
     locked := locked d; frozen := frozen d |}.

(** A file is written into the current directory or into a directory that is there. *)
Definition sim_fs (c : FsCall) : Disk -> Res Disk (fs_answer c) :=
  match c as c' return Disk -> Res Disk (fs_answer c') with
  | ReadFile path => fun d =>
      if is_locked d path then Fault "EACCES: permission denied" d
      else
        match JsMap.get (files d) path with
        | Some text => Ok text d
        | None => Fault "ENOENT: no such file or directory" d
        end
  | WriteFile path text => fun d =>
      if frozen d then Fault "EROFS: read-only file system" d
      else if is_locked d path then Fault "EACCES: permission denied" d
      else if Js.truthy (dir_of path) && negb (is_dir d (dir_of path))
      then Fault "ENOENT: no such file or directory" d
      else Ok tt (with_files d (JsMap.set (files d) path text))
  | Mkdir path => fun d =>
      if frozen d then Fault "EROFS: read-only file system" d
      else Ok tt (with_dir d path)
  end.

(** The codec: a string as its length in strokes, a colon and the
    string; what is not there as [N]. *)
Fixpoint strokes (n : nat) : string :=
  match n with
  | O => EmptyString
  | S n' => String "1"%char (strokes n')
  end.

Definition put (s : string) : string := strokes (String.length s) ++ ":" ++ s.

Definition put_opt (o : option string) : string :=
  match o with
  | None => "N"
  | Some s => "S" ++ put s
  end.

Definition put_flag (o : option bool) : string :=
  match o with
  | None => "N"
  | Some true => "T"
  | Some false => "F"
  end.

Definition put_site (s : StoredSiteConfig) : string :=
  put (id s) ++ put (name s) ++ put_opt (baseUrl s) ++ put_opt (username s)
  ++ put_opt (password s) ++ put_opt (proxyName s)
  ++ put_flag (workflowImplemented s) ++ put_opt (createdAt s).

Definition put_proxy (p : StoredProxy) : string :=
  put (proxy_name p) ++ put (proxy_server p) ++ put_opt (proxy_username p)
  ++ put_opt (proxy_password p).

Definition put_all {T : Type} (put_one : T -> string) (l : list T) : string :=
  "[" ++ String.concat "" (map put_one l) ++ "]".

Fixpoint count_strokes (s : string) : option (nat * string) :=
  match s with
  | String "1"%char rest =>
      match count_strokes rest with
      | Some (n, rest') => Some (S n, rest')
      | None => None
      end
  | String ":"%char rest => Some (O, rest)
  | _ => None
  end.

Fixpoint take (n : nat) (s : string) : option (string * string) :=
  match n with
  | O => Some (EmptyString, s)
  | S n' =>
      match s with
      | String c rest =>
          match take n' rest with
          | Some (a, b) => Some (String c a, b)
          | None => None
          end
      | EmptyString => None
      end
  end.

Definition Reader (T : Type) : Type := string -> option (T * string).

Definition read : Reader string :=
  fun s =>
    match count_strokes s with
    | Some (n, rest) => take n rest
    | None => None
    end.

Definition read_opt : Reader (option string) :=
  fun s =>
    match s with
    | String "N"%char rest => Some (None, rest)
    | String "S"%char rest =>
        match read rest with
        | Some (x, rest') => Some (Some x, rest')
        | None => None
        end
    | _ => None
    end.

Definition read_flag : Reader (option bool) :=
  fun s =>
    match s with
    | String "N"%char rest => Some (None, rest)
    | String "T"%char rest => Some (Some true, rest)
    | String "F"%char rest => Some (Some false, rest)
    | _ => None
    end.

Definition then_read {T U : Type} (r : Reader T) (k : T -> Reader U) : Reader U :=
  fun s =>
    match r s with
    | Some (x, rest) => k x rest
    | None => None
    end.

Definition done {T : Type} (x : T) : Reader T := fun s => Some (x, s).

Definition read_site : Reader StoredSiteConfig :=
  then_read read (fun i =>
  then_read read (fun n =>
  then_read read_opt (fun b =>
  then_read read_opt (fun u =>
  then_read read_opt (fun p =>
  then_read read_opt (fun x =>
  then_read read_flag (fun w =>
  then_read read_opt (fun c =>
  done (mkStoredSite i n b u p x w c))))))))).

Definition read_proxy : Reader StoredProxy :=
  then_read read (fun n =>
  then_read read (fun s =>
  then_read read_opt (fun u =>
  then_read read_opt (fun p =>
  done (mkStoredProxy n s u p))))).

Fixpoint read_all {T : Type} (fuel : nat) (read_one : Reader T) (s : string)
  : option (list T) :=
  match fuel with
  | O => None
  | S fuel' =>
      if String.eqb s "]" then Some []
      else
        match read_one s with
        | Some (x, rest) =>
            match read_all fuel' read_one rest with
            | Some l => Some (x :: l)
            | None => None
            end
        | None => None
        end
  end.

(** A text that starts with a brace holds an object. *)
Definition parse {T : Type} (read_one : Reader T) (text : string) : Parsed T :=
  match text with
  | String "["%char rest =>
      match read_all (S (String.length rest)) read_one rest with
      | Some l => ParsedArray l
      | None => ParseThrows
      end
  | String "{"%char _ => NotIterable
  | _ => ParseThrows
  end.

Definition platform : Platform :=
  {| disk := Disk;
     existsSync := sim_exists;
     isoNow := today;
     fs := sim_fs;
     parseSites := parse read_site;
     parseProxies := parse read_proxy;
     stringifySites := put_all put_site;
     stringifyProxies := put_all put_proxy |}.

(** An empty disk on 2 November 2026. *)
Definition blank : Disk :=
  {| files := JsMap.empty; dirs := []; today := "2026-11-02T09:00:00.000Z";
     locked := []; frozen := false |}.

(** A disk that takes no changes. *)
Definition read_only : Disk :=
  {| files := JsMap.empty; dirs := ["./config"]; today := "2026-11-02T09:00:00.000Z";
     locked := []; frozen := true |}.

(** A disk with the given text in the default sites file. *)
Definition holding (text : string) : Disk :=
  {| files := [(DEFAULT_SITES_FILE, text)]; dirs := ["./config"];
     today := "2026-11-02T09:00:00.000Z"; locked := []; frozen := false |}.

(** A disk whose default sites file cannot be read. *)
Definition unreadable : Disk :=
  {| files := [(DEFAULT_SITES_FILE, "[]")]; dirs := ["./config"];
     today := "2026-11-02T09:00:00.000Z"; locked := [DEFAULT_SITES_FILE];
     frozen := false |}.

Definition pinnacle : StoredSiteConfig :=
  {| id := "pinnacle"; name := "Pinnacle"; baseUrl := Some "https://probet42.com";
     username := Some "alice"; password := Some "secret"; proxyName := Some "nyc";
     workflowImplemented := Some true; createdAt := None |}.

Definition betonline : StoredSiteConfig :=
  {| id := "betonline"; name := "BetOnline"; baseUrl := None;
     username := None; password := None; proxyName := None;
     workflowImplemented := None; createdAt := Some "2025-01-01T00:00:00.000Z" |}.

Definition nyc : StoredProxy :=
  {| proxy_name := "nyc"; proxy_server := "http://10.0.0.1:8080";
     proxy_username := Some "bob"; proxy_password := None |}.



Definition fresh : Manager := create None None.

(** The manager after [addSite(pinnacle)], [addSite(betonline)] and
    [addProxy(nyc)] on the blank disk, and that disk. *)
Definition stocked : Step Disk unit :=
  Eval vm_compute in
    and_then (addSite platform pinnacle) (fun _ =>
    and_then (addSite platform betonline) (fun _ =>
    addProxy platform nyc)) fresh blank.

End SimStore.

(** ** Vocabulary of the workflow properties *)

(** The calls that enter credentials, keep the session or hand over to
    the manual login of the base class. *)
Definition is_login_call (a : Action) : bool :=
  match a with
  | TypeText _ _ | SaveSession | SuperLogin => true
  | _ => false
  end.

Definition is_typing (a : Action) : bool :=
  match a with
  | TypeText _ _ => true
  | _ => false
  end.

Definition is_click (a : Action) : bool :=
  match a with
  | Click _ | ClickHandle _ => true
  | _ => false
  end.

(** The calls that set the date range of the Sports411 history. *)
Definition is_date_range (a : Action) : bool :=
  match a with
  | EvalSetDateRange _ _ => true
  | Click selector => String.eqb selector Sports411.sel_custom_range
  | _ => false
  end.

(** Every character of [s] satisfies [f]. *)
Fixpoint every (f : ascii -> bool) (s : string) : bool :=
  match s with
  | EmptyString => true
  | String c rest => f c && every f rest
  end.

(** A dollar sign, digits and commas, a point, digits. *)
Definition money_shaped (s : string) : Prop :=
  exists whole frac,
    s = "$" ++ whole ++ "." ++ frac /\
    whole <> "" /\ every Regex.is_digit_or_comma whole = true /\
    frac <> "" /\ every Js.is_digit frac = true.

(** One string lies inside another. *)
Definition inside (part whole : string) : Prop :=
  exists before after, whole = before ++ part ++ after.

Module SimPages.

(** A Pinnacle session that is logged in. *)
Definition pinnacle_session : Sim.Site :=
  {| Sim.sim_clock := 0;
     Sim.sim_url := "https://probet42.com/sports";
     Sim.sim_present := [Pinnacle.sel_account_menu];
     Sim.sim_after_submit := [Pinnacle.sel_account_menu];
     Sim.sim_pages := [];
     Sim.sim_stuck := false;
     Sim.sim_rows := [];
     Sim.sim_solved_at := None;
     Sim.sim_fault := Sim.no_fault |}.

(** A page on which no selector matches. *)
Definition bare_page : Sim.Site :=
  {| Sim.sim_clock := 0;
     Sim.sim_url := "about:blank";
     Sim.sim_present := [];
     Sim.sim_after_submit := [];
     Sim.sim_pages := [];
     Sim.sim_stuck := false;
     Sim.sim_rows := [];
     Sim.sim_solved_at := None;
     Sim.sim_fault := Sim.no_fault |}.

(** The probe of the account menu faults. *)
Definition menu_fault (a : Action) : option string :=
  match a with
  | Exists selector =>
      if String.eqb selector Pinnacle.sel_account_menu then Some "Target closed" else None
  | _ => None
  end.

(** A Pinnacle page without login form on which [menu_fault] applies. *)
Definition pinnacle_closing : Sim.Site :=
  {| Sim.sim_clock := 0;
     Sim.sim_url := "https://probet42.com/sports";
     Sim.sim_present := [];
     Sim.sim_after_submit := [];
     Sim.sim_pages := [];
     Sim.sim_stuck := false;
     Sim.sim_rows := [];
     Sim.sim_solved_at := None;
     Sim.sim_fault := menu_fault |}.

End SimPages.

(** The calls that type nothing but one of the texts [allowed]. *)
Definition types_only (allowed : list string) (a : Action) : bool :=
  match a with
  | TypeText _ text => existsb (String.eqb text) allowed
  | _ => true
  end.

(** The calls that are no part of a login. *)
Definition no_login_call (a : Action) : bool := negb (is_login_call a).
(** * Properties *)

(** ** Reasoning about runs *)

Section RunFacts.
Variable B : Browser.

Lemma bind_unfold {A C : Type} (m : M B A) (k : A -> M B C) (p : page B) :
  bind m k p =
  match out (m p) with
  | Ret v => continue (m p) (k v (fin (m p)))
  | Throw msg => mkRun (evs (m p)) (fin (m p)) (Throw msg)
  | Diverge => mkRun (evs (m p)) (fin (m p)) Diverge
  end.
Proof. reflexivity. Qed.

Lemma bind_ret_run {A C : Type} (m : M B A) (k : A -> M B C) (p : page B) (v : A) :
  out (m p) = Ret v -> bind m k p = continue (m p) (k v (fin (m p))).
Proof. intros H. rewrite bind_unfold, H. reflexivity. Qed.


Lemma bind_diverge_run {A C : Type} (m : M B A) (k : A -> M B C) (p : page B) :
  out (m p) = Diverge -> bind m k p = mkRun (evs (m p)) (fin (m p)) Diverge.
Proof. intros H. rewrite bind_unfold, H. reflexivity. Qed.

Lemma wp_bind {A C : Type} (m : M B A) (k : A -> M B C) Q p :
  wp m (fun r =>
          match out r with
          | Ret v => wp (k v) (fun r' => Q (continue r r')) (fin r)
          | Throw msg => Q (mkRun (evs r) (fin r) (Throw msg))
          | Diverge => Q (mkRun (evs r) (fin r) Diverge)
          end) p ->
  wp (bind m k) Q p.
Proof.
  unfold wp. rewrite bind_unfold. destruct (out (m p)); auto.
Qed.

Lemma wp_bind_ret {A C : Type} (m : M B A) (k : A -> M B C) Q p (v : A) :
  out (m p) = Ret v ->
  wp (k v) (fun r' => Q (continue (m p) r')) (fin (m p)) ->
  wp (bind m k) Q p.
Proof.
  intros H HQ. unfold wp. rewrite (bind_ret_run m k p v H). exact HQ.
Qed.

Lemma wp_try_catch {A : Type} (m : M B A) (h : string -> M B A) Q p :
  wp m (fun r =>
          match out r with
          | Throw msg => wp (h msg) (fun r' => Q (continue r r')) (fin r)
          | _ => Q r
          end) p ->
  wp (try_catch m h) Q p.
Proof.
  unfold wp, try_catch. destruct (out (m p)); auto.
Qed.

Lemma wp_call (a : Action) Q p :
  match perform B a p with
  | Ok v p' => Q (mkRun [mkEvent a None] p' (Ret v))
  | Fault msg p' => Q (mkRun [mkEvent a (Some msg)] p' (Throw msg))
  end ->
  wp (call a) Q p.
Proof.
  unfold wp, call. destruct (perform B a p); auto.
Qed.

Lemma wp_ret {A : Type} (v : A) (Q : Run (page B) A -> Prop) p :
  Q (mkRun [] p (Ret v)) -> wp (ret v) Q p.
Proof. auto. Qed.

Lemma wp_throw {A : Type} msg (Q : Run (page B) A -> Prop) p :
  Q (mkRun [] p (Throw msg)) -> wp (throw msg) Q p.
Proof. auto. Qed.

Lemma wp_diverge {A : Type} (Q : Run (page B) A -> Prop) p :
  Q (mkRun [] p Diverge) -> wp diverge Q p.
Proof. auto. Qed.

Lemma wp_now (Q : Run (page B) Z -> Prop) p :
  Q (mkRun [] p (Ret (clock B p))) -> wp now Q p.
Proof. auto. Qed.

Lemma wp_page_url (Q : Run (page B) string -> Prop) p :
  Q (mkRun [] p (Ret (url B p))) -> wp page_url Q p.
Proof. auto. Qed.

Lemma wp_success_now (Q : Run (page B) (WorkflowResult unit) -> Prop) p :
  Q (mkRun [] p (Ret (mkResult true None None (clock B p)))) -> wp success_now Q p.
Proof. auto. Qed.

Lemma wp_failure_now msg (Q : Run (page B) (WorkflowResult unit) -> Prop) p :
  Q (mkRun [] p (Ret (mkResult false None (Some msg) (clock B p)))) ->
  wp (failure_now msg) Q p.
Proof. auto. Qed.

Lemma wp_result {T : Type} ok (payload : T) err
    (Q : Run (page B) (WorkflowResult T) -> Prop) p :
  Q (mkRun [] p (Ret (mkResult ok (Some payload) err (clock B p)))) ->
  wp (result ok payload err) Q p.
Proof. auto. Qed.

Lemma wp_run {A : Type} (m : M B A) (Q : Run (page B) A -> Prop) p :
  wp m Q p -> Q (m p).
Proof. auto. Qed.

End RunFacts.

(** One step through a computation: the head call is made and both of
    its outcomes are followed. *)
Ltac wp_head :=
  lazymatch goal with
  | |- wp (bind _ _) _ _ => apply wp_bind
  | |- wp (try_catch _ _) _ _ => apply wp_try_catch
  | |- wp (call ?a) ?Q ?p =>
      apply (wp_call _ a Q p);
      let v := fresh "v" in
      let q := fresh "q" in
      let msg := fresh "msg" in
      let E := fresh "E" in
      destruct (perform _ a p) as [v q | msg q] eqn:E;
      [ try (cbn [answer] in v) | ]
  | |- wp (ret _) _ _ => apply wp_ret
  | |- wp (throw _) _ _ => apply wp_throw
  | |- wp diverge _ _ => apply wp_diverge
  | |- wp now _ _ => apply wp_now
  | |- wp page_url _ _ => apply wp_page_url
  | |- wp success_now _ _ => apply wp_success_now
  | |- wp (failure_now _) _ _ => apply wp_failure_now
  | |- wp (result _ _ _) _ _ => apply wp_result
  | |- wp (if ?b then _ else _) _ _ =>
      first [ is_var b; destruct b
            | match b with
              | context [?x] =>
                  is_var x;
                  lazymatch type of x with bool => destruct x end
              end
            | destruct b ]
  | |- wp (match ?o with Some _ => _ | None => _ end) _ _ => is_var o; destruct o
  end.

Ltac wp_steps := repeat (wp_head; cbn [out evs fin continue app negb orb andb]).

(** ** The scraping helpers on sample texts *)

Example money_first_amount :
  Regex.money "Risk $1,234.50 to win $1,000.00" = Some "$1,234.50".
Proof. reflexivity. Qed.

Example money_needs_cents : Regex.money "stake $5. or $.50" = None.
Proof. reflexivity. Qed.

Example ticket_number : Regex.ticket "12/25@3:30 PM Ticket # 4711 Straight" = Some "4711".
Proof. reflexivity. Qed.

Example stamp_leftmost : Regex.stamp "1/2/3@4:05 PM" = Some ("2/3", "4:05 PM").
Proof. reflexivity. Qed.

Example trim_both_ends : Js.trim "  Lakers -3.5  " = "Lakers -3.5".
Proof. reflexivity. Qed.

Example scrape_row_won :
  BetOnline.scrape_row Sim.won_row =
  {| BetOnline.betId := Some "12345-1";
     BetOnline.date := Some "12/25/2024";
     BetOnline.description := Some "Lakers -3.5";
     BetOnline.betType := Some "Straight";
     BetOnline.status := "Won";
     BetOnline.stake := "$110.00";
     BetOnline.toWin := "$100.00";
     BetOnline.site := "betonline";
     BetOnline.scrapedAt := "2024-12-26T10:00:00.000Z" |}.
Proof. reflexivity. Qed.

Example scrape_row_short :
  BetOnline.status (BetOnline.scrape_row (mkRowNode ["1"; "2"] "now")) = "Pending".
Proof. reflexivity. Qed.

Example scrape_ticket_sample :
  Sports411.scrape_ticket (Sim.ticket "101") =
  {| Sports411.betId := Some "101";
     Sports411.betType := Some "Straight";
     Sports411.selection := Some "Lakers -3.5";
     Sports411.date := Some "12/25";
     Sports411.time := Some "3:30 PM";
     Sports411.riskWin := Some "110 / 100";
     Sports411.winLoss := Some "100";
     Sports411.site := "sports411";
     Sports411.scrapedAt := "2024-12-26T10:00:00.000Z" |}.
Proof. reflexivity. Qed.

Example credentials_need_both :
  credentials (mkSiteConfig "s" "S" None (Some "alice") (Some "")) = None.
Proof. reflexivity. Qed.

Example betonline_history_script_shape :
  count is_scroll betonline_history_script = 5%nat /\
  count is_extraction betonline_history_script = 1%nat /\
  skipn 7 betonline_history_script =
  [EvalScrollToBottom; Sleep 800; EvalScrollToBottom; Sleep 800; EvalScrollToBottom;
   Sleep 800; EvalScrollToBottom; Sleep 800; EvalScrollToBottom; Sleep 800; EvalRows].
Proof. repeat split. Qed.

(** ** Login detection *)

Lemma try_catch_ret_run (B : Browser) {A : Type} (m : M B A) (h : string -> M B A)
    (p : page B) (v : A) :
  out (m p) = Ret v -> try_catch m h p = m p.
Proof. intros H. unfold try_catch. rewrite H. reflexivity. Qed.

Lemma pinnacle_isLoggedIn_probes (B : Browser) (p : page B) :
  Forall (fun a => is_probe a = true) (actions (Pinnacle.isLoggedIn B p)).
Proof.
  apply wp_run with (Q := fun r => Forall (fun a => is_probe a = true) (actions r)).
  unfold Pinnacle.isLoggedIn. wp_steps; cbn; repeat constructor.
Qed.

Lemma sports411_isLoggedIn_probes (B : Browser) (p : page B) :
  Forall (fun a => is_probe a = true) (actions (Sports411.isLoggedIn B p)).
Proof.
  apply wp_run with (Q := fun r => Forall (fun a => is_probe a = true) (actions r)).
  unfold Sports411.isLoggedIn. wp_steps; cbn; repeat constructor.
Qed.

Lemma betonline_isLoggedIn_probes (B : Browser) (p : page B) :
  Forall (fun a => is_probe a = true) (actions (BetOnline.isLoggedIn B p)).
Proof.
  apply wp_run with (Q := fun r => Forall (fun a => is_probe a = true) (actions r)).
  unfold BetOnline.isLoggedIn. wp_steps; cbn; repeat constructor.
Qed.

Lemma isLoggedIn_probes (B : Browser) (w : SiteWorkflow B) (p : page B) :
  site_workflow w ->
  Forall (fun a => is_probe a = true) (actions (isLoggedIn w p)).
Proof.
  intros [config | config | config]; cbn [isLoggedIn PinnacleWorkflow Sports411Workflow
                                          BetOnlineWorkflow].
  - apply pinnacle_isLoggedIn_probes.
  - apply sports411_isLoggedIn_probes.
  - apply betonline_isLoggedIn_probes.
Qed.

Lemma authentication_calls_probes (l : list Action) :
  Forall (fun a => is_probe a = true) l -> authentication_calls l = [].
Proof.
  induction 1 as [| a l Ha _ IH]; [reflexivity |].
  unfold authentication_calls in *. cbn [List.filter]. rewrite Ha. exact IH.
Qed.

Lemma authentication_calls_app (l1 l2 : list Action) :
  authentication_calls (l1 ++ l2) = (authentication_calls l1 ++ authentication_calls l2)%list.
Proof. apply filter_app. Qed.

(** C10.  [Sports411Workflow.isLoggedIn] answers [true] whenever neither
    the account-login form selectors nor the LOG IN button selectors match,
    whatever the URL of the page: both branches after the URL test return
    [true]. *)
Theorem sports411_no_login_form_is_logged_in (B : Browser) (p p1 p2 : page B) :
  perform B (Exists Sports411.sel_login_form) p = Ok false p1 ->
  perform B (Exists Sports411.sel_login_button) p1 = Ok false p2 ->
  Sports411.isLoggedIn B p =
  mkRun [mkEvent (Exists Sports411.sel_login_form) None;
         mkEvent (Exists Sports411.sel_login_button) None] p2 (Ret true).
Proof.
  intros H1 H2.
  apply wp_run with (Q := fun r => r = mkRun _ p2 (Ret true)).
  unfold Sports411.isLoggedIn.
  apply wp_bind, wp_call. rewrite H1. cbn [out evs fin continue app].
  apply wp_bind, wp_call. rewrite H2. cbn [out evs fin continue app orb].
  apply wp_bind, wp_page_url. cbn [out evs fin continue app].
  destruct (Js.includes (url B p2) "/en/" && negb (Js.endsWith (url B p2) ".ag/"));
    apply wp_ret; reflexivity.
Qed.

Lemma sports411_no_login_form_is_logged_in_witness :
  let p := Sim.sports411_front_page in
  perform Sim.browser (Exists Sports411.sel_login_form) p = Ok false p /\
  perform Sim.browser (Exists Sports411.sel_login_button) p = Ok false p /\
  Js.includes (url Sim.browser p) "/en/" = false /\
  out (Sports411.isLoggedIn Sim.browser p) = Ret true.
Proof.
  intros p.
  split; [reflexivity | split; [reflexivity | split; [reflexivity |]]].
  rewrite (sports411_no_login_form_is_logged_in Sim.browser p p p eq_refl eq_refl).
  reflexivity.
Defined.

(** ** Login *)

(** C3.  For every site workflow, when [isLoggedIn()] answers [true],
    [login()] returns a success result at once: it makes the calls of that
    check and no other, so no field is filled, nothing is clicked and no
    credentials are submitted.  In particular a [login()] that follows
    another one on a page that is logged in adds no authentication call to
    those of the first. *)
Theorem login_when_logged_in_authenticates_nothing
    (B : Browser) (w : SiteWorkflow B) (budget : nat) (p : page B) :
  site_workflow w ->
  out (isLoggedIn w p) = Ret true ->
  login w budget p =
    mkRun (evs (isLoggedIn w p)) (fin (isLoggedIn w p))
          (Ret (mkResult true None None (clock B (fin (isLoggedIn w p))))) /\
  Forall (fun a => is_probe a = true) (actions (login w budget p)) /\
  (forall budget0 p0,
      p = fin (login w budget0 p0) ->
      authentication_calls (actions (login w budget0 p0) ++ actions (login w budget p)) =
      authentication_calls (actions (login w budget0 p0))).
Proof.
  intros Hw H.
  assert (Hrun : login w budget p =
                 mkRun (evs (isLoggedIn w p)) (fin (isLoggedIn w p))
                       (Ret (mkResult true None None (clock B (fin (isLoggedIn w p)))))).
  { destruct Hw as [config | config | config];
      cbn [login isLoggedIn PinnacleWorkflow Sports411Workflow BetOnlineWorkflow] in *.
    - unfold Pinnacle.login. rewrite (bind_ret_run _ _ _ _ _ H).
      unfold continue. cbn. rewrite app_nil_r. reflexivity.
    - unfold Sports411.login. rewrite (bind_ret_run _ _ _ _ _ H).
      unfold continue. cbn. rewrite app_nil_r. reflexivity.
    - unfold BetOnline.login. rewrite (bind_ret_run _ _ _ _ _ H).
      unfold continue. cbn. rewrite app_nil_r. reflexivity. }
  assert (Hprobes : Forall (fun a => is_probe a = true) (actions (login w budget p))).
  { rewrite Hrun. unfold actions. cbn [evs]. apply (isLoggedIn_probes B w p Hw). }
  split; [exact Hrun | split; [exact Hprobes |]].
  intros budget0 p0 _.
  rewrite authentication_calls_app, (authentication_calls_probes _ Hprobes).
  apply app_nil_r.
Qed.

Lemma login_when_logged_in_authenticates_nothing_witness :
  let w := Sports411Workflow (B := Sim.browser) Sim.with_credentials in
  let p := Sim.sports411_logged_in Sim.three_pages false in
  out (isLoggedIn w p) = Ret true /\
  out (login w 0 p) = Ret (mkResult true None None 0) /\
  authentication_calls (actions (login w 0 p)) = [].
Proof.
  intros w p.
  assert (Hw : site_workflow w) by constructor.
  assert (H : out (isLoggedIn w p) = Ret true) by reflexivity.
  destruct (login_when_logged_in_authenticates_nothing Sim.browser w 0 p Hw H)
    as (Hrun & Hprobes & _).
  split; [exact H | split].
  - rewrite Hrun. reflexivity.
  - apply authentication_calls_probes, Hprobes.
Defined.

(** C7, as the code has it.  For a site workflow without manual fall-back
    (Sports411, BetOnline) and a configuration without credentials, when
    the check of the login state answers [false], [login()] returns the
    failure result with the message [No credentials provided], makes no
    further call and needs no loop round. *)
Theorem login_without_credentials_fails
    (B : Browser) (config : SiteConfig) (w : SiteWorkflow B) (budget : nat) (p : page B) :
  no_manual_fallback config w ->
  credentials config = None ->
  out (isLoggedIn w p) = Ret false ->
  login w budget p =
    mkRun (evs (isLoggedIn w p)) (fin (isLoggedIn w p))
          (Ret (mkResult false None (Some "No credentials provided")
                         (clock B (fin (isLoggedIn w p))))).
Proof.
  intros Hw Hc H.
  destruct Hw as [config | config];
    cbn [login isLoggedIn Sports411Workflow BetOnlineWorkflow] in *.
  - unfold Sports411.login. rewrite (bind_ret_run _ _ _ _ _ H).
    change (credentials (with_default_url Sports411.DEFAULT_URL config))
      with (credentials config).
    rewrite Hc. unfold continue. cbn. rewrite app_nil_r. reflexivity.
  - unfold BetOnline.login. rewrite (bind_ret_run _ _ _ _ _ H).
    change (credentials (with_default_url BetOnline.DEFAULT_URL config))
      with (credentials config).
    rewrite Hc. unfold continue. cbn. rewrite app_nil_r. reflexivity.
Qed.

Lemma login_without_credentials_fails_witness :
  let w := BetOnlineWorkflow (B := Sim.browser) Sim.without_credentials in
  let p := Sim.betonline_captcha None false Sim.no_fault in
  credentials Sim.without_credentials = None /\
  out (isLoggedIn w p) = Ret false /\
  out (login w 0 p) = Ret (mkResult false None (Some "No credentials provided") 1000).
Proof.
  intros w p.
  split; [reflexivity | split; [reflexivity |]].
  rewrite (login_without_credentials_fails Sim.browser Sim.without_credentials w 0 p
             (strict_betonline Sim.browser Sim.without_credentials)
             eq_refl eq_refl).
  reflexivity.
Defined.

(** Counterexample to C7 as the spec states it:
    on a page that is already logged in, [login()] of
    Sports411 without credentials returns success. *)
Lemma login_without_credentials_may_succeed :
  let w := Sports411Workflow (B := Sim.browser) Sim.without_credentials in
  let p := Sim.sports411_logged_in [] false in
  no_manual_fallback Sim.without_credentials w /\
  credentials Sim.without_credentials = None /\
  out (login w 0 p) = Ret (mkResult true None None 0) /\
  ~ (exists t, out (login w 0 p) =
               Ret (mkResult false None (Some "No credentials provided") t)).
Proof.
  intros w p.
  split; [constructor | split; [reflexivity | split; [reflexivity |]]].
  intros [t Ht]. vm_compute in Ht. discriminate Ht.
Qed.

(** ** Bet history *)

(** C4.  For every site workflow, [getBetHistory] on a page where
    [isLoggedIn()] answers [false] returns a failure result whose payload
    is the empty list; it does not throw. *)
Theorem history_when_logged_out_fails_empty
    (B : Browser) (w : SiteWorkflow B) (budget : nat) (fromDate toDate : option Js.Date)
    (p : page B) :
  site_workflow w ->
  out (isLoggedIn w p) = Ret false ->
  getBetHistory w budget fromDate toDate p =
    mkRun (evs (isLoggedIn w p)) (fin (isLoggedIn w p))
          (Ret (mkResult false (Some []) (Some "Not logged in. Call login() first.")
                         (clock B (fin (isLoggedIn w p))))).
Proof.
  intros Hw H.
  destruct Hw as [config | config | config];
    cbn [getBetHistory isLoggedIn item PinnacleWorkflow Sports411Workflow
         BetOnlineWorkflow] in *.
  - unfold Pinnacle.getBetHistory.
    rewrite try_catch_ret_run with
      (v := mkResult false (Some []) (Some "Not logged in. Call login() first.")
                     (clock B (fin (Pinnacle.isLoggedIn B p)))).
    + rewrite (bind_ret_run _ _ _ _ _ H). unfold continue. cbn.
      rewrite app_nil_r. reflexivity.
    + rewrite (bind_ret_run _ _ _ _ _ H). reflexivity.
  - unfold Sports411.getBetHistory.
    rewrite try_catch_ret_run with
      (v := mkResult false (Some []) (Some "Not logged in. Call login() first.")
                     (clock B (fin (Sports411.isLoggedIn B p)))).
    + rewrite (bind_ret_run _ _ _ _ _ H). unfold continue. cbn.
      rewrite app_nil_r. reflexivity.
    + rewrite (bind_ret_run _ _ _ _ _ H). reflexivity.
  - unfold BetOnline.getBetHistory.
    rewrite try_catch_ret_run with
      (v := mkResult false (Some []) (Some "Not logged in. Call login() first.")
                     (clock B (fin (BetOnline.isLoggedIn B p)))).
    + rewrite (bind_ret_run _ _ _ _ _ H). unfold continue. cbn.
      rewrite app_nil_r. reflexivity.
    + rewrite (bind_ret_run _ _ _ _ _ H). reflexivity.
Qed.

Lemma history_when_logged_out_fails_empty_witness :
  let w := Sports411Workflow (B := Sim.browser) Sim.with_credentials in
  let p := Sim.sports411_rejecting in
  out (isLoggedIn w p) = Ret false /\
  out (getBetHistory w 0 None None p) =
    Ret (mkResult false (Some []) (Some "Not logged in. Call login() first.") 0).
Proof.
  intros w p.
  split; [reflexivity |].
  rewrite (history_when_logged_out_fails_empty Sim.browser w 0 None None p
             (site_sports411 Sim.browser Sim.with_credentials) eq_refl).
  reflexivity.
Defined.

Lemma count_app (f : Action -> bool) (l1 l2 : list Action) :
  count f (l1 ++ l2) = (count f l1 + count f l2)%nat.
Proof. unfold count. rewrite filter_app, length_app. reflexivity. Qed.



Lemma scrape_row_status (row : RowNode) :
  In (BetOnline.status (BetOnline.scrape_row row)) betonline_statuses.
Proof.
  unfold BetOnline.scrape_row, betonline_statuses. cbn [BetOnline.status].
  destruct (BetOnline.mentions _ "Won"); [cbn; auto |].
  destruct (BetOnline.mentions _ "Lost"); [cbn; auto |].
  destruct (BetOnline.mentions _ "Cancel"); cbn; auto.
Qed.

Lemma betonline_history_statuses (B : Browser) (fromDate toDate : option Js.Date)
    (p : page B) (res : WorkflowResult (list BetOnline.Bet)) (items : list BetOnline.Bet) :
  out (BetOnline.getBetHistory B fromDate toDate p) = Ret res ->
  data res = Some items ->
  Forall (fun b => In (BetOnline.status b) betonline_statuses) items.
Proof.
  revert res items.
  apply wp_run with
    (Q := fun r => forall res items, out r = Ret res -> data res = Some items ->
                   Forall (fun b => In (BetOnline.status b) betonline_statuses) items).
  unfold BetOnline.getBetHistory, BetOnline.isLoggedIn, BetOnline.scrape_history,
    BetOnline.scroll_attempts.
  cbn [BetOnline.scroll].
  wp_steps.
  all: intros res items Hout Hdata; inversion Hout; subst res; cbn [data] in Hdata;
    inversion Hdata; subst items.
  all: try (apply Forall_nil).
  apply Forall_forall. intros b Hb. apply in_map_iff in Hb.
  destruct Hb as (row & <- & _). apply scrape_row_status.
Qed.

Lemma pinnacle_history_empty (B : Browser) (date endDate : option Js.Date)
    (p : page B) (res : WorkflowResult (list Pinnacle.PinnacleBetHistoryItem)) :
  out (Pinnacle.getBetHistory B date endDate p) = Ret res -> data res = Some [].
Proof.
  revert res.
  apply wp_run with (Q := fun r => forall res, out r = Ret res -> data res = Some []).
  unfold Pinnacle.getBetHistory, Pinnacle.isLoggedIn.
  wp_steps.
  all: intros res Hout; inversion Hout; reflexivity.
Qed.

(** C6, as the code has it.  Every record of BetOnline's history
    extraction carries one of the status values [Won], [Lost], [Cancelled],
    [Pending]; Pinnacle's item type holds the five values [pending], [won],
    [lost], [void], [cashout] and no other, and its extraction yields no
    record. *)
Theorem history_status_values
    (B : Browser) (config : SiteConfig) (budget : nat) (fromDate toDate : option Js.Date)
    (p : page B) :
  (forall res items,
      out (getBetHistory (BetOnlineWorkflow config) budget fromDate toDate p) = Ret res ->
      data res = Some items ->
      Forall (fun b => In (BetOnline.status b) betonline_statuses) items) /\
  (forall res,
      out (getBetHistory (PinnacleWorkflow config) budget fromDate toDate p) = Ret res ->
      data res = Some []) /\
  (forall s : Pinnacle.Status,
      In s [Pinnacle.pending; Pinnacle.won; Pinnacle.lost; Pinnacle.void; Pinnacle.cashout]).
Proof.
  split; [| split].
  - intros res items. apply betonline_history_statuses.
  - intros res. apply pinnacle_history_empty.
  - intros []; cbn; auto 6.
Qed.

Lemma history_status_values_witness :
  let w := BetOnlineWorkflow (B := Sim.browser) Sim.with_credentials in
  let r := getBetHistory w 0 None None (Sim.betonline_logged_in [Sim.won_row]) in
  out r = Ret (mkResult true (Some [Sim.won_bet]) None 7000) /\
  BetOnline.status Sim.won_bet = "Won" /\
  Forall (fun b => In (BetOnline.status b) betonline_statuses) [Sim.won_bet].
Proof.
  intros w r.
  assert (H : out r = Ret (mkResult true (Some [Sim.won_bet]) None 7000))
    by (vm_compute; reflexivity).
  split; [exact H | split; [reflexivity |]].
  exact (proj1 (history_status_values Sim.browser Sim.with_credentials 0 None None
                  (Sim.betonline_logged_in [Sim.won_row])) _ [Sim.won_bet] H eq_refl).
Defined.

(** Counterexample to C6 as the spec states it:
    BetOnline's extraction gives a record the status
    [Won], which is none of [pending], [won], [lost], [void], [cashout]. *)
Lemma betonline_status_outside_spec :
  let w := BetOnlineWorkflow (B := Sim.browser) Sim.with_credentials in
  let r := getBetHistory w 0 None None (Sim.betonline_logged_in [Sim.won_row]) in
  out r = Ret (mkResult true (Some [Sim.won_bet]) None 7000) /\
  BetOnline.status Sim.won_bet = "Won" /\
  ~ In (BetOnline.status Sim.won_bet) spec_statuses.
Proof.
  intros w r.
  split; [vm_compute; reflexivity | split; [reflexivity |]].
  cbn. intros H. repeat (destruct H as [H | H]; [discriminate H |]). exact H.
Qed.

(** ** Pagination of the Sports411 history *)

Lemma count_probes_extraction (l : list Action) :
  Forall (fun a => is_probe a = true) l -> count is_extraction l = 0%nat.
Proof.
  induction 1 as [| a l Ha _ IH]; [reflexivity |].
  unfold count in *. cbn [List.filter].
  destruct a; cbn in Ha; try discriminate Ha. cbn. exact IH.
Qed.

Lemma open_history_no_extraction (B : Browser) (fromDate toDate : option Js.Date)
    (p : page B) :
  count is_extraction (actions (Sports411.open_history B fromDate toDate p)) = 0%nat.
Proof.
  apply wp_run with (Q := fun r => count is_extraction (actions r) = 0%nat).
  unfold Sports411.open_history, Sports411.set_date_range, iso_day.
  destruct fromDate as [[isoF |] |], toDate as [[isoT |] |]; wp_steps; reflexivity.
Qed.

(** On a paginated history the loop makes one round per page and returns
    the tickets of all pages in page order. *)
Lemma scrape_pages_paginated (B : Browser) (pages : list (list TicketNode)) (p : page B) :
  paginated pages p ->
  forall (fuel : nat) (allBets : list Sports411.Bet),
    (List.length pages <= fuel)%nat ->
    out (Sports411.scrape_pages B fuel allBets p) =
      Ret (allBets ++ map Sports411.scrape_ticket (List.concat pages))%list /\
    count is_extraction (actions (Sports411.scrape_pages B fuel allBets p)) =
      List.length pages.
Proof.
  induction 1 as [tickets p p1 p2 H1 H2
                 | tickets rest p p1 p2 p3 p4 H1 H2 H3 H4 Hrest IH];
    intros fuel allBets Hfuel; cbn [List.length] in Hfuel.
  - destruct fuel as [| fuel]; [lia |].
    cbn [Sports411.scrape_pages].
    apply wp_run with
      (Q := fun r => out r = Ret (allBets ++ map Sports411.scrape_ticket
                                               (List.concat [tickets]))%list /\
                     count is_extraction (actions r) = 1%nat).
    apply wp_bind, wp_call. rewrite H1. cbn [out evs fin continue app].
    apply wp_bind, wp_call. rewrite H2. cbn [out evs fin continue app].
    apply wp_ret. cbn [out evs fin continue app List.concat].
    rewrite app_nil_r. split; reflexivity.
  - destruct fuel as [| fuel]; [lia |].
    specialize (IH fuel (allBets ++ map Sports411.scrape_ticket tickets)%list
                   ltac:(lia)).
    destruct IH as [IHout IHcount].
    cbn [Sports411.scrape_pages].
    apply wp_run with
      (Q := fun r => out r = Ret (allBets ++ map Sports411.scrape_ticket
                                               (List.concat (tickets :: rest)))%list /\
                     count is_extraction (actions r) = S (List.length rest)).
    apply wp_bind, wp_call. rewrite H1. cbn [out evs fin continue app].
    apply wp_bind, wp_call. rewrite H2. cbn [out evs fin continue app].
    apply wp_bind, wp_call. rewrite H3. cbn [out evs fin continue app].
    apply wp_bind, wp_call. rewrite H4. cbn [out evs fin continue app].
    unfold wp. cbn [out evs fin continue app].
    split.
    + rewrite IHout. cbn [List.concat]. rewrite map_app, app_assoc. reflexivity.
    + unfold actions, count, continue in *.
      cbn [map action evs app List.filter is_extraction List.length].
      rewrite IHcount. reflexivity.
Qed.

(** C1, as the code has it.  Paginated extraction of Sports411 stops at
    the first page without an enabled next-page control: on a history of N
    pages, each but the last with an enabled next-page control, and with a
    budget of at least N rounds, [getBetHistory] makes exactly N
    extractions and returns the tickets of all pages in page order. *)
Theorem sports411_history_stops_at_last_page
    (B : Browser) (config : SiteConfig) (fuel : nat) (fromDate toDate : option Js.Date)
    (pages : list (list TicketNode)) (p : page B) :
  let w := Sports411Workflow config in
  let opened := Sports411.open_history B fromDate toDate (fin (isLoggedIn w p)) in
  out (isLoggedIn w p) = Ret true ->
  out opened = Ret tt ->
  paginated pages (fin opened) ->
  (List.length pages <= fuel)%nat ->
  let r := getBetHistory w fuel fromDate toDate p in
  (exists t, out r = Ret (mkResult true
                            (Some (map Sports411.scrape_ticket (List.concat pages)))
                            None t)) /\
  count is_extraction (actions r) = List.length pages.
Proof.
  cbn zeta. cbn [isLoggedIn getBetHistory item Sports411Workflow].
  intros Hlogged Hopened Hpages Hfuel.
  destruct (scrape_pages_paginated B pages _ Hpages fuel [] Hfuel) as [Hout Hcount].
  cbn [app] in Hout.
  apply wp_run with
    (Q := fun r =>
            (exists t, out r = Ret (mkResult true
                           (Some (map Sports411.scrape_ticket (List.concat pages)))
                           None t)) /\
            count is_extraction (actions r) = List.length pages).
  unfold Sports411.getBetHistory.
  apply wp_try_catch.
  apply (wp_bind_ret _ _ _ _ _ _ Hlogged). cbn [negb].
  unfold Sports411.scrape_history.
  apply (wp_bind_ret _ _ _ _ _ _ Hopened).
  apply (wp_bind_ret _ _ _ _ _ _ Hout).
  apply wp_result. unfold continue. cbn [out evs fin app].
  split.
  - eexists. reflexivity.
  - unfold actions. cbn [evs]. rewrite !map_app, !count_app. cbn [map].
    fold (actions (Sports411.isLoggedIn B p)).
    rewrite (count_probes_extraction _ (sports411_isLoggedIn_probes B p)).
    fold (actions (Sports411.open_history B fromDate toDate
                     (fin (Sports411.isLoggedIn B p)))).
    rewrite open_history_no_extraction.
    unfold actions in Hcount. rewrite Hcount. cbn. lia.
Qed.

Lemma sports411_history_stops_at_last_page_witness :
  let w := Sports411Workflow (B := Sim.browser) Sim.with_credentials in
  let p := Sim.sports411_logged_in Sim.three_pages false in
  let r := getBetHistory w 3 None None p in
  out (isLoggedIn w p) = Ret true /\
  map Sports411.betId (match out r with
                       | Ret res => match data res with Some l => l | None => [] end
                       | _ => []
                       end)
  = [Some "101"; Some "102"; Some "103"; Some "104"; Some "105"; Some "106"] /\
  count is_extraction (actions r) = 3%nat.
Proof.
  intros w p r.
  assert (Hlogged : out (isLoggedIn w p) = Ret true) by reflexivity.
  assert (Hopened : out (Sports411.open_history Sim.browser None None
                           (fin (isLoggedIn w p))) = Ret tt) by reflexivity.
  assert (Hpages : paginated Sim.three_pages
                     (fin (Sports411.open_history Sim.browser None None
                             (fin (isLoggedIn w p))))).
  { eapply next_page; [reflexivity | reflexivity | reflexivity | reflexivity |].
    eapply next_page; [reflexivity | reflexivity | reflexivity | reflexivity |].
    eapply last_page; reflexivity. }
  assert (Hfuel : (List.length Sim.three_pages <= 3)%nat) by (cbn; lia).
  destruct (sports411_history_stops_at_last_page Sim.browser Sim.with_credentials 3
              None None Sim.three_pages p Hlogged Hopened Hpages Hfuel)
    as [[t Hout] Hcount].
  split; [exact Hlogged | split].
  - subst r. fold w in Hout. rewrite Hout. reflexivity.
  - exact Hcount.
Defined.

(** On a site whose next-page control stays enabled the loop uses up
    every budget. *)
Lemma scrape_pages_stuck (fuel : nat) :
  forall (allBets : list Sports411.Bet) (c : Z) (u : string) (present after : list string)
         (pages : list (list TicketNode)) (rows : list RowNode) (s : option Z),
    let p := Sim.mkSite c u present after pages true rows s Sim.no_fault in
    out (Sports411.scrape_pages Sim.browser fuel allBets p) = Diverge /\
    count is_extraction (actions (Sports411.scrape_pages Sim.browser fuel allBets p)) = fuel.
Proof.
  induction fuel as [| fuel IH]; intros allBets c u present after pages rows s p.
  - split; reflexivity.
  - subst p. cbn [Sports411.scrape_pages].
    apply wp_run with
      (Q := fun r => out r = Diverge /\ count is_extraction (actions r) = S fuel).
    apply wp_bind, wp_call.
    cbn [perform Sim.browser Sim.sim_perform Sim.sim_fault Sim.no_fault Sim.respond
         out evs fin].
    apply wp_bind, wp_call.
    cbn [perform Sim.browser Sim.sim_perform Sim.sim_fault Sim.no_fault Sim.respond
         out evs fin].
    change (String.eqb Sports411.sel_next Sports411.sel_next) with true. cbn iota.
    change (Sim.has_next (Sim.mkSite c u present after pages true rows s Sim.no_fault))
      with true.
    cbn iota.
    apply wp_bind, wp_call.
    cbn [perform Sim.browser Sim.sim_perform Sim.sim_fault Sim.no_fault Sim.respond
         out evs fin].
    change (Sim.click Sports411.sel_next
               (Sim.mkSite c u present after pages true rows s Sim.no_fault))
      with (Sim.mkSite c u present after pages true rows s Sim.no_fault).
    apply wp_bind, wp_call.
    cbn [perform Sim.browser Sim.sim_perform Sim.sim_fault Sim.no_fault Sim.respond
         out evs fin].
    cbn [Sim.later Sim.sim_clock Sim.sim_url Sim.sim_present Sim.sim_after_submit
         Sim.sim_pages Sim.sim_stuck Sim.sim_rows Sim.sim_solved_at Sim.sim_fault].
    destruct (IH (allBets ++ map Sports411.scrape_ticket (hd [] pages))%list
                 (c + Z.max 0 1500)%Z u present after pages rows s) as [IHout IHcount].
    cbn zeta in IHout, IHcount.
    unfold wp, actions, count, continue in *.
    cbn [out evs fin app map action List.filter is_extraction List.length].
    split; [exact IHout |].
    apply (f_equal S). exact IHcount.
Qed.

(** Counterexample to C1 as the spec states it:
    on a history of one page whose next-page control
    stays enabled and leads to the same tickets, [getBetHistory] returns
    under no budget, and within a budget of five rounds it has extracted
    five times, more than the two rounds claimed for one page. *)
Lemma sports411_stuck_pagination_never_returns :
  let w := Sports411Workflow (B := Sim.browser) Sim.with_credentials in
  (forall fuel, out (getBetHistory w fuel None None Sim.sports411_stuck) = Diverge) /\
  count is_extraction (actions (getBetHistory w 5 None None Sim.sports411_stuck)) = 5%nat.
Proof.
  intros w. split; [| reflexivity].
  intros fuel. subst w. cbn [getBetHistory Sports411Workflow].
  unfold Sports411.getBetHistory, try_catch.
  assert (H : out ((logged <- Sports411.isLoggedIn Sim.browser ;;
                    if negb logged
                    then result false [] (Some "Not logged in. Call login() first.")
                    else Sports411.scrape_history Sim.browser fuel None None)
                     Sim.sports411_stuck) = Diverge).
  { rewrite bind_ret_run with (v := true) by reflexivity.
    cbn [negb]. unfold Sports411.scrape_history.
    rewrite bind_ret_run with (v := tt) by reflexivity.
    cbn [out continue].
    rewrite bind_diverge_run; [reflexivity |].
    apply scrape_pages_stuck. }
  rewrite H. exact H.
Qed.

(** ** Faults and what becomes of them *)

Section FaultFacts.
Variable B : Browser.
Variable hidden : Action -> bool.

Lemma faulted_app_l {A C : Type} (r : Run (page B) A) (r' : Run (page B) C) msg :
  faulted hidden (continue r r') msg ->
  faulted hidden r msg \/ faulted hidden r' msg.
Proof.
  intros (e & He & Hf & Hh). cbn [continue evs] in He.
  apply in_app_or in He. destruct He as [He | He]; [left | right]; exists e; auto.
Qed.

Lemma faulted_continue_r {A C : Type} (r : Run (page B) A) (r' : Run (page B) C) msg :
  faulted hidden r' msg -> faulted hidden (continue r r') msg.
Proof.
  intros (e & He & Hf & Hh). exists e. cbn [continue evs].
  split; [apply in_or_app; right; exact He | auto].
Qed.

Lemma faulted_same_events {A C : Type} (r : Run (page B) A) (r' : Run (page B) C) msg :
  evs r = evs r' -> faulted hidden r msg -> faulted hidden r' msg.
Proof. intros H (e & He & Hf). exists e. rewrite <- H. auto. Qed.

Lemma not_faulted_silent {A : Type} (r : Run (page B) A) msg :
  evs r = [] -> ~ faulted hidden r msg.
Proof. intros H (e & He & _). rewrite H in He. exact He. Qed.

(** *** [propagates] *)

Lemma propagates_silent {A : Type} (m : M B A) :
  (forall p, evs (m p) = []) -> propagates hidden m.
Proof. intros H p msg Hf. destruct (not_faulted_silent _ _ (H p) Hf). Qed.

Lemma propagates_ret {A : Type} (v : A) : propagates hidden (ret (B := B) v).
Proof. apply propagates_silent. reflexivity. Qed.

Lemma propagates_throw {A : Type} msg : propagates hidden (throw (B := B) (A := A) msg).
Proof. apply propagates_silent. reflexivity. Qed.

Lemma propagates_diverge {A : Type} : propagates hidden (diverge (B := B) (A := A)).
Proof. apply propagates_silent. reflexivity. Qed.

Lemma propagates_now : propagates hidden (now (B := B)).
Proof. apply propagates_silent. reflexivity. Qed.

Lemma propagates_success_now : propagates hidden (success_now (B := B)).
Proof. apply propagates_silent. reflexivity. Qed.

Lemma propagates_failure_now msg : propagates hidden (failure_now (B := B) msg).
Proof. apply propagates_silent. reflexivity. Qed.

Lemma propagates_result {T : Type} ok (payload : T) err :
  propagates hidden (result (B := B) ok payload err).
Proof. apply propagates_silent. reflexivity. Qed.

Lemma propagates_call (a : Action) : propagates hidden (call (B := B) a).
Proof.
  intros p msg (e & He & Hf & _). unfold call in *.
  destruct (perform B a p) as [v q | msg' q]; cbn [evs out] in *.
  - destruct He as [<- | []]. discriminate Hf.
  - destruct He as [<- | []]. cbn [fault] in Hf. congruence.
Qed.

Lemma propagates_bind {A C : Type} (m : M B A) (k : A -> M B C) :
  propagates hidden m -> (forall v, propagates hidden (k v)) ->
  propagates hidden (bind m k).
Proof.
  intros Hm Hk p msg Hf. rewrite bind_unfold in *.
  destruct (out (m p)) as [v | msg' |] eqn:E.
  - apply faulted_app_l in Hf. destruct Hf as [Hf | Hf].
    + apply Hm in Hf. congruence.
    + apply Hk in Hf. exact Hf.
  - assert (Hf' : faulted hidden (m p) msg) by (revert Hf; apply faulted_same_events; reflexivity).
    apply Hm in Hf'. cbn [out]. congruence.
  - assert (Hf' : faulted hidden (m p) msg) by (revert Hf; apply faulted_same_events; reflexivity).
    apply Hm in Hf'. congruence.
Qed.

(** A [try] block whose calls are all covered, with a handler that goes on. *)
Lemma propagates_swallow {A : Type} (m : M B A) (h : string -> M B A) :
  calls_only hidden m -> (forall msg, propagates hidden (h msg)) ->
  propagates hidden (try_catch m h).
Proof.
  intros Hm Hh p msg Hf.
  assert (Hnot : ~ faulted hidden (m p) msg).
  { intros (e & He & _ & Hhid). specialize (Hm p). rewrite Forall_forall in Hm.
    specialize (Hm (action e) (in_map action _ _ He)). congruence. }
  unfold try_catch in *. destruct (out (m p)) as [v | msg' |] eqn:E.
  - contradiction.
  - change (faulted hidden (continue (m p) (h msg' (fin (m p)))) msg) in Hf.
    apply faulted_app_l in Hf. destruct Hf as [Hf | Hf]; [contradiction |].
    apply Hh in Hf. exact Hf.
  - contradiction.
Qed.

Lemma propagates_first_match (selectors : list string) (act : string -> M B unit) :
  (forall sel, propagates hidden (act sel)) ->
  propagates hidden (first_match selectors act).
Proof.
  intros Hact. induction selectors as [| sel rest IH]; cbn [first_match].
  - apply propagates_ret.
  - apply propagates_bind; [apply propagates_call |].
    intros found. destruct found; [apply Hact | exact IH].
Qed.

(** *** [throws_faults_only] *)

Lemma throws_only_returning {A : Type} (m : M B A) :
  (forall p msg, out (m p) <> Throw msg) -> throws_faults_only hidden m.
Proof. intros H p msg Hout. destruct (H p msg Hout). Qed.

Lemma throws_only_ret {A : Type} (v : A) : throws_faults_only hidden (ret (B := B) v).
Proof. apply throws_only_returning. discriminate. Qed.

Lemma throws_only_diverge {A : Type} :
  throws_faults_only hidden (diverge (B := B) (A := A)).
Proof. apply throws_only_returning. discriminate. Qed.

Lemma throws_only_now : throws_faults_only hidden (now (B := B)).
Proof. apply throws_only_returning. discriminate. Qed.

Lemma throws_only_success_now : throws_faults_only hidden (success_now (B := B)).
Proof. apply throws_only_returning. discriminate. Qed.

Lemma throws_only_failure_now msg : throws_faults_only hidden (failure_now (B := B) msg).
Proof. apply throws_only_returning. discriminate. Qed.

Lemma throws_only_call (a : Action) :
  hidden a = false -> throws_faults_only hidden (call (B := B) a).
Proof.
  intros Ha p msg Hout. unfold call in *.
  destruct (perform B a p) as [v q | msg' q]; cbn [out] in Hout; [discriminate |].
  injection Hout as ->. exists (mkEvent a (Some msg)). cbn. auto.
Qed.

Lemma throws_only_bind {A C : Type} (m : M B A) (k : A -> M B C) :
  throws_faults_only hidden m -> (forall v, throws_faults_only hidden (k v)) ->
  throws_faults_only hidden (bind m k).
Proof.
  intros Hm Hk p msg Hout. rewrite bind_unfold in *.
  destruct (out (m p)) as [v | msg' |] eqn:E.
  - apply faulted_continue_r. apply Hk. exact Hout.
  - cbn [out] in Hout. injection Hout as ->.
    apply Hm in E. revert E. apply faulted_same_events. reflexivity.
  - discriminate Hout.
Qed.

(** A [try] block with a handler that does not throw. *)
Lemma throws_only_caught {A : Type} (m : M B A) (h : string -> M B A) :
  (forall msg, throws_faults_only hidden (h msg)) ->
  throws_faults_only hidden (try_catch m h).
Proof.
  intros Hh p msg Hout. unfold try_catch in *.
  destruct (out (m p)) as [v | msg' |] eqn:E.
  - congruence.
  - change (faulted hidden (continue (m p) (h msg' (fin (m p)))) msg).
    apply faulted_continue_r. apply Hh. exact Hout.
  - congruence.
Qed.

Lemma throws_only_first_match (selectors : list string) (act : string -> M B unit) :
  (forall sel, In sel selectors -> hidden (Exists sel) = false) ->
  (forall sel, throws_faults_only hidden (act sel)) ->
  throws_faults_only hidden (first_match selectors act).
Proof.
  intros Hsel Hact. induction selectors as [| sel rest IH]; cbn [first_match].
  - apply throws_only_ret.
  - apply throws_only_bind.
    + apply throws_only_call. apply Hsel. left. reflexivity.
    + intros found. destruct found; [apply Hact |].
      apply IH. intros s Hs. apply Hsel. right. exact Hs.
Qed.

(** *** What a caught fault becomes *)

(** [try { m } catch (err) { return failure(err.message) }]: nothing is
    thrown, and a fault that [hidden] does not cover gives the failure
    result with its message. *)
Lemma caught_faults_fail {A : Type} (m : M B A) (h : string -> M B A)
    (failure : string -> Z -> A) (p : page B) :
  propagates hidden m ->
  (forall msg q, h msg q = mkRun [] q (Ret (failure msg (clock B q)))) ->
  let r := try_catch m h p in
  (forall msg, out r <> Throw msg) /\
  (forall msg, faulted hidden r msg -> out r = Ret (failure msg (clock B (fin r)))).
Proof.
  intros Hm Hh. cbn zeta. unfold try_catch.
  destruct (out (m p)) as [v | msg' |] eqn:E.
  - split; [intros msg; congruence |].
    intros msg Hf. apply Hm in Hf. congruence.
  - rewrite Hh. cbn [evs fin out]. split; [discriminate |].
    intros msg (e & He & Hf). rewrite app_nil_r in He.
    assert (Hthrow : out (m p) = Throw msg) by (apply Hm; exists e; auto).
    congruence.
  - split; [intros msg; congruence |].
    intros msg Hf. apply Hm in Hf. congruence.
Qed.

End FaultFacts.

(** *** Saving the session *)

Section SavedFacts.
Variable B : Browser.

Lemma returns_saved_bind {A : Type} (m : M B A) (k : A -> M B (WorkflowResult unit)) :
  (forall v, returns_saved (k v)) -> returns_saved (bind m k).
Proof.
  intros Hk p res Hout. rewrite bind_unfold in *.
  destruct (out (m p)) as [v | msg |] eqn:E; try discriminate Hout.
  destruct (Hk v _ _ Hout) as [Hs Hin]. split; [exact Hs |].
  unfold actions, continue in *. cbn [evs]. rewrite map_app.
  apply in_or_app. right. exact Hin.
Qed.

Lemma returns_saved_save : returns_saved (bind (call (B := B) SaveSession) (fun _ => success_now)).
Proof.
  intros p res. unfold bind, call.
  destruct (perform B SaveSession p) as [v q | msg q]; cbn; [| discriminate].
  intros Hout. injection Hout as <-. cbn. auto.
Qed.

End SavedFacts.

Lemma propagates_page_url (B : Browser) hidden : propagates hidden (page_url (B := B)).
Proof. apply propagates_silent. reflexivity. Qed.

Lemma propagates_iso_day (B : Browser) hidden (d : Js.Date) :
  propagates hidden (iso_day (B := B) d).
Proof. destruct d; [apply propagates_ret | apply propagates_throw]. Qed.

(** Going through a computation call by call. *)
Ltac propagate :=
  repeat first
    [ apply propagates_bind
    | apply propagates_call
    | apply propagates_ret
    | apply propagates_throw
    | apply propagates_diverge
    | apply propagates_now
    | apply propagates_page_url
    | apply propagates_iso_day
    | apply propagates_success_now
    | apply propagates_failure_now
    | apply propagates_result
    | apply propagates_first_match
    | lazymatch goal with
      | |- forall _, _ => intro
      | |- propagates ?h (call ?a) => exact (propagates_call _ h a)
      | |- propagates _ (if ?b then _ else _) => destruct b
      | |- propagates _ (match ?o with Some _ => _ | None => _ end) => destruct o
      end ].

Section Propagation.
Variable B : Browser.
Variable hidden : Action -> bool.

Lemma pinnacle_isLoggedIn_propagates : propagates hidden (Pinnacle.isLoggedIn B).
Proof. unfold Pinnacle.isLoggedIn. propagate. Qed.

Lemma sports411_isLoggedIn_propagates : propagates hidden (Sports411.isLoggedIn B).
Proof. unfold Sports411.isLoggedIn. propagate. Qed.

Lemma betonline_isLoggedIn_propagates : propagates hidden (BetOnline.isLoggedIn B).
Proof. unfold BetOnline.isLoggedIn. propagate. Qed.



Lemma sports411_submit_propagates (user pass : string) :
  propagates hidden (Sports411.submit_credentials B user pass).
Proof. unfold Sports411.submit_credentials. propagate. Qed.

End Propagation.

Section HistoryFaults.
Variable B : Browser.




End HistoryFaults.

Section LoginFaults.
Variable B : Browser.

Lemma calls_only_call hidden (a : Action) :
  hidden a = true -> calls_only hidden (call (B := B) a).
Proof.
  intros Ha p. unfold actions, call.
  destruct (perform B a p); cbn; constructor; auto.
Qed.

Lemma popup_calls_hidden :
  calls_only betonline_swallowed
    (gotItBtn <- call (B := B) (Query BetOnline.sel_got_it) ;;
     if gotItBtn then
       call (ClickHandle BetOnline.sel_got_it) ;;
       call (RandomDelay 400 800)
     else ret tt).
Proof.
  intros p.
  apply wp_run with
    (Q := fun r => Forall (fun a => betonline_swallowed a = true) (actions r)).
  wp_steps; unfold actions; cbn [evs map action app]; repeat constructor.
Qed.

Lemma dismiss_popup_propagates : propagates betonline_swallowed (BetOnline.dismiss_popup B).
Proof.
  unfold BetOnline.dismiss_popup.
  apply propagates_swallow; [apply popup_calls_hidden | intros msg; apply propagates_ret].
Qed.

Lemma submit_propagates : propagates betonline_swallowed (BetOnline.submit B).
Proof.
  unfold BetOnline.submit.
  apply propagates_bind; [propagate | intros _].
  apply propagates_bind; [propagate | intros _].
  apply propagates_bind; [apply dismiss_popup_propagates | intros _].
  propagate.
Qed.

Lemma captcha_wait_propagates (fuel : nat) (startTime : Z) :
  propagates betonline_swallowed (BetOnline.captcha_wait B fuel startTime).
Proof.
  induction fuel as [| fuel IH]; cbn [BetOnline.captcha_wait].
  - propagate.
  - apply propagates_bind; [propagate | intros t].
    destruct (t - startTime <? BetOnline.captchaTimeout)%Z; [| propagate].
    apply propagates_bind.
    + apply propagates_swallow; [apply calls_only_call; reflexivity |].
      intros msg. apply propagates_ret.
    + intros solved. destruct solved; [propagate |].
      apply propagates_bind; [apply betonline_isLoggedIn_propagates | intros logged].
      destruct logged; [propagate |].
      apply propagates_bind; [propagate | intros _; exact IH].
Qed.

Lemma betonline_auto_login_propagates (fuel : nat) (user pass : string) :
  propagates betonline_swallowed (BetOnline.auto_login B fuel user pass).
Proof.
  unfold BetOnline.auto_login.
  apply propagates_bind; [propagate | intros loginBtn].
  apply propagates_bind; [propagate | intros _].
  do 5 (apply propagates_bind; [propagate | intros _]).
  apply propagates_bind; [propagate | intros hasRecaptcha].
  apply propagates_bind.
  - destruct hasRecaptcha; [| propagate].
    apply propagates_bind; [propagate | intros startTime].
    apply captcha_wait_propagates.
  - intros [r |]; [propagate | apply submit_propagates].
Qed.

(** [login()] of the shape the workflows give it: the check of the login
    state, then what [tail] does when it answers [false]. *)
Lemma checked_login_faults hidden (check : M B bool) (tail : M B (WorkflowResult unit))
    (p : page B) (b : bool) :
  propagates hidden check ->
  out (check p) = Ret b ->
  (forall q, (forall msg, out (tail q) <> Throw msg) /\
             (forall msg, faulted hidden (tail q) msg ->
                          out (tail q) = Ret (mkResult false None (Some msg)
                                                       (clock B (fin (tail q)))))) ->
  let r := bind check (fun logged => if logged then success_now else tail) p in
  (forall msg, out r <> Throw msg) /\
  (forall msg, faulted hidden r msg ->
               out r = Ret (mkResult false None (Some msg) (clock B (fin r)))).
Proof.
  intros Hcheck Hb Htail. cbn zeta. rewrite (bind_ret_run _ _ _ _ _ Hb).
  assert (Hquiet : forall msg, ~ faulted hidden (check p) msg).
  { intros msg Hf. apply Hcheck in Hf. congruence. }
  destruct b.
  - split; [discriminate |].
    intros msg Hf. apply faulted_app_l in Hf. destruct Hf as [Hf | Hf].
    + destruct (Hquiet msg Hf).
    + exfalso. revert Hf. apply not_faulted_silent. reflexivity.
  - destruct (Htail (fin (check p))) as [Hno Hfail].
    split; [exact Hno |].
    intros msg Hf. apply faulted_app_l in Hf. destruct Hf as [Hf | Hf].
    + destruct (Hquiet msg Hf).
    + apply Hfail. exact Hf.
Qed.

Lemma silent_failure_faults hidden (text : string) (q : page B) :
  (forall msg, out (failure_now (B := B) text q) <> Throw msg) /\
  (forall msg, faulted hidden (failure_now (B := B) text q) msg ->
               out (failure_now (B := B) text q) =
               Ret (mkResult false None (Some msg)
                             (clock B (fin (failure_now (B := B) text q))))).
Proof.
  split; [discriminate |].
  intros msg Hf. exfalso. revert Hf. apply not_faulted_silent. reflexivity.
Qed.

Lemma sports411_login_faults (config : SiteConfig) (p : page B) (b : bool) :
  out (Sports411.isLoggedIn B p) = Ret b ->
  let r := Sports411.login B config p in
  (forall msg, out r <> Throw msg) /\
  (forall msg, faulted nothing_hidden r msg ->
               out r = Ret (mkResult false None (Some msg) (clock B (fin r)))).
Proof.
  intros Hb. unfold Sports411.login.
  apply checked_login_faults with (b := b);
    [apply sports411_isLoggedIn_propagates | exact Hb |].
  intros q. destruct (credentials config) as [[user pass] |].
  - apply caught_faults_fail with (failure := fun msg t => mkResult false None (Some msg) t).
    + apply sports411_submit_propagates.
    + reflexivity.
  - apply silent_failure_faults.
Qed.

Lemma betonline_login_faults (config : SiteConfig) (fuel : nat) (p : page B) (b : bool) :
  out (BetOnline.isLoggedIn B p) = Ret b ->
  let r := BetOnline.login B config fuel p in
  (forall msg, out r <> Throw msg) /\
  (forall msg, faulted betonline_swallowed r msg ->
               out r = Ret (mkResult false None (Some msg) (clock B (fin r)))).
Proof.
  intros Hb. unfold BetOnline.login.
  apply checked_login_faults with (b := b);
    [apply betonline_isLoggedIn_propagates | exact Hb |].
  intros q. destruct (credentials config) as [[user pass] |].
  - apply caught_faults_fail with (failure := fun msg t => mkResult false None (Some msg) t).
    + apply betonline_auto_login_propagates.
    + reflexivity.
  - apply silent_failure_faults.
Qed.


End LoginFaults.




(** ** Session persistence *)

Ltac throws_only :=
  repeat first
    [ apply throws_only_bind
    | apply throws_only_ret
    | apply throws_only_diverge
    | apply throws_only_now
    | apply throws_only_success_now
    | apply throws_only_failure_now
    | apply throws_only_first_match
    | lazymatch goal with
      | |- forall _, _ => intro
      | |- throws_faults_only ?h (call ?a) => exact (throws_only_call _ h a eq_refl)
      | |- throws_faults_only _ (if ?b then _ else _) => destruct b
      | |- throws_faults_only _ (match ?o with Some _ => _ | None => _ end) => destruct o
      end ].

Section Saving.
Variable B : Browser.

Lemma betonline_isLoggedIn_throws hidden :
  (forall sel, hidden (Exists sel) = false) ->
  throws_faults_only hidden (BetOnline.isLoggedIn B).
Proof.
  intros H. unfold BetOnline.isLoggedIn.
  apply throws_only_bind; [apply throws_only_call, H | intros v].
  apply throws_only_bind; [apply throws_only_call, H | intros v0].
  destruct (v || v0); [apply throws_only_ret |].
  apply throws_only_bind; [apply throws_only_call, H | intros v1].
  apply throws_only_ret.
Qed.

Lemma sports411_submit_throws (user pass : string) :
  throws_faults_only nothing_hidden (Sports411.submit_credentials B user pass).
Proof.
  unfold Sports411.submit_credentials. throws_only; reflexivity.
Qed.

Lemma sports411_submit_saves (user pass : string) :
  returns_saved (Sports411.submit_credentials B user pass).
Proof.
  unfold Sports411.submit_credentials.
  do 6 (apply returns_saved_bind; intros _).
  apply returns_saved_save.
Qed.

Lemma submit_throws : throws_faults_only betonline_swallowed (BetOnline.submit B).
Proof.
  unfold BetOnline.submit, BetOnline.dismiss_popup.
  apply throws_only_bind; [throws_only | intros _].
  apply throws_only_bind; [throws_only | intros _].
  apply throws_only_bind; [| intros _; throws_only].
  apply throws_only_caught. intros msg. apply throws_only_ret.
Qed.

Lemma submit_saves : returns_saved (BetOnline.submit B).
Proof.
  unfold BetOnline.submit.
  do 3 (apply returns_saved_bind; intros _).
  apply returns_saved_save.
Qed.

Lemma captcha_wait_throws (fuel : nat) (startTime : Z) :
  throws_faults_only betonline_swallowed (BetOnline.captcha_wait B fuel startTime).
Proof.
  induction fuel as [| fuel IH]; cbn [BetOnline.captcha_wait].
  - throws_only.
  - apply throws_only_bind; [throws_only | intros t].
    destruct (t - startTime <? BetOnline.captchaTimeout)%Z; [| throws_only].
    apply throws_only_bind.
    + apply throws_only_caught. intros msg. apply throws_only_ret.
    + intros solved. destruct solved; [throws_only |].
      apply throws_only_bind; [apply betonline_isLoggedIn_throws; reflexivity |].
      intros logged. destruct logged; [throws_only |].
      apply throws_only_bind; [throws_only | intros _; exact IH].
Qed.

Lemma betonline_auto_login_throws (fuel : nat) (user pass : string) :
  throws_faults_only betonline_swallowed (BetOnline.auto_login B fuel user pass).
Proof.
  unfold BetOnline.auto_login.
  apply throws_only_bind; [throws_only | intros loginBtn].
  apply throws_only_bind; [throws_only | intros _].
  do 5 (apply throws_only_bind; [throws_only | intros _]).
  apply throws_only_bind; [throws_only | intros hasRecaptcha].
  apply throws_only_bind.
  - destruct hasRecaptcha; [| throws_only].
    apply throws_only_bind; [throws_only | intros startTime].
    apply captcha_wait_throws.
  - intros [r |]; [throws_only | apply submit_throws].
Qed.

Lemma early_saved_bind {A : Type} (m : M B A) (k : A -> M B (option (WorkflowResult unit))) :
  (forall v, early_saved (k v)) -> early_saved (bind m k).
Proof.
  intros Hk p res Hout. rewrite bind_unfold in *.
  destruct (out (m p)) as [v | msg |] eqn:E; try discriminate Hout.
  destruct (Hk v _ _ Hout) as [Hs Hin]. split; [exact Hs |].
  unfold actions, continue in *. cbn [evs]. rewrite map_app.
  apply in_or_app. right. exact Hin.
Qed.

Lemma early_saved_none : early_saved (ret (B := B) None).
Proof. intros p res Hout. discriminate Hout. Qed.

Lemma early_saved_save :
  early_saved (call (B := B) SaveSession ;; r <- success_now ;; ret (Some r)).
Proof.
  intros p res. unfold bind, call.
  destruct (perform B SaveSession p) as [v q | msg q]; cbn; [| discriminate].
  intros Hout. injection Hout as <-. cbn. auto.
Qed.

Lemma captcha_wait_saves (fuel : nat) (startTime : Z) :
  early_saved (BetOnline.captcha_wait B fuel startTime).
Proof.
  induction fuel as [| fuel IH]; cbn [BetOnline.captcha_wait];
    apply early_saved_bind; intros t;
    destruct (t - startTime <? BetOnline.captchaTimeout)%Z;
    try apply early_saved_none.
  - intros p res Hout. discriminate Hout.
  - apply early_saved_bind. intros solved. destruct solved; [apply early_saved_none |].
    apply early_saved_bind. intros logged. destruct logged; [apply early_saved_save |].
    apply early_saved_bind. intros _. exact IH.
Qed.

(** An early result is returned as it is; without one, [k] goes on. *)
Lemma returns_saved_early (m : M B (option (WorkflowResult unit)))
    (k : M B (WorkflowResult unit)) :
  early_saved m -> returns_saved k ->
  returns_saved (early <- m ;; match early with Some r => ret r | None => k end).
Proof.
  intros Hm Hk p res Hout. rewrite bind_unfold in *.
  destruct (out (m p)) as [[r |] | msg |] eqn:E; try discriminate Hout.
  - cbn in Hout. injection Hout as <-.
    destruct (Hm p r E) as [Hs Hin]. split; [exact Hs |].
    unfold actions, continue in *. cbn [evs]. rewrite map_app.
    apply in_or_app. left. exact Hin.
  - destruct (Hk _ _ Hout) as [Hs Hin]. split; [exact Hs |].
    unfold actions, continue in *. cbn [evs]. rewrite map_app.
    apply in_or_app. right. exact Hin.
Qed.

Lemma betonline_auto_login_saves (fuel : nat) (user pass : string) :
  returns_saved (BetOnline.auto_login B fuel user pass).
Proof.
  unfold BetOnline.auto_login.
  apply returns_saved_bind; intros loginBtn.
  do 6 (apply returns_saved_bind; intros _).
  apply returns_saved_bind; intros hasRecaptcha.
  apply returns_saved_early; [| apply submit_saves].
  destruct hasRecaptcha; [| apply early_saved_none].
  apply early_saved_bind. intros startTime. apply captcha_wait_saves.
Qed.

(** [login()] with credentials on a page that is not logged in: what the
    [try] block returns is returned, what it throws becomes a failure. *)
Lemma submitted_login_outcome hidden (check : M B bool) (body : M B (WorkflowResult unit))
    (p : page B) (res : WorkflowResult unit) :
  throws_faults_only hidden body ->
  returns_saved body ->
  out (check p) = Ret false ->
  let r := bind check (fun logged => if logged then success_now
                                     else try_catch body (fun msg => failure_now msg)) p in
  out r = Ret res ->
  (success res = true /\ In SaveSession (actions r)) \/
  (exists msg, faulted hidden r msg /\
               res = mkResult false None (Some msg) (clock B (fin r))).
Proof.
  intros Hthrows Hsaves Hcheck. cbn zeta.
  rewrite (bind_ret_run _ _ _ _ _ Hcheck).
  set (q := fin (check p)). unfold try_catch.
  destruct (out (body q)) as [v | msg |] eqn:E.
  - unfold continue at 1. cbn [out]. rewrite E. intros Hout. injection Hout as <-.
    left. destruct (Hsaves q v E) as [Hs Hin]. split; [exact Hs |].
    unfold actions, continue in *. cbn [evs]. rewrite map_app.
    apply in_or_app. right. exact Hin.
  - unfold continue. cbn [out evs fin failure_now bind now ret app].
    intros Hout. injection Hout as <-.
    right. exists msg. split; [| reflexivity].
    destruct (Hthrows q msg E) as (e & He & Hf & Hh).
    exists e. cbn [evs]. rewrite app_nil_r.
    split; [apply in_or_app; right; exact He | auto].
  - unfold continue at 1. cbn [out]. rewrite E. discriminate.
Qed.

Lemma sports411_login_outcome (config : SiteConfig) (user pass : string)
    (p : page B) (res : WorkflowResult unit) :
  credentials config = Some (user, pass) ->
  out (Sports411.isLoggedIn B p) = Ret false ->
  let r := Sports411.login B config p in
  out r = Ret res ->
  (success res = true /\ In SaveSession (actions r)) \/
  (exists msg, faulted nothing_hidden r msg /\
               res = mkResult false None (Some msg) (clock B (fin r))).
Proof.
  intros Hc Hcheck. unfold Sports411.login. rewrite Hc.
  apply submitted_login_outcome;
    [apply sports411_submit_throws | apply sports411_submit_saves | exact Hcheck].
Qed.

Lemma betonline_login_outcome (config : SiteConfig) (fuel : nat) (user pass : string)
    (p : page B) (res : WorkflowResult unit) :
  credentials config = Some (user, pass) ->
  out (BetOnline.isLoggedIn B p) = Ret false ->
  let r := BetOnline.login B config fuel p in
  out r = Ret res ->
  (success res = true /\ In SaveSession (actions r)) \/
  (exists msg, faulted betonline_swallowed r msg /\
               res = mkResult false None (Some msg) (clock B (fin r))).
Proof.
  intros Hc Hcheck. unfold BetOnline.login. rewrite Hc.
  apply submitted_login_outcome;
    [apply betonline_auto_login_throws | apply betonline_auto_login_saves | exact Hcheck].
Qed.

End Saving.

(** ** Coming to an end *)

Section Halting.
Variable B : Browser.

Lemma halts_ret {A : Type} (v : A) : halts (ret (B := B) v).
Proof. intros p. discriminate. Qed.

Lemma halts_throw {A : Type} msg : halts (throw (B := B) (A := A) msg).
Proof. intros p. discriminate. Qed.

Lemma halts_now : halts (now (B := B)).
Proof. intros p. discriminate. Qed.

Lemma halts_page_url : halts (page_url (B := B)).
Proof. intros p. discriminate. Qed.

Lemma halts_success_now : halts (success_now (B := B)).
Proof. intros p. discriminate. Qed.

Lemma halts_failure_now msg : halts (failure_now (B := B) msg).
Proof. intros p. discriminate. Qed.

Lemma halts_call (a : Action) : halts (call (B := B) a).
Proof. intros p. unfold call. destruct (perform B a p); discriminate. Qed.

Lemma halts_bind {A C : Type} (m : M B A) (k : A -> M B C) :
  halts m -> (forall v, halts (k v)) -> halts (bind m k).
Proof.
  intros Hm Hk p. rewrite bind_unfold.
  destruct (out (m p)) as [v | msg |] eqn:E.
  - apply Hk.
  - discriminate.
  - destruct (Hm p E).
Qed.

Lemma halts_try_catch {A : Type} (m : M B A) (h : string -> M B A) :
  halts m -> (forall msg, halts (h msg)) -> halts (try_catch m h).
Proof.
  intros Hm Hh p. unfold try_catch.
  destruct (out (m p)) as [v | msg |] eqn:E.
  - congruence.
  - apply Hh.
  - destruct (Hm p E).
Qed.

Lemma halts_first_match (selectors : list string) (act : string -> M B unit) :
  (forall sel, halts (act sel)) -> halts (first_match selectors act).
Proof.
  intros Hact. induction selectors as [| sel rest IH]; cbn [first_match].
  - apply halts_ret.
  - apply halts_bind; [apply halts_call |].
    intros found. destruct found; [apply Hact | exact IH].
Qed.

End Halting.

Ltac halting :=
  repeat first
    [ apply halts_bind
    | apply halts_try_catch
    | apply halts_ret
    | apply halts_throw
    | apply halts_now
    | apply halts_page_url
    | apply halts_success_now
    | apply halts_failure_now
    | apply halts_first_match
    | lazymatch goal with
      | |- forall _, _ => intro
      | |- halts (call ?a) => exact (halts_call _ a)
      | |- halts (if ?b then _ else _) => destruct b
      | |- halts (match ?o with Some _ => _ | None => _ end) => destruct o
      end ].

Section HaltingWorkflows.
Variable B : Browser.

Lemma pinnacle_isLoggedIn_halts : halts (Pinnacle.isLoggedIn B).
Proof. unfold Pinnacle.isLoggedIn. halting. Qed.

Lemma sports411_isLoggedIn_halts : halts (Sports411.isLoggedIn B).
Proof. unfold Sports411.isLoggedIn. halting. Qed.

Lemma pinnacle_enter_credentials_halts (user pass : string) :
  halts (Pinnacle.enter_credentials B user pass).
Proof. unfold Pinnacle.enter_credentials. halting. Qed.

Lemma sports411_login_halts (config : SiteConfig) : halts (Sports411.login B config).
Proof.
  unfold Sports411.login, Sports411.submit_credentials.
  apply halts_bind; [apply sports411_isLoggedIn_halts |].
  intros logged. destruct logged; [apply halts_success_now |].
  destruct (credentials config) as [[user pass] |]; halting.
Qed.

End HaltingWorkflows.

(** ** The wait for the CAPTCHA *)

Lemma count_cons (f : Action -> bool) (a : Action) (l : list Action) :
  count f (a :: l) = ((if f a then 1 else 0) + count f l)%nat.
Proof. unfold count. cbn [List.filter]. destruct (f a); reflexivity. Qed.

Lemma count_nil (f : Action -> bool) : count f [] = 0%nat.
Proof. reflexivity. Qed.

(** Counting the calls of a run that is made of known pieces. *)
Ltac count_norm :=
  unfold actions in *; cbn [evs fin out continue map action app];
  repeat (progress (rewrite ?app_nil_r, ?map_app, ?count_app, ?count_cons, ?count_nil;
                    cbn [map action is_poll is_pause is_scroll is_extraction])).

Section CaptchaWait.
Variable B : Browser.
Hypothesis Hclock : clock_advances B.

Lemma clock_after (a : Action) (p : page B) :
  (clock B p <= clock B (res_state (perform B a p)))%Z.
Proof. apply (proj1 Hclock). Qed.

Lemma clock_after_sleep (ms : Z) (p q : page B) (v : unit) :
  perform B (Sleep ms) p = Ok v q -> (clock B p + ms <= clock B q)%Z.
Proof. destruct v. apply (proj2 Hclock). Qed.

(** The check of the login state does not set the clock back, neither
    polls nor pauses, and comes to an end. *)
Lemma betonline_isLoggedIn_timing (p : page B) :
  let r := BetOnline.isLoggedIn B p in
  (clock B p <= clock B (fin r))%Z /\
  (count is_poll (actions r) = 0%nat /\ count is_pause (actions r) = 0%nat) /\
  out r <> Diverge.
Proof.
  apply wp_run with
    (Q := fun r => (clock B p <= clock B (fin r))%Z /\
                   (count is_poll (actions r) = 0%nat /\
                    count is_pause (actions r) = 0%nat) /\
                   out r <> Diverge).
  unfold BetOnline.isLoggedIn.
  wp_steps.
  all: repeat match goal with
         | E : perform B ?a ?q = _ |- _ =>
             let H := fresh "Hc" in
             pose proof (clock_after a q) as H; rewrite E in H; cbn [res_state] in H;
             clear E
         end.
  all: (split; [lia | split; [split; reflexivity | discriminate]]).
Qed.

(** With [n] rounds' worth of time left before the timeout and a budget
    of at least [n] rounds, the wait ends after at most [n] polls, each
    but the last followed by a pause of two seconds. *)
Lemma captcha_wait_bounded (fuel : nat) :
  forall (n : nat) (startTime : Z) (p : page B),
    (BetOnline.captchaTimeout - (clock B p - startTime) <= 2000 * Z.of_nat n)%Z ->
    (n <= fuel)%nat ->
    let r := BetOnline.captcha_wait B fuel startTime p in
    out r <> Diverge /\
    (count is_poll (actions r) <= n)%nat /\
    (count is_poll (actions r) <= S (count is_pause (actions r)))%nat.
Proof.
  induction fuel as [| fuel IH]; intros n startTime p Hn Hfuel;
    cbn zeta; cbn [BetOnline.captcha_wait].
  - assert (n = 0)%nat by lia. subst n.
    apply wp_run with
      (Q := fun r => out r <> Diverge /\
                     (count is_poll (actions r) <= 0)%nat /\
                     (count is_poll (actions r) <= S (count is_pause (actions r)))%nat).
    apply wp_bind, wp_now. cbn [out evs fin continue app].
    destruct (Z.ltb_spec (clock B p - startTime) BetOnline.captchaTimeout) as [Hlt | Hge];
      [lia |].
    apply wp_ret. split; [discriminate | count_norm; lia].
  - apply wp_run with
      (Q := fun r => out r <> Diverge /\
                     (count is_poll (actions r) <= n)%nat /\
                     (count is_poll (actions r) <= S (count is_pause (actions r)))%nat).
    apply wp_bind, wp_now. cbn [out evs fin continue app].
    destruct (Z.ltb_spec (clock B p - startTime) BetOnline.captchaTimeout) as [Hlt | Hge].
    2: { apply wp_ret. split; [discriminate | count_norm; lia]. }
    destruct n as [| n]; [lia |].
    assert (Hrest : forall q, (clock B p <= clock B q)%Z ->
              let r := (logged <- BetOnline.isLoggedIn B ;;
                        if logged then
                          call SaveSession ;; r <- success_now ;; ret (Some r)
                        else
                          call (Sleep 2000) ;; BetOnline.captcha_wait B fuel startTime) q in
              out r <> Diverge /\
              (count is_poll (actions r) <= n)%nat /\
              (count is_poll (actions r) <= count is_pause (actions r))%nat).
    { intros q Hq.
      destruct (betonline_isLoggedIn_timing q) as (Hc2 & [Hp2 Hs2] & Hd2).
      apply wp_run with
        (Q := fun r => out r <> Diverge /\
                       (count is_poll (actions r) <= n)%nat /\
                       (count is_poll (actions r) <= count is_pause (actions r))%nat).
      apply wp_bind. unfold wp at 1.
      destruct (out (BetOnline.isLoggedIn B q)) as [[|] | msg |] eqn:E2.
      - wp_steps.
        all: count_norm; rewrite Hp2, Hs2.
        all: split; [discriminate | lia].
      - apply wp_bind. apply (wp_call _ (Sleep 2000)).
        destruct (perform B (Sleep 2000) (fin (BetOnline.isLoggedIn B q)))
          as [v q3 | msg q3] eqn:E3; cbn [out evs fin continue app].
        + pose proof (clock_after_sleep _ _ _ _ E3) as Hc3.
          unfold wp.
          destruct (IH n startTime q3) as (Hd & Hp & Hs);
            [unfold BetOnline.captchaTimeout in *; lia | lia |].
          split; [exact Hd |].
          count_norm. rewrite Hp2, Hs2. lia.
        + count_norm. rewrite Hp2, Hs2.
          split; [discriminate | lia].
      - count_norm. split; [discriminate | lia].
      - congruence. }
    apply wp_bind, wp_try_catch. apply (wp_call _ EvalCaptchaResponse).
    pose proof (clock_after EvalCaptchaResponse p) as Hc1.
    destruct (perform B EvalCaptchaResponse p) as [solved q | msg q];
      cbn [res_state] in Hc1; cbn [answer] in *; cbn [out evs fin continue app].
    + destruct solved.
      * apply wp_ret. split; [discriminate | count_norm; lia].
      * unfold wp. destruct (Hrest q Hc1) as (Hd & Hp & Hs).
        split; [exact Hd |].
        count_norm. lia.
    + apply wp_ret. cbn [out evs fin continue app].
      unfold wp. destruct (Hrest q Hc1) as (Hd & Hp & Hs).
      split; [exact Hd |].
      count_norm. lia.
Qed.

Lemma betonline_login_bounded (config : SiteConfig) (fuel : nat) (p : page B) :
  (30 <= fuel)%nat ->
  let r := BetOnline.login B config fuel p in
  out r <> Diverge /\
  (count is_poll (actions r) <= 30)%nat /\
  (count is_poll (actions r) <= S (count is_pause (actions r)))%nat.
Proof.
  intros Hfuel.
  apply wp_run with
    (Q := fun r => out r <> Diverge /\
                   (count is_poll (actions r) <= 30)%nat /\
                   (count is_poll (actions r) <= S (count is_pause (actions r)))%nat).
  unfold BetOnline.login.
  apply wp_bind. unfold wp at 1.
  destruct (betonline_isLoggedIn_timing p) as (_ & [Hp0 Hs0] & Hd0).
  destruct (out (BetOnline.isLoggedIn B p)) as [[|] | msg0 |] eqn:E0;
    [| | | congruence].
  1, 3: wp_steps; count_norm; rewrite Hp0; split; [discriminate | lia].
  destruct (credentials config) as [[user pass] |].
  2: { wp_steps. count_norm. rewrite Hp0. split; [discriminate | lia]. }
  unfold BetOnline.auto_login, BetOnline.submit, BetOnline.dismiss_popup.
  wp_steps.
  all: try lazymatch goal with
       | |- wp (BetOnline.captcha_wait _ _ ?s) _ ?q =>
           let Hd := fresh "Hd" in
           let Hp := fresh "Hp" in
           let Hs := fresh "Hs" in
           destruct (captcha_wait_bounded fuel 30 s q) as (Hd & Hp & Hs);
           [ unfold BetOnline.captchaTimeout; lia | exact Hfuel | ];
           unfold wp at 1;
           destruct (out (BetOnline.captcha_wait B fuel s q)) as [[res |] | msg |];
           [ | | | congruence ];
           cbn [out evs fin continue app]; wp_steps
       end.
  all: count_norm; rewrite ?Hp0, ?Hs0; (split; [discriminate | lia]).
Qed.

End CaptchaWait.

Section PinnacleSaving.
Variable B : Browser.

Lemma keeps_session_spec (l : list Action) :
  Forall (fun a => keeps_session a = true) l ->
  ~ In SaveSession l /\ ~ In SuperLogin l.
Proof.
  intros H. rewrite Forall_forall in H.
  split; intros Hin; apply H in Hin; discriminate Hin.
Qed.

Lemma probes_keep_session (l : list Action) :
  Forall (fun a => is_probe a = true) l ->
  Forall (fun a => keeps_session a = true) l.
Proof.
  apply Forall_impl. intros a Ha. destruct a; cbn in Ha; try discriminate Ha. reflexivity.
Qed.

Lemma enter_credentials_keeps_session (user pass : string) :
  calls_only keeps_session (Pinnacle.enter_credentials B user pass).
Proof.
  intros p.
  apply wp_run with (Q := fun r => Forall (fun a => keeps_session a = true) (actions r)).
  unfold Pinnacle.enter_credentials.
  wp_steps; unfold actions; cbn [evs map action app]; repeat constructor.
Qed.

Lemma pinnacle_login_saves_on_confirmation (config : SiteConfig) (user pass : string)
    (p : page B) :
  credentials config = Some (user, pass) ->
  out (Pinnacle.isLoggedIn B p) = Ret false ->
  let entered := Pinnacle.enter_credentials B user pass (fin (Pinnacle.isLoggedIn B p)) in
  let confirmed := out entered = Ret tt /\ out (Pinnacle.isLoggedIn B (fin entered)) = Ret true in
  let r := Pinnacle.login B config p in
  (In SaveSession (actions r) <-> confirmed) /\
  (In SuperLogin (actions r) \/
   (confirmed /\ exists res, out r = Ret res /\ success res = true)).
Proof.
  intros Hc Hcheck entered confirmed. cbn zeta.
  pose proof (keeps_session_spec _ (probes_keep_session _ (pinnacle_isLoggedIn_probes B p)))
    as [Hs0 Hl0].
  pose proof (keeps_session_spec _ (enter_credentials_keeps_session user pass
                                      (fin (Pinnacle.isLoggedIn B p)))) as [Hs1 Hl1].
  fold entered in Hs1, Hl1.
  pose proof (keeps_session_spec _ (probes_keep_session _
                (pinnacle_isLoggedIn_probes B (fin entered)))) as [Hs2 Hl2].
  unfold actions in Hs0, Hl0, Hs1, Hl1, Hs2, Hl2.
  assert (Hsave : SaveSession = SaveSession) by reflexivity.
  assert (Hsuper : SuperLogin = SuperLogin) by reflexivity.
  assert (Hne1 : SuperLogin <> SaveSession) by discriminate.
  assert (Hne2 : SaveSession <> SuperLogin) by discriminate.
  assert (Htrue : true = true) by reflexivity.
  assert (Hconf : confirmed <->
                  (out entered = Ret tt /\
                   out (Pinnacle.isLoggedIn B (fin entered)) = Ret true))
    by reflexivity.
  clearbody confirmed.
  apply wp_run with
    (Q := fun r => (In SaveSession (actions r) <-> confirmed) /\
                   (In SuperLogin (actions r) \/
                    (confirmed /\ exists res, out r = Ret res /\ success res = true))).
  unfold Pinnacle.login. apply (wp_bind_ret _ _ _ _ _ _ Hcheck).
  rewrite Hc. apply wp_bind, wp_try_catch.
  unfold Pinnacle.auto_login. apply wp_bind. unfold wp at 1. fold entered.
  set (recheck := Pinnacle.isLoggedIn B (fin entered)) in *.
  destruct (out entered) as [[] | msg1 |] eqn:E1;
    [| | destruct (pinnacle_enter_credentials_halts B user pass _ E1)].
  1: apply wp_bind; unfold wp at 1; fold recheck;
     destruct (out recheck) as [[|] | msg2 |] eqn:E2;
     [| | | destruct (pinnacle_isLoggedIn_halts B _ E2)].
  all: first [ assert (Hyes : confirmed) by (apply Hconf; split; congruence)
             | assert (Hno : ~ confirmed)
                 by (intros Hx; apply Hconf in Hx; destruct Hx; congruence) ].
  all: cbv beta; cbn [out evs fin continue app]; wp_steps.
  all: unfold actions, continue; cbn [evs out map action app].
  all: (split;
        [ rewrite ?map_app, ?in_app_iff; cbn [In map action]; tauto
        | first [ right; split; [assumption | eexists; split; reflexivity]
                | left; rewrite ?map_app, ?in_app_iff; cbn [In map action]; tauto ] ]).
Qed.
End PinnacleSaving.

(** C5, as the code has it.  With credentials configured and the page
    not logged in: Pinnacle's [login()] checks [isLoggedIn()] again after
    submitting, saves the session exactly when the submission ran through
    and that check confirmed the login, and returns a result of its own
    (a success) only then; otherwise it hands over to the base class.
    Sports411's and BetOnline's [login()] make no such check: the result
    they return is either a success, with the session saved, or the
    failure made of the fault of a call. *)
Theorem session_saved_on_login
    (B : Browser) (config : SiteConfig) (budget : nat) (user pass : string) (p : page B) :
  credentials config = Some (user, pass) ->
  (out (isLoggedIn (PinnacleWorkflow config) p) = Ret false ->
   let entered :=
     Pinnacle.enter_credentials B user pass (fin (isLoggedIn (PinnacleWorkflow config) p)) in
   let confirmed :=
     out entered = Ret tt /\
     out (isLoggedIn (PinnacleWorkflow config) (fin entered)) = Ret true in
   let r := login (PinnacleWorkflow config) budget p in
   (In SaveSession (actions r) <-> confirmed) /\
   (In SuperLogin (actions r) \/
    (confirmed /\ exists res, out r = Ret res /\ success res = true))) /\
  (out (isLoggedIn (Sports411Workflow config) p) = Ret false ->
   let r := login (Sports411Workflow config) budget p in
   exists res,
     out r = Ret res /\
     ((success res = true /\ In SaveSession (actions r)) \/
      (exists msg, faulted nothing_hidden r msg /\
                   res = mkResult false None (Some msg) (clock B (fin r))))) /\
  (out (isLoggedIn (BetOnlineWorkflow config) p) = Ret false ->
   clock_advances B ->
   (30 <= budget)%nat ->
   let r := login (BetOnlineWorkflow config) budget p in
   exists res,
     out r = Ret res /\
     ((success res = true /\ In SaveSession (actions r)) \/
      (exists msg, faulted betonline_swallowed r msg /\
                   res = mkResult false None (Some msg) (clock B (fin r))))).
Proof.
  intros Hc.
  assert (Hc' : forall d, credentials (with_default_url d config) = Some (user, pass))
    by (intros d; exact Hc).
  split; [| split].
  - cbn [isLoggedIn login PinnacleWorkflow]. intros Hcheck.
    apply (pinnacle_login_saves_on_confirmation B _ user pass p (Hc' _) Hcheck).
  - cbn [isLoggedIn login Sports411Workflow]. intros Hcheck. cbn zeta.
    set (config' := with_default_url Sports411.DEFAULT_URL config).
    destruct (out (Sports411.login B config' p)) as [res | msg |] eqn:Hout.
    + exists res. split; [reflexivity |].
      apply (sports411_login_outcome B config' user pass p res (Hc' _) Hcheck Hout).
    + destruct (proj1 (sports411_login_faults B config' p false Hcheck) msg Hout).
    + destruct (sports411_login_halts B config' p Hout).
  - cbn [isLoggedIn login BetOnlineWorkflow]. intros Hcheck Hclock Hbudget. cbn zeta.
    set (config' := with_default_url BetOnline.DEFAULT_URL config).
    destruct (out (BetOnline.login B config' budget p)) as [res | msg |] eqn:Hout.
    + exists res. split; [reflexivity |].
      apply (betonline_login_outcome B config' budget user pass p res (Hc' _) Hcheck Hout).
    + destruct (proj1 (betonline_login_faults B config' budget p false Hcheck) msg Hout).
    + destruct (proj1 (betonline_login_bounded B Hclock config' budget p Hbudget) Hout).
Qed.

Lemma session_saved_on_login_witness :
  let accepted := login (PinnacleWorkflow (B := Sim.browser) Sim.with_credentials) 0
                    (Sim.pinnacle_login_page true) in
  let rejected := login (PinnacleWorkflow (B := Sim.browser) Sim.with_credentials) 0
                    (Sim.pinnacle_login_page false) in
  credentials Sim.with_credentials = Some ("alice", "secret") /\
  In SaveSession (actions accepted) /\
  ~ In SaveSession (actions rejected).
Proof.
  intros accepted rejected.
  assert (Hc : credentials Sim.with_credentials = Some ("alice", "secret")) by reflexivity.
  split; [exact Hc | split].
  - destruct (session_saved_on_login Sim.browser Sim.with_credentials 0 "alice" "secret"
                (Sim.pinnacle_login_page true) Hc) as (Hpinnacle & _ & _).
    destruct (Hpinnacle eq_refl) as [Hiff _].
    apply Hiff. split; vm_compute; reflexivity.
  - destruct (session_saved_on_login Sim.browser Sim.with_credentials 0 "alice" "secret"
                (Sim.pinnacle_login_page false) Hc) as (Hpinnacle & _ & _).
    destruct (Hpinnacle eq_refl) as [Hiff _].
    intros Hin. apply Hiff in Hin. destruct Hin as [_ Hin].
    vm_compute in Hin. discriminate Hin.
Defined.

(** Counterexample to C5 as the spec states it:
    on a Sports411 page whose login form stays
    whatever is submitted, [login()] makes no call after the pause that
    follows the click but [saveSession()], saves the session and returns
    success, and [isLoggedIn()] still answers [false] afterwards. *)
Lemma sports411_login_saves_unconfirmed :
  let w := Sports411Workflow (B := Sim.browser) Sim.with_credentials in
  let r := login w 0 Sim.sports411_rejecting in
  out (isLoggedIn w Sim.sports411_rejecting) = Ret false /\
  out r = Ret (mkResult true None None 5000) /\
  skipn 15 (actions r) = [Click "input.btn.login"; RandomDelay 3000 5000; SaveSession] /\
  out (isLoggedIn w (fin r)) = Ret false.
Proof.
  intros w r. repeat split; vm_compute; reflexivity.
Qed.







(** ** Maps *)

Section MapFacts.
Context {V : Type}.
Implicit Types (m : JsMap.t V) (k : string) (v : V).

Lemma get_set_same m k v : JsMap.get (JsMap.set m k v) k = Some v.
Proof.
  induction m as [| [k' v'] m IH]; cbn [JsMap.set JsMap.get].
  - now rewrite String.eqb_refl.
  - destruct (String.eqb k' k) eqn:E; cbn [JsMap.get].
    + now rewrite String.eqb_refl.
    + now rewrite E.
Qed.

Lemma get_set_other m k k' v :
  k' <> k -> JsMap.get (JsMap.set m k v) k' = JsMap.get m k'.
Proof.
  intros Hk. induction m as [| [k0 v0] m IH]; cbn [JsMap.set JsMap.get].
  - destruct (String.eqb_spec k k'); congruence.
  - destruct (String.eqb_spec k0 k) as [-> | Hne]; cbn [JsMap.get].
    + destruct (String.eqb_spec k k'); congruence.
    + destruct (String.eqb k0 k'); [reflexivity | exact IH].
Qed.

Lemma get_remove_same m k : JsMap.get (JsMap.remove m k) k = None.
Proof.
  induction m as [| [k' v'] m IH]; cbn [JsMap.remove JsMap.get]; [reflexivity |].
  destruct (String.eqb k' k) eqn:E; cbn [JsMap.get]; [exact IH | now rewrite E].
Qed.

Lemma get_remove_other m k k' :
  k' <> k -> JsMap.get (JsMap.remove m k) k' = JsMap.get m k'.
Proof.
  intros Hk. induction m as [| [k0 v0] m IH]; cbn [JsMap.remove JsMap.get]; [reflexivity |].
  destruct (String.eqb_spec k0 k) as [-> | Hne]; cbn [JsMap.get].
  - destruct (String.eqb_spec k k'); congruence.
  - destruct (String.eqb k0 k'); [reflexivity | exact IH].
Qed.

Lemma has_spec m k : JsMap.has m k = true <-> In k (JsMap.keys m).
Proof.
  unfold JsMap.has, JsMap.keys.
  induction m as [| [k' v'] m IH]; cbn [JsMap.get map fst In].
  - split; [discriminate | tauto].
  - destruct (String.eqb_spec k' k) as [-> | Hne]; [tauto |].
    rewrite IH. split; [tauto | intros [H | H]; [contradiction | exact H]].
Qed.

Lemma has_false m k : JsMap.has m k = false <-> ~ In k (JsMap.keys m).
Proof.
  rewrite <- has_spec. destruct (JsMap.has m k); split; congruence.
Qed.

Lemma get_none m k : JsMap.get m k = None <-> ~ In k (JsMap.keys m).
Proof.
  rewrite <- has_false. unfold JsMap.has.
  destruct (JsMap.get m k); split; congruence.
Qed.

Lemma remove_missing m k : JsMap.get m k = None -> JsMap.remove m k = m.
Proof.
  induction m as [| [k' v'] m IH]; cbn [JsMap.remove JsMap.get]; [reflexivity |].
  destruct (String.eqb k' k); [discriminate |].
  intros H. now rewrite IH.
Qed.

Lemma keys_set_present m k v :
  JsMap.has m k = true -> JsMap.keys (JsMap.set m k v) = JsMap.keys m.
Proof.
  unfold JsMap.has, JsMap.keys.
  induction m as [| [k' v'] m IH]; cbn [JsMap.set JsMap.get map fst]; [discriminate |].
  destruct (String.eqb_spec k' k) as [-> | Hne]; cbn [map fst]; [reflexivity |].
  intros H. now rewrite IH.
Qed.

Lemma set_absent m k v :
  JsMap.get m k = None -> JsMap.set m k v = (m ++ [(k, v)])%list.
Proof.
  induction m as [| [k' v'] m IH]; cbn [JsMap.set JsMap.get app]; [reflexivity |].
  destruct (String.eqb k' k); [discriminate |].
  intros H. now rewrite IH.
Qed.

Lemma set_same m k v : JsMap.get m k = Some v -> JsMap.set m k v = m.
Proof.
  induction m as [| [k' v'] m IH]; cbn [JsMap.set JsMap.get]; [discriminate |].
  destruct (String.eqb_spec k' k) as [-> | Hne].
  - now intros [= ->].
  - intros H. now rewrite IH.
Qed.

Lemma set_In m k v : In (k, v) (JsMap.set m k v).
Proof.
  induction m as [| [k' v'] m IH]; cbn [JsMap.set]; [now left |].
  destruct (String.eqb k' k); [now left | now right].
Qed.

Lemma keys_remove m k :
  JsMap.keys (JsMap.remove m k)
  = List.filter (fun k' => negb (String.eqb k' k)) (JsMap.keys m).
Proof.
  unfold JsMap.keys.
  induction m as [| [k' v'] m IH]; cbn [JsMap.remove map fst List.filter]; [reflexivity |].
  destruct (String.eqb k' k); cbn [negb map fst]; now rewrite IH.
Qed.

Lemma values_remove m k :
  JsMap.values (JsMap.remove m k)
  = JsMap.values (List.filter (fun e => negb (String.eqb (fst e) k)) m).
Proof.
  unfold JsMap.values.
  induction m as [| [k' v'] m IH]; cbn [JsMap.remove map fst snd List.filter]; [reflexivity |].
  destruct (String.eqb k' k); cbn [negb map snd]; now rewrite IH.
Qed.

Lemma NoDup_keys_set m k v :
  NoDup (JsMap.keys m) -> NoDup (JsMap.keys (JsMap.set m k v)).
Proof.
  intros Hm. destruct (JsMap.get m k) eqn:E.
  - rewrite keys_set_present; [exact Hm |]. unfold JsMap.has. now rewrite E.
  - rewrite set_absent by exact E. unfold JsMap.keys. rewrite map_app. cbn [map fst].
    apply NoDup_app; [exact Hm | repeat constructor; intros [] | ].
    intros x Hx [<- | []]. now apply get_none in E.
Qed.

Lemma NoDup_keys_remove m k :
  NoDup (JsMap.keys m) -> NoDup (JsMap.keys (JsMap.remove m k)).
Proof. intros Hm. rewrite keys_remove. now apply NoDup_filter. Qed.

Lemma Forall_set (Q : string * V -> Prop) m k v :
  Forall Q m -> Q (k, v) -> Forall Q (JsMap.set m k v).
Proof.
  intros Hm Hkv. induction Hm as [| [k' v'] m Hh Ht IH]; cbn [JsMap.set].
  - repeat constructor. exact Hkv.
  - destruct (String.eqb k' k); constructor; assumption.
Qed.

Lemma Forall_remove (Q : string * V -> Prop) m k :
  Forall Q m -> Forall Q (JsMap.remove m k).
Proof.
  induction 1 as [| [k' v'] m Hh Ht IH]; cbn [JsMap.remove]; [constructor |].
  destruct (String.eqb k' k); [exact IH | now constructor].
Qed.

Lemma get_In m k v : JsMap.get m k = Some v -> In (k, v) m.
Proof.
  induction m as [| [k' v'] m IH]; cbn [JsMap.get]; [discriminate |].
  destruct (String.eqb_spec k' k) as [-> | Hne].
  - intros [= ->]. now left.
  - intros H. right. now apply IH.
Qed.

End MapFacts.

(** ** The store of configurations: how its methods run *)

Section StoreRuns.
Import ConfigStore.
Variable P : Platform.
Implicit Types (m : Manager) (d : disk P).

Lemma step_eta {A : Type} (s : Step (disk P) A) :
  mkStep (fs_calls s) (mem s) (dsk s) (settled s) = s.
Proof. now destruct s. Qed.

Lemma with_sites_same m : with_sites m (sites m) = m.
Proof. now destruct m. Qed.

Lemma with_proxies_same m : with_proxies m (proxies m) = m.
Proof. now destruct m. Qed.

Lemma on_fs_mem (c : FsCall) m d : mem (on_fs c m d) = m.
Proof. unfold on_fs. now destruct (fs P c d). Qed.

Lemma on_fs_ok (c : FsCall) m d v d' :
  fs P c d = Ok v d' -> on_fs c m d = mkStep [mkFsEvent c None] m d' (Resolved v).
Proof. intros H. unfold on_fs. now rewrite H. Qed.

Lemma on_fs_fault (c : FsCall) m d msg d' :
  fs P c d = Fault msg d' ->
  on_fs c m d = mkStep [mkFsEvent c (Some msg)] m d' (Rejected msg).
Proof. intros H. unfold on_fs. now rewrite H. Qed.

Lemma and_then_this {A C : Type} (f : Manager -> A) (k : A -> Op P C) m d :
  and_then (this P f) k m d = k (f m) m d.
Proof. unfold and_then, this. cbn [settled mem dsk fs_calls app]. apply step_eta. Qed.

Lemma and_then_exists_sync {C : Type} path (k : bool -> Op P C) m d :
  and_then (exists_sync P path) k m d = k (existsSync P path d) m d.
Proof. unfold and_then, exists_sync. cbn [settled mem dsk fs_calls app]. apply step_eta. Qed.

Lemma and_then_iso_now {C : Type} (k : string -> Op P C) m d :
  and_then (iso_now P) k m d = k (isoNow P d) m d.
Proof. unfold and_then, iso_now. cbn [settled mem dsk fs_calls app]. apply step_eta. Qed.

Lemma and_then_change_sites {C : Type} f (k : unit -> Op P C) m d :
  and_then (change_sites P f) k m d = k tt (with_sites m (f (sites m))) d.
Proof. unfold and_then, change_sites. cbn [settled mem dsk fs_calls app]. apply step_eta. Qed.

Lemma and_then_change_proxies {C : Type} f (k : unit -> Op P C) m d :
  and_then (change_proxies P f) k m d = k tt (with_proxies m (f (proxies m))) d.
Proof. unfold and_then, change_proxies. cbn [settled mem dsk fs_calls app]. apply step_eta. Qed.

Lemma and_then_pure {A C : Type} (v : A) (k : A -> Op P C) m d :
  and_then (pure v) k m d = k v m d.
Proof. unfold and_then, pure. cbn [settled mem dsk fs_calls app]. apply step_eta. Qed.

Lemma then_pure {A C : Type} (o : Op P A) (v : C) m d :
  and_then o (fun _ => pure v) m d =
  mkStep (fs_calls (o m d)) (mem (o m d)) (dsk (o m d))
         match settled (o m d) with
         | Resolved _ => Resolved v
         | Rejected msg => Rejected msg
         end.
Proof.
  unfold and_then, pure. destruct (settled (o m d)); cbn [settled mem dsk fs_calls];
    [now rewrite app_nil_r | reflexivity].
Qed.

Lemma and_then_ok {C : Type} (c : FsCall) (k : fs_answer c -> Op P C) m d v d' :
  fs P c d = Ok v d' ->
  and_then (on_fs c) k m d =
  mkStep (mkFsEvent c None :: fs_calls (k v m d')) (mem (k v m d')) (dsk (k v m d'))
         (settled (k v m d')).
Proof. intros H. unfold and_then. now rewrite (on_fs_ok c m d v d' H). Qed.

Lemma and_then_fault {C : Type} (c : FsCall) (k : fs_answer c -> Op P C) m d msg d' :
  fs P c d = Fault msg d' ->
  and_then (on_fs c) k m d = mkStep [mkFsEvent c (Some msg)] m d' (Rejected msg).
Proof. intros H. unfold and_then. now rewrite (on_fs_fault c m d msg d' H). Qed.

Lemma ensureDir_run file m d :
  ensureDir P file m d =
  if Js.truthy (dir_of file) && negb (existsSync P (dir_of file) d)
  then on_fs (Mkdir (dir_of file)) m d
  else mkStep [] m d (Resolved tt).
Proof.
  unfold ensureDir. rewrite and_then_exists_sync.
  now destruct (Js.truthy (dir_of file) && negb (existsSync P (dir_of file) d)).
Qed.

Lemma ensureDir_mem file m d : mem (ensureDir P file m d) = m.
Proof.
  rewrite ensureDir_run.
  destruct (_ && _); [exact (on_fs_mem (Mkdir _) m d) | reflexivity].
Qed.

Lemma save_mem file text m d : mem (save P file text m d) = m.
Proof.
  unfold save, and_then.
  destruct (settled (ensureDir P file m d)); cbn [mem].
  - rewrite (on_fs_mem (WriteFile file text)). apply ensureDir_mem.
  - apply ensureDir_mem.
Qed.

Lemma saveSites_run m d :
  saveSites P m d = save P (sitesFile m) (stringifySites P (listSites m)) m d.
Proof.
  unfold saveSites, save. rewrite and_then_this.
  unfold and_then at 1 3.
  destruct (settled (ensureDir P (sitesFile m) m d)); [| reflexivity].
  rewrite and_then_this, ensureDir_mem. reflexivity.
Qed.

Lemma saveProxies_run m d :
  saveProxies P m d = save P (proxiesFile m) (stringifyProxies P (listProxies m)) m d.
Proof.
  unfold saveProxies, save. rewrite and_then_this.
  unfold and_then at 1 3.
  destruct (settled (ensureDir P (proxiesFile m) m d)); [| reflexivity].
  rewrite and_then_this, ensureDir_mem. reflexivity.
Qed.

(** The three ways a save ends. *)
Lemma save_cases file text m d :
  let dir := dir_of file in
  let w := WriteFile file text in
  let s := save P file text m d in
  (exists pre d1 d2,
      (pre = [] /\ d1 = d /\ Js.truthy dir && negb (existsSync P dir d) = false \/
       pre = [mkFsEvent (Mkdir dir) None] /\ fs P (Mkdir dir) d = Ok tt d1 /\
       Js.truthy dir && negb (existsSync P dir d) = true) /\
      fs P w d1 = Ok tt d2 /\
      s = mkStep (pre ++ [mkFsEvent w None]) m d2 (Resolved tt)) \/
  (exists pre d1 d2 msg,
      (pre = [] /\ d1 = d /\ Js.truthy dir && negb (existsSync P dir d) = false \/
       pre = [mkFsEvent (Mkdir dir) None] /\ fs P (Mkdir dir) d = Ok tt d1 /\
       Js.truthy dir && negb (existsSync P dir d) = true) /\
      fs P w d1 = Fault msg d2 /\
      s = mkStep (pre ++ [mkFsEvent w (Some msg)]) m d2 (Rejected msg)) \/
  (exists d1 msg,
      Js.truthy dir && negb (existsSync P dir d) = true /\
      fs P (Mkdir dir) d = Fault msg d1 /\
      s = mkStep [mkFsEvent (Mkdir dir) (Some msg)] m d1 (Rejected msg)).
Proof.
  cbn zeta. unfold save, and_then. rewrite ensureDir_run.
  destruct (Js.truthy (dir_of file) && negb (existsSync P (dir_of file) d)) eqn:Hdir.
  - destruct (fs P (Mkdir (dir_of file)) d) as [[] d1 | msg d1] eqn:Hmk.
    + rewrite (on_fs_ok (Mkdir (dir_of file)) m d tt d1 Hmk).
      cbn [settled mem dsk fs_calls app].
      destruct (fs P (WriteFile file text) d1) as [[] d2 | msg d2] eqn:Hw.
      * rewrite (on_fs_ok (WriteFile file text) m d1 tt d2 Hw).
        left. exists [mkFsEvent (Mkdir (dir_of file)) None], d1, d2.
        split; [right; repeat split; assumption | split; [assumption | reflexivity]].
      * rewrite (on_fs_fault (WriteFile file text) m d1 msg d2 Hw).
        right; left. exists [mkFsEvent (Mkdir (dir_of file)) None], d1, d2, msg.
        split; [right; repeat split; assumption | split; [assumption | reflexivity]].
    + rewrite (on_fs_fault (Mkdir (dir_of file)) m d msg d1 Hmk).
      right; right. exists d1, msg. split; [reflexivity | split; reflexivity].
  - cbn [settled mem dsk fs_calls app].
    destruct (fs P (WriteFile file text) d) as [[] d2 | msg d2] eqn:Hw.
    + rewrite (on_fs_ok (WriteFile file text) m d tt d2 Hw).
      left. exists [], d, d2.
      split; [left; repeat split | split; [assumption | reflexivity]].
    + rewrite (on_fs_fault (WriteFile file text) m d msg d2 Hw).
      right; left. exists [], d, d2, msg.
      split; [left; repeat split | split; [assumption | reflexivity]].
Qed.

Lemma addSite_run site m d :
  addSite P site m d =
  saveSites P (with_sites m (JsMap.set (sites m) (id site) (stamped site (isoNow P d)))) d.
Proof.
  unfold addSite. now rewrite and_then_iso_now, and_then_change_sites.
Qed.

Lemma deleteSite_run key m d :
  deleteSite P key m d =
  let m' := with_sites m (JsMap.remove (sites m) key) in
  if JsMap.has (sites m) key then
    let s := saveSites P m' d in
    mkStep (fs_calls s) (mem s) (dsk s)
           match settled s with
           | Resolved _ => Resolved true
           | Rejected msg => Rejected msg
           end
  else mkStep [] m' d (Resolved false).
Proof.
  unfold deleteSite. rewrite and_then_this, and_then_change_sites. cbn zeta.
  destruct (JsMap.has (sites m) key).
  - apply then_pure.
  - now rewrite !and_then_pure.
Qed.

Lemma updateSite_run key updates m d :
  updateSite P key updates m d =
  match getSite m key with
  | None => mkStep [] m d (Resolved None)
  | Some e =>
      let s := saveSites P (with_sites m (JsMap.set (sites m) key (merge e updates))) d in
      mkStep (fs_calls s) (mem s) (dsk s)
             match settled s with
             | Resolved _ => Resolved (Some (merge e updates))
             | Rejected msg => Rejected msg
             end
  end.
Proof.
  unfold updateSite. rewrite and_then_this.
  destruct (getSite m key) as [e |]; [| reflexivity].
  rewrite and_then_change_sites. apply then_pure.
Qed.

Lemma addProxy_run proxy m d :
  addProxy P proxy m d =
  saveProxies P (with_proxies m (JsMap.set (proxies m) (proxy_name proxy) proxy)) d.
Proof.
  unfold addProxy. now rewrite and_then_change_proxies.
Qed.

Lemma deleteProxy_run key m d :
  deleteProxy P key m d =
  let m' := with_proxies m (JsMap.remove (proxies m) key) in
  if JsMap.has (proxies m) key then
    let s := saveProxies P m' d in
    mkStep (fs_calls s) (mem s) (dsk s)
           match settled s with
           | Resolved _ => Resolved true
           | Rejected msg => Rejected msg
           end
  else mkStep [] m' d (Resolved false).
Proof.
  unfold deleteProxy. rewrite and_then_this, and_then_change_proxies. cbn zeta.
  destruct (JsMap.has (proxies m) key).
  - apply then_pure.
  - now rewrite !and_then_pure.
Qed.

Lemma saveSites_mem m d : mem (saveSites P m d) = m.
Proof. rewrite saveSites_run. apply save_mem. Qed.

Lemma saveProxies_mem m d : mem (saveProxies P m d) = m.
Proof. rewrite saveProxies_run. apply save_mem. Qed.

Lemma loadSites_run m d :
  loadSites P m d =
  if negb (existsSync P (sitesFile m) d) then mkStep [] m d (Resolved tt)
  else
    let r := ReadFile (sitesFile m) in
    match fs P r d with
    | Fault msg d' => mkStep [mkFsEvent r (Some msg)] m d' (Resolved tt)
    | Ok text d' =>
        match parseSites P text with
        | ParseThrows => mkStep [mkFsEvent r None] m d' (Resolved tt)
        | NotIterable => mkStep [mkFsEvent r None] (with_sites m JsMap.empty) d' (Resolved tt)
        | ParsedArray items =>
            mkStep [mkFsEvent r None]
                   (with_sites m (set_all_sites items JsMap.empty)) d' (Resolved tt)
        end
    end.
Proof.
  unfold loadSites. rewrite and_then_this, and_then_exists_sync.
  destruct (negb (existsSync P (sitesFile m) d)); [reflexivity |].
  cbn zeta. unfold catching.
  destruct (fs P (ReadFile (sitesFile m)) d) as [text d' | msg d'] eqn:Hr.
  - rewrite (and_then_ok (ReadFile (sitesFile m)) _ m d text d' Hr).
    cbn [settled mem dsk fs_calls app].
    destruct (parseSites P text) as [| | items].
    + reflexivity.
    + rewrite and_then_change_sites. reflexivity.
    + rewrite and_then_change_sites. reflexivity.
  - rewrite (and_then_fault (ReadFile (sitesFile m)) _ m d msg d' Hr). reflexivity.
Qed.

Lemma loadProxies_run m d :
  loadProxies P m d =
  if negb (existsSync P (proxiesFile m) d) then mkStep [] m d (Resolved tt)
  else
    let r := ReadFile (proxiesFile m) in
    match fs P r d with
    | Fault msg d' => mkStep [mkFsEvent r (Some msg)] m d' (Resolved tt)
    | Ok text d' =>
        match parseProxies P text with
        | ParseThrows => mkStep [mkFsEvent r None] m d' (Resolved tt)
        | NotIterable => mkStep [mkFsEvent r None] (with_proxies m JsMap.empty) d' (Resolved tt)
        | ParsedArray items =>
            mkStep [mkFsEvent r None]
                   (with_proxies m (set_all_proxies items JsMap.empty)) d' (Resolved tt)
        end
    end.
Proof.
  unfold loadProxies. rewrite and_then_this, and_then_exists_sync.
  destruct (negb (existsSync P (proxiesFile m) d)); [reflexivity |].
  cbn zeta. unfold catching.
  destruct (fs P (ReadFile (proxiesFile m)) d) as [text d' | msg d'] eqn:Hr.
  - rewrite (and_then_ok (ReadFile (proxiesFile m)) _ m d text d' Hr).
    cbn [settled mem dsk fs_calls app].
    destruct (parseProxies P text) as [| | items].
    + reflexivity.
    + rewrite and_then_change_proxies. reflexivity.
    + rewrite and_then_change_proxies. reflexivity.
  - rewrite (and_then_fault (ReadFile (proxiesFile m)) _ m d msg d' Hr). reflexivity.
Qed.

End StoreRuns.

(** ** The store of configurations: sites in memory *)

Section StoreSites.
Import ConfigStore.

Lemma save_settled (P : Platform) file text m d :
  let s := save P file text m d in
  (settled s = Resolved tt /\ written (fs_calls s) = [(file, text)] /\
   exists d1, fs P (WriteFile file text) d1 = Ok tt (dsk s)) \/
  (exists msg, settled s = Rejected msg /\ written (fs_calls s) = [] /\ fs_faulted s msg).
Proof.
  destruct (save_cases P file text m d)
    as [(pre & d1 & d2 & Hpre & Hw & ->) | [(pre & d1 & d2 & msg & Hpre & Hw & ->)
                                           | (d1 & msg & Hdir & Hmk & ->)]];
    cbn [settled fs_calls dsk].
  - left. split; [reflexivity |]. split; [| now exists d1].
    destruct Hpre as [(-> & _) | (-> & _)]; reflexivity.
  - right. exists msg. split; [reflexivity |]. split.
    + destruct Hpre as [(-> & _) | (-> & _)]; reflexivity.
    + exists (mkFsEvent (WriteFile file text) (Some msg)).
      split; [apply in_or_app; right; now left | reflexivity].
  - right. exists msg. split; [reflexivity |]. split; [reflexivity |].
    exists (mkFsEvent (Mkdir (dir_of file)) (Some msg)). split; [now left | reflexivity].
Qed.

Lemma stamped_id site now : id (stamped site now) = id site.
Proof. reflexivity. Qed.

Lemma addSite_mem (P : Platform) site m d :
  mem (addSite P site m d)
  = with_sites m (JsMap.set (sites m) (id site) (stamped site (isoNow P d))).
Proof. now rewrite addSite_run, saveSites_mem. Qed.

Lemma deleteSite_mem (P : Platform) key m d :
  mem (deleteSite P key m d) = with_sites m (JsMap.remove (sites m) key).
Proof.
  rewrite deleteSite_run. cbn zeta.
  destruct (JsMap.has (sites m) key); cbn [mem]; [apply saveSites_mem | reflexivity].
Qed.

Lemma updateSite_mem (P : Platform) key updates m d :
  mem (updateSite P key updates m d)
  = match getSite m key with
    | Some e => with_sites m (JsMap.set (sites m) key (merge e updates))
    | None => m
    end.
Proof.
  rewrite updateSite_run.
  destruct (getSite m key); cbn [mem]; [apply saveSites_mem | reflexivity].
Qed.

(** X1.  After [addSite(site)], [getSite(site.id)] gives the site with
    its creation time filled in (the one it came with, or the time of the
    call), whatever was stored under that id before and however the save
    settled; every other id and the proxies are as before. *)
Theorem addSite_then_getSite (P : Platform) (site : StoredSiteConfig)
    (m : Manager) (d : disk P) :
  let s := addSite P site m d in
  getSite (mem s) (id site) = Some (stamped site (isoNow P d)) /\
  (forall key, key <> id site -> getSite (mem s) key = getSite m key) /\
  proxies (mem s) = proxies m.
Proof.
  cbn zeta. rewrite addSite_run, saveSites_mem. unfold getSite. cbn [with_sites sites proxies].
  split; [apply get_set_same |]. split; [| reflexivity].
  intros key Hkey. now apply get_set_other.
Qed.

Lemma addSite_then_getSite_witness :
  let s := addSite SimStore.platform SimStore.pinnacle SimStore.fresh SimStore.read_only in
  getSite (mem s) "pinnacle"
  = Some (stamped SimStore.pinnacle "2026-11-02T09:00:00.000Z") /\
  getSite (mem s) "betonline" = None.
Proof.
  destruct (addSite_then_getSite SimStore.platform SimStore.pinnacle SimStore.fresh
                                 SimStore.read_only) as (H1 & H2 & _).
  split; [exact H1 |]. apply H2. discriminate.
Defined.

(** X2.  [addSite] keeps the order of the listing: a site with a new id
    goes to the end of [listSites()], a site with an id that is there
    takes the place of the old one. *)
Theorem addSite_keeps_order (P : Platform) (site : StoredSiteConfig)
    (m : Manager) (d : disk P) :
  let s := addSite P site m d in
  (getSite m (id site) = None ->
   listSites (mem s) = (listSites m ++ [stamped site (isoNow P d)])%list) /\
  (getSite m (id site) <> None ->
   JsMap.keys (sites (mem s)) = JsMap.keys (sites m) /\
   List.length (listSites (mem s)) = List.length (listSites m)).
Proof.
  cbn zeta. rewrite addSite_run, saveSites_mem. unfold getSite, listSites.
  cbn [with_sites sites]. split.
  - intros Hnone. rewrite set_absent by exact Hnone.
    unfold JsMap.values. now rewrite map_app.
  - intros Hsome.
    assert (Hk : JsMap.keys (JsMap.set (sites m) (id site) (stamped site (isoNow P d)))
                 = JsMap.keys (sites m)).
    { apply keys_set_present. unfold JsMap.has.
      destruct (JsMap.get (sites m) (id site)); [reflexivity | contradiction]. }
    split; [exact Hk |].
    unfold JsMap.values. rewrite !length_map.
    apply (f_equal (@List.length string)) in Hk. unfold JsMap.keys in Hk.
    now rewrite !length_map in Hk.
Qed.

Lemma addSite_keeps_order_witness :
  getSite SimStore.fresh "pinnacle" = None /\
  listSites (mem (addSite SimStore.platform SimStore.pinnacle SimStore.fresh SimStore.blank))
  = (listSites SimStore.fresh ++ [stamped SimStore.pinnacle "2026-11-02T09:00:00.000Z"])%list.
Proof.
  split; [reflexivity |].
  destruct (addSite_keeps_order SimStore.platform SimStore.pinnacle SimStore.fresh
                                SimStore.blank) as (H1 & _).
  apply H1. reflexivity.
Defined.

(** X3.  [addSite] changes the memory before it saves and takes nothing
    back: when the save rejects, nothing has been written, and the site is
    in memory all the same. *)
Theorem addSite_rejected_keeps_site (P : Platform) (site : StoredSiteConfig)
    (m : Manager) (d : disk P) (msg : string) :
  let s := addSite P site m d in
  settled s = Rejected msg ->
  written (fs_calls s) = [] /\
  fs_faulted s msg /\
  getSite (mem s) (id site) = Some (stamped site (isoNow P d)).
Proof.
  cbn zeta. intros Hrej.
  split; [| split].
  - rewrite addSite_run, saveSites_run in *.
    match type of Hrej with
    | settled (save _ ?f ?t ?m' _) = _ =>
        destruct (save_settled P f t m' d) as [(Hs & _) | (msg' & _ & Hw & _)]
    end; [rewrite Hs in Hrej; discriminate | exact Hw].
  - rewrite addSite_run, saveSites_run in *.
    match type of Hrej with
    | settled (save _ ?f ?t ?m' _) = _ =>
        destruct (save_settled P f t m' d) as [(Hs & _) | (msg' & Hs & _ & Hf)]
    end; [rewrite Hs in Hrej; discriminate |].
    rewrite Hs in Hrej. injection Hrej as <-. exact Hf.
  - rewrite addSite_mem. unfold getSite. cbn [with_sites sites]. apply get_set_same.
Qed.

Lemma addSite_rejected_keeps_site_witness :
  let s := addSite SimStore.platform SimStore.pinnacle SimStore.fresh SimStore.read_only in
  settled s = Rejected "EROFS: read-only file system" /\
  written (fs_calls s) = [] /\
  getSite (mem s) "pinnacle"
  = Some (stamped SimStore.pinnacle "2026-11-02T09:00:00.000Z").
Proof.
  cbn zeta. split; [reflexivity |].
  destruct (addSite_rejected_keeps_site SimStore.platform SimStore.pinnacle SimStore.fresh
              SimStore.read_only "EROFS: read-only file system" eq_refl) as (H1 & _ & H3).
  split; [exact H1 | exact H3].
Defined.

Lemma saveSites_settled (P : Platform) m d :
  let s := saveSites P m d in
  let text := stringifySites P (listSites m) in
  mem s = m /\
  ((settled s = Resolved tt /\ written (fs_calls s) = [(sitesFile m, text)] /\
    exists d1, fs P (WriteFile (sitesFile m) text) d1 = Ok tt (dsk s)) \/
   (exists msg, settled s = Rejected msg /\ written (fs_calls s) = [] /\ fs_faulted s msg)).
Proof.
  cbn zeta. rewrite saveSites_run. split; [apply save_mem | apply save_settled].
Qed.

Lemma saveProxies_settled (P : Platform) m d :
  let s := saveProxies P m d in
  let text := stringifyProxies P (listProxies m) in
  mem s = m /\
  ((settled s = Resolved tt /\ written (fs_calls s) = [(proxiesFile m, text)] /\
    exists d1, fs P (WriteFile (proxiesFile m) text) d1 = Ok tt (dsk s)) \/
   (exists msg, settled s = Rejected msg /\ written (fs_calls s) = [] /\ fs_faulted s msg)).
Proof.
  cbn zeta. rewrite saveProxies_run. split; [apply save_mem | apply save_settled].
Qed.

(** X4.  [deleteSite] of an id that is not stored resolves to [false],
    calls nothing on the file system and leaves the manager as it was. *)
Theorem deleteSite_missing_is_noop (P : Platform) (key : string)
    (m : Manager) (d : disk P) :
  getSite m key = None ->
  deleteSite P key m d = mkStep [] m d (Resolved false).
Proof.
  intros Hnone. rewrite deleteSite_run. cbn zeta. unfold getSite in Hnone.
  unfold JsMap.has. rewrite Hnone, remove_missing by exact Hnone.
  now rewrite with_sites_same.
Qed.

Lemma deleteSite_missing_is_noop_witness :
  getSite (mem SimStore.stocked) "bovada" = None /\
  deleteSite SimStore.platform "bovada" (mem SimStore.stocked) (dsk SimStore.stocked)
  = mkStep [] (mem SimStore.stocked) (dsk SimStore.stocked) (Resolved false).
Proof.
  split; [reflexivity |].
  apply (deleteSite_missing_is_noop SimStore.platform "bovada"). reflexivity.
Defined.

(** X5.  [deleteSite] of a stored id takes that site out of memory and
    keeps the others, in their order.  It then resolves to [true], or
    rejects with the fault of the save: it never resolves to [false], and
    a failed save does not bring the site back. *)
Theorem deleteSite_removes (P : Platform) (key : string) (e : StoredSiteConfig)
    (m : Manager) (d : disk P) :
  getSite m key = Some e ->
  let s := deleteSite P key m d in
  getSite (mem s) key = None /\
  (forall k, k <> key -> getSite (mem s) k = getSite m k) /\
  JsMap.keys (sites (mem s))
  = List.filter (fun k => negb (String.eqb k key)) (JsMap.keys (sites m)) /\
  (settled s = Resolved true \/ exists msg, settled s = Rejected msg /\ fs_faulted s msg).
Proof.
  intros Hsome. cbn zeta. rewrite deleteSite_run. cbn zeta. unfold getSite in *.
  unfold JsMap.has. rewrite Hsome.
  set (m' := with_sites m (JsMap.remove (sites m) key)).
  destruct (saveSites_settled P m' d) as (Hmem & Hset). cbn zeta in Hmem, Hset.
  cbn [mem settled]. rewrite Hmem. subst m'. cbn [with_sites sites].
  split; [apply get_remove_same |].
  split; [intros k Hk; now apply get_remove_other |].
  split; [apply keys_remove |].
  destruct Hset as [(Hs & _) | (msg & Hs & _ & e' & Hin & Hf)]; rewrite Hs.
  - now left.
  - right. exists msg. split; [reflexivity |]. exists e'. split; assumption.
Qed.

Lemma deleteSite_removes_witness :
  let s := deleteSite SimStore.platform "pinnacle" (mem SimStore.stocked)
                      (dsk SimStore.stocked) in
  getSite (mem SimStore.stocked) "pinnacle"
  = Some (stamped SimStore.pinnacle "2026-11-02T09:00:00.000Z") /\
  getSite (mem s) "pinnacle" = None /\
  JsMap.keys (sites (mem s)) = ["betonline"].
Proof.
  cbn zeta. split; [reflexivity |].
  destruct (deleteSite_removes SimStore.platform "pinnacle"
              (stamped SimStore.pinnacle "2026-11-02T09:00:00.000Z")
              (mem SimStore.stocked) (dsk SimStore.stocked) eq_refl) as (H1 & _ & H3 & _).
  split; [exact H1 | exact H3].
Defined.

(** X6.  [updateSite] of an id that is not stored resolves to [null],
    calls nothing on the file system and leaves the manager as it was: it
    does not create the site. *)
Theorem updateSite_missing_is_noop (P : Platform) (key : string) (updates : SiteUpdates)
    (m : Manager) (d : disk P) :
  getSite m key = None ->
  updateSite P key updates m d = mkStep [] m d (Resolved None).
Proof. intros Hnone. rewrite updateSite_run. now rewrite Hnone. Qed.

Lemma updateSite_missing_is_noop_witness :
  getSite SimStore.fresh "pinnacle" = None /\
  updateSite SimStore.platform "pinnacle" no_updates SimStore.fresh SimStore.blank
  = mkStep [] SimStore.fresh SimStore.blank (Resolved None).
Proof.
  split; [reflexivity |].
  apply (updateSite_missing_is_noop SimStore.platform "pinnacle"). reflexivity.
Defined.

(** X7.  [updateSite] of a stored id puts the merged record (the
    properties of the update over those of the stored site) under the
    same key, at the same place of the listing, and keeps the other
    sites; when it resolves, it resolves to the merged record. *)
Theorem updateSite_merges_in_place (P : Platform) (key : string) (updates : SiteUpdates)
    (e : StoredSiteConfig) (m : Manager) (d : disk P) :
  getSite m key = Some e ->
  let s := updateSite P key updates m d in
  getSite (mem s) key = Some (merge e updates) /\
  (forall k, k <> key -> getSite (mem s) k = getSite m k) /\
  JsMap.keys (sites (mem s)) = JsMap.keys (sites m) /\
  (settled s = Resolved (Some (merge e updates)) \/
   exists msg, settled s = Rejected msg /\ fs_faulted s msg).
Proof.
  intros Hsome. cbn zeta. rewrite updateSite_run, Hsome. cbn zeta.
  set (m' := with_sites m (JsMap.set (sites m) key (merge e updates))).
  destruct (saveSites_settled P m' d) as (Hmem & Hset). cbn zeta in Hmem, Hset.
  cbn [mem settled]. rewrite Hmem. subst m'. unfold getSite in *. cbn [with_sites sites].
  split; [apply get_set_same |].
  split; [intros k Hk; now apply get_set_other |].
  split; [apply keys_set_present; unfold JsMap.has; now rewrite Hsome |].
  destruct Hset as [(Hs & _) | (msg & Hs & _ & e' & Hin & Hf)]; rewrite Hs.
  - now left.
  - right. exists msg. split; [reflexivity |]. exists e'. split; assumption.
Qed.

Lemma updateSite_merges_in_place_witness :
  let updates :=
    mkSiteUpdates None None None None (Some (Some "hunter2")) (Some None) None None in
  let s := updateSite SimStore.platform "pinnacle" updates (mem SimStore.stocked)
                      (dsk SimStore.stocked) in
  getSite (mem SimStore.stocked) "pinnacle"
  = Some (stamped SimStore.pinnacle "2026-11-02T09:00:00.000Z") /\
  option_map password (getSite (mem s) "pinnacle") = Some (Some "hunter2") /\
  option_map proxyName (getSite (mem s) "pinnacle") = Some None /\
  JsMap.keys (sites (mem s)) = ["pinnacle"; "betonline"].
Proof.
  cbn zeta. split; [reflexivity |].
  destruct (updateSite_merges_in_place SimStore.platform "pinnacle"
              (mkSiteUpdates None None None None (Some (Some "hunter2")) (Some None) None None)
              (stamped SimStore.pinnacle "2026-11-02T09:00:00.000Z")
              (mem SimStore.stocked) (dsk SimStore.stocked) eq_refl) as (H1 & _ & H3 & _).
  rewrite H1. split; [reflexivity |]. split; [reflexivity | exact H3].
Defined.

(** X8.  An update that carries another id leaves the record under the
    old key: [getSite(oldId)] then gives a site whose [id] is the new
    one, [getSite(newId)] is as before, and the store is no longer keyed
    by the ids of its sites. *)
Theorem updateSite_new_id_keeps_old_key (P : Platform) (key other : string)
    (updates : SiteUpdates) (e : StoredSiteConfig) (m : Manager) (d : disk P) :
  getSite m key = Some e ->
  new_id updates = Some other ->
  other <> key ->
  let s := updateSite P key updates m d in
  option_map id (getSite (mem s) key) = Some other /\
  getSite (mem s) other = getSite m other /\
  ~ keyed_by_id (sites (mem s)).
Proof.
  intros Hsome Hnew Hne. cbn zeta. rewrite updateSite_mem, Hsome.
  unfold getSite in *. cbn [with_sites sites].
  split; [| split].
  - rewrite get_set_same. cbn [option_map merge id]. now rewrite Hnew.
  - now apply get_set_other.
  - intros (Hall & _). rewrite Forall_forall in Hall.
    specialize (Hall _ (set_In (sites m) key (merge e updates))).
    cbn [fst snd merge id] in Hall. rewrite Hnew in Hall. cbn [overridden] in Hall.
    congruence.
Qed.

Lemma updateSite_new_id_keeps_old_key_witness :
  let updates := mkSiteUpdates (Some "pinnacle2") None None None None None None None in
  let s := updateSite SimStore.platform "pinnacle" updates (mem SimStore.stocked)
                      (dsk SimStore.stocked) in
  getSite (mem SimStore.stocked) "pinnacle"
  = Some (stamped SimStore.pinnacle "2026-11-02T09:00:00.000Z") /\
  "pinnacle2" <> "pinnacle" /\
  option_map id (getSite (mem s) "pinnacle") = Some "pinnacle2" /\
  getSite (mem s) "pinnacle2" = None /\
  ~ keyed_by_id (sites (mem s)).
Proof.
  cbn zeta. split; [reflexivity |]. split; [discriminate |].
  destruct (updateSite_new_id_keeps_old_key SimStore.platform "pinnacle" "pinnacle2"
              (mkSiteUpdates (Some "pinnacle2") None None None None None None None)
              (stamped SimStore.pinnacle "2026-11-02T09:00:00.000Z")
              (mem SimStore.stocked) (dsk SimStore.stocked) eq_refl eq_refl)
    as (H1 & H2 & H3); [discriminate |].
  split; [exact H1 |]. split; [rewrite H2; reflexivity | exact H3].
Defined.

End StoreSites.

(** ** The store of configurations: keys, files and directories *)

Section StoreFiles.
Import ConfigStore.

Lemma keyed_set (s : JsMap.t StoredSiteConfig) (site : StoredSiteConfig) :
  keyed_by_id s -> keyed_by_id (JsMap.set s (id site) site).
Proof.
  intros (Hall & Hnd). split; [now apply Forall_set | now apply NoDup_keys_set].
Qed.

Lemma keyed_remove (s : JsMap.t StoredSiteConfig) (key : string) :
  keyed_by_id s -> keyed_by_id (JsMap.remove s key).
Proof.
  intros (Hall & Hnd). split; [now apply Forall_remove | now apply NoDup_keys_remove].
Qed.

Lemma keyed_empty : keyed_by_id JsMap.empty.
Proof. split; constructor. Qed.

Lemma keyed_set_all (items : list StoredSiteConfig) (s : JsMap.t StoredSiteConfig) :
  keyed_by_id s -> keyed_by_id (set_all_sites items s).
Proof.
  unfold set_all_sites. revert s.
  induction items as [| x items IH]; intros s Hs; cbn [fold_left]; [exact Hs |].
  apply IH. now apply keyed_set.
Qed.

Lemma loadSites_settled (P : Platform) m d : settled (loadSites P m d) = Resolved tt.
Proof.
  rewrite loadSites_run.
  destruct (negb (existsSync P (sitesFile m) d)); [reflexivity |].
  cbn zeta. destruct (fs P (ReadFile (sitesFile m)) d) as [text d' | msg d']; [| reflexivity].
  now destruct (parseSites P text).
Qed.

Lemma loadProxies_settled (P : Platform) m d : settled (loadProxies P m d) = Resolved tt.
Proof.
  rewrite loadProxies_run.
  destruct (negb (existsSync P (proxiesFile m) d)); [reflexivity |].
  cbn zeta. destruct (fs P (ReadFile (proxiesFile m)) d) as [text d' | msg d']; [| reflexivity].
  now destruct (parseProxies P text).
Qed.

Lemma loadProxies_keeps_sites (P : Platform) m d :
  sites (mem (loadProxies P m d)) = sites m /\
  sitesFile (mem (loadProxies P m d)) = sitesFile m /\
  proxiesFile (mem (loadProxies P m d)) = proxiesFile m.
Proof.
  rewrite loadProxies_run.
  destruct (negb (existsSync P (proxiesFile m) d)); [now repeat split |].
  cbn zeta. destruct (fs P (ReadFile (proxiesFile m)) d) as [text d' | msg d'];
    [| now repeat split].
  now destruct (parseProxies P text).
Qed.

Lemma loadSites_keeps_proxies (P : Platform) m d :
  proxies (mem (loadSites P m d)) = proxies m /\
  sitesFile (mem (loadSites P m d)) = sitesFile m /\
  proxiesFile (mem (loadSites P m d)) = proxiesFile m.
Proof.
  rewrite loadSites_run.
  destruct (negb (existsSync P (sitesFile m) d)); [now repeat split |].
  cbn zeta. destruct (fs P (ReadFile (sitesFile m)) d) as [text d' | msg d'];
    [| now repeat split].
  now destruct (parseSites P text).
Qed.

Lemma load_run (P : Platform) m d :
  load P m d =
  let s1 := loadSites P m d in
  let s2 := loadProxies P (mem s1) (dsk s1) in
  mkStep (fs_calls s1 ++ fs_calls s2) (mem s2) (dsk s2) (Resolved tt).
Proof.
  unfold load, and_then. rewrite loadSites_settled. cbn zeta.
  now rewrite loadProxies_settled.
Qed.

Lemma loadSites_keyed (P : Platform) m d :
  keyed_by_id (sites m) -> keyed_by_id (sites (mem (loadSites P m d))).
Proof.
  intros Hm. rewrite loadSites_run.
  destruct (negb (existsSync P (sitesFile m) d)); [exact Hm |].
  cbn zeta. destruct (fs P (ReadFile (sitesFile m)) d) as [text d' | msg d']; [| exact Hm].
  destruct (parseSites P text) as [| | items]; cbn [mem with_sites sites].
  - exact Hm.
  - apply keyed_empty.
  - apply keyed_set_all, keyed_empty.
Qed.

(** X9.  That every site is stored under its own id, and under one key
    only, holds of a new manager and is kept by [addSite], by
    [deleteSite], by [load], and by an [updateSite] whose update carries
    no id or the id it is called with. *)
Theorem store_keeps_sites_keyed (P : Platform) (m : Manager) (d : disk P) :
  keyed_by_id (sites m) ->
  (forall site, keyed_by_id (sites (mem (addSite P site m d)))) /\
  (forall key, keyed_by_id (sites (mem (deleteSite P key m d)))) /\
  (forall key updates,
      new_id updates = None \/ new_id updates = Some key ->
      keyed_by_id (sites (mem (updateSite P key updates m d)))) /\
  keyed_by_id (sites (mem (load P m d))) /\
  (forall sitesFile proxiesFile, keyed_by_id (sites (create sitesFile proxiesFile))).
Proof.
  intros Hm. split; [| split; [| split; [| split]]].
  - intros site. rewrite addSite_mem. cbn [with_sites sites].
    apply (keyed_set (sites m) (stamped site (isoNow P d))), Hm.
  - intros key. rewrite deleteSite_mem. cbn [with_sites sites]. now apply keyed_remove.
  - intros key updates Hid. rewrite updateSite_mem. unfold getSite.
    destruct (JsMap.get (sites m) key) as [e |] eqn:He; [| exact Hm].
    cbn [with_sites sites].
    assert (Hkey : id (merge e updates) = key).
    { pose proof (proj1 Hm) as Hall. rewrite Forall_forall in Hall.
      specialize (Hall _ (get_In _ _ _ He)). cbn [fst snd] in Hall.
      cbn [merge id]. destruct Hid as [-> | ->]; cbn [overridden]; congruence. }
    rewrite <- Hkey at 1. apply keyed_set, Hm.
  - rewrite load_run. cbn zeta. cbn [mem].
    rewrite (proj1 (loadProxies_keeps_sites P _ _)). now apply loadSites_keyed.
  - intros f g. apply keyed_empty.
Qed.

Lemma store_keeps_sites_keyed_witness :
  keyed_by_id (sites SimStore.fresh) /\
  keyed_by_id (sites (mem (addSite SimStore.platform SimStore.pinnacle SimStore.fresh
                                   SimStore.blank))).
Proof.
  assert (H : keyed_by_id (sites SimStore.fresh)) by (split; constructor).
  split; [exact H |].
  destruct (store_keeps_sites_keyed SimStore.platform SimStore.fresh SimStore.blank H)
    as (Hadd & _).
  exact (Hadd SimStore.pinnacle).
Defined.

(** X10.  When [addSite], [deleteSite] or [updateSite] changes the sites
    and resolves, it has written one file, the sites file, and its text
    is the listing of the sites then in memory.  A [deleteSite] that
    resolves to [false] has written nothing. *)
Theorem sites_methods_write_through (P : Platform) (m : Manager) (d : disk P) :
  (forall site,
      let s := addSite P site m d in
      settled s = Resolved tt ->
      written (fs_calls s) = [(sitesFile m, stringifySites P (listSites (mem s)))]) /\
  (forall key,
      let s := deleteSite P key m d in
      (settled s = Resolved true ->
       written (fs_calls s) = [(sitesFile m, stringifySites P (listSites (mem s)))]) /\
      (settled s = Resolved false -> written (fs_calls s) = [])) /\
  (forall key updates updated,
      let s := updateSite P key updates m d in
      settled s = Resolved (Some updated) ->
      written (fs_calls s) = [(sitesFile m, stringifySites P (listSites (mem s)))]).
Proof.
  split; [| split].
  - intros site s Hs. subst s. rewrite addSite_run in *.
    match goal with
    | |- context [saveSites P ?m' d] =>
        destruct (saveSites_settled P m' d) as (Hmem & [(_ & Hw & _) | (msg & Hr & _)])
    end.
    + cbn zeta in *. now rewrite Hmem, Hw.
    + cbn zeta in *. rewrite Hr in Hs. discriminate.
  - intros key s. subst s. rewrite deleteSite_run. cbn zeta.
    destruct (JsMap.has (sites m) key); cbn [settled fs_calls mem].
    + match goal with
      | |- context [saveSites P ?m' d] =>
          destruct (saveSites_settled P m' d) as (Hmem & [(Hs & Hw & _) | (msg & Hr & _)])
      end; cbn zeta in *.
      * rewrite Hmem, Hw, Hs. split; [reflexivity | discriminate].
      * rewrite Hr. split; discriminate.
    + split; [discriminate | reflexivity].
  - intros key updates updated s Hs. subst s. rewrite updateSite_run in *.
    destruct (getSite m key) as [e |]; [| discriminate].
    cbn zeta in *. cbn [settled fs_calls mem] in *.
    match goal with
    | |- context [saveSites P ?m' d] =>
        destruct (saveSites_settled P m' d) as (Hmem & [(_ & Hw & _) | (msg & Hr & _)])
    end; cbn zeta in *.
    + now rewrite Hmem, Hw.
    + rewrite Hr in Hs. discriminate.
Qed.

Lemma sites_methods_write_through_witness :
  let s := deleteSite SimStore.platform "pinnacle" (mem SimStore.stocked)
                      (dsk SimStore.stocked) in
  settled s = Resolved true /\
  written (fs_calls s)
  = [("./config/sites.json",
      SimStore.put_all SimStore.put_site [SimStore.betonline])].
Proof.
  cbn zeta. split; [reflexivity |].
  destruct (sites_methods_write_through SimStore.platform (mem SimStore.stocked)
              (dsk SimStore.stocked)) as (_ & H & _).
  destruct (H "pinnacle") as (H1 & _). rewrite H1; reflexivity.
Defined.

Lemma lastIndexOf_append (c : ascii) (dir base : string) :
  lastIndexOf c base = None ->
  lastIndexOf c (dir ++ String c base) = Some (String.length dir).
Proof.
  intros Hbase. induction dir as [| a dir IH]; cbn [append lastIndexOf String.length].
  - now rewrite Hbase, Ascii.eqb_refl.
  - now rewrite IH.
Qed.

Lemma substring_prefix (dir rest : string) :
  substring 0 (String.length dir) (dir ++ rest) = dir.
Proof.
  induction dir as [| a dir IH]; cbn [append String.length substring].
  - now destruct rest.
  - now rewrite IH.
Qed.

Lemma dir_of_path (dir base : string) :
  lastIndexOf "/"%char base = None -> dir_of (dir ++ "/" ++ base) = dir.
Proof.
  intros Hbase. unfold dir_of.
  change (dir ++ "/" ++ base) with (dir ++ String "/"%char base).
  rewrite lastIndexOf_append by exact Hbase. apply substring_prefix.
Qed.

(** X11.  For a file [dir/base], [ensureDir] makes the directory [dir]
    (with one [mkdir]) exactly when [dir] has a name and is not there; for
    a file directly under the root, or in a directory that is there, it
    calls nothing. *)
Theorem ensureDir_makes_parent (P : Platform) (dir base : string)
    (m : Manager) (d : disk P) :
  lastIndexOf "/"%char base = None ->
  let s := ensureDir P (dir ++ "/" ++ base) m d in
  (dir = "" \/ existsSync P dir d = true -> s = mkStep [] m d (Resolved tt)) /\
  (dir <> "" -> existsSync P dir d = false -> map fs_call (fs_calls s) = [Mkdir dir]).
Proof.
  intros Hbase. cbn zeta. rewrite ensureDir_run, dir_of_path by exact Hbase. split.
  - intros [-> | ->]; [reflexivity |]. now rewrite andb_false_r.
  - intros Hdir Hthere. rewrite Hthere.
    assert (Ht : Js.truthy dir = true).
    { unfold Js.truthy. destruct (String.eqb_spec dir ""); [contradiction | reflexivity]. }
    rewrite Ht. cbn [andb negb]. unfold on_fs.
    now destruct (fs P (Mkdir dir) d).
Qed.

Lemma ensureDir_makes_parent_witness :
  lastIndexOf "/"%char "sites.json" = None /\
  "./config" <> "" /\
  SimStore.sim_exists "./config" SimStore.blank = false /\
  map fs_call (fs_calls (ensureDir SimStore.platform "./config/sites.json" SimStore.fresh
                                   SimStore.blank))
  = [Mkdir "./config"].
Proof.
  split; [reflexivity |]. split; [discriminate |]. split; [reflexivity |].
  destruct (ensureDir_makes_parent SimStore.platform "./config" "sites.json" SimStore.fresh
              SimStore.blank eq_refl) as (_ & H).
  apply H; [discriminate | reflexivity].
Defined.

(** X12.  [load] never rejects: a missing file, a read that fails and a
    text that does not parse are all taken in silence.  It makes at most
    two calls on the file system, both reads, and leaves the two file
    names as they were. *)
Theorem load_never_rejects (P : Platform) (m : Manager) (d : disk P) :
  let s := load P m d in
  settled s = Resolved tt /\
  Forall (fun e => is_read (fs_call e) = true) (fs_calls s) /\
  (List.length (fs_calls s) <= 2)%nat /\
  written (fs_calls s) = [] /\
  sitesFile (mem s) = sitesFile m /\
  proxiesFile (mem s) = proxiesFile m.
Proof.
  cbn zeta. rewrite load_run. cbn zeta. cbn [settled fs_calls mem].
  destruct (loadProxies_keeps_sites P (mem (loadSites P m d)) (dsk (loadSites P m d)))
    as (_ & Hsf & Hpf).
  destruct (loadSites_keeps_proxies P m d) as (_ & Hsf' & Hpf').
  rewrite Hsf, Hpf, Hsf', Hpf'.
  assert (H1 : exists l, fs_calls (loadSites P m d) = l /\
                         (l = [] \/ exists p f, l = [mkFsEvent (ReadFile p) f])).
  { rewrite loadSites_run.
    destruct (negb (existsSync P (sitesFile m) d)); [exists []; now split; [| left] |].
    cbn zeta. destruct (fs P (ReadFile (sitesFile m)) d) as [text d' | msg d'].
    - destruct (parseSites P text); (eexists; split; [reflexivity |]); right; do 2 eexists; reflexivity.
    - (eexists; split; [reflexivity |]); right; do 2 eexists; reflexivity. }
  assert (H2 : exists l, fs_calls (loadProxies P (mem (loadSites P m d))
                                               (dsk (loadSites P m d))) = l /\
                         (l = [] \/ exists p f, l = [mkFsEvent (ReadFile p) f])).
  { rewrite loadProxies_run.
    destruct (negb (existsSync P _ _)); [exists []; now split; [| left] |].
    cbn zeta. destruct (fs P (ReadFile _) _) as [text d' | msg d'].
    - destruct (parseProxies P text); (eexists; split; [reflexivity |]); right; do 2 eexists; reflexivity.
    - (eexists; split; [reflexivity |]); right; do 2 eexists; reflexivity. }
  destruct H1 as (l1 & -> & H1), H2 as (l2 & -> & H2).
  split; [reflexivity |].
  destruct H1 as [-> | (p1 & f1 & ->)], H2 as [-> | (p2 & f2 & ->)];
    cbn [app List.length written fs_call fs_fault];
    repeat split; try lia; repeat constructor.
Qed.

End StoreFiles.

(** ** The store of configurations: loading *)

Section StoreLoading.
Import ConfigStore.

(** X13.  When the sites file is missing, cannot be read, or holds a
    text that [JSON.parse] refuses, [loadSites] leaves the manager as it
    was: the sites in memory stay. *)
Theorem loadSites_failure_keeps_sites (P : Platform) (m : Manager) (d : disk P) :
  existsSync P (sitesFile m) d = false \/
  (exists msg d', fs P (ReadFile (sitesFile m)) d = Fault msg d') \/
  (exists text d', fs P (ReadFile (sitesFile m)) d = Ok text d' /\
                   parseSites P text = ParseThrows) ->
  mem (loadSites P m d) = m /\ settled (loadSites P m d) = Resolved tt.
Proof.
  intros H. rewrite loadSites_run.
  destruct (existsSync P (sitesFile m) d); cbn [negb]; [| now split].
  destruct H as [H | [(msg & d' & H) | (text & d' & H & Hp)]]; [discriminate | |];
    cbn zeta; rewrite H; [now split |]. rewrite Hp. now split.
Qed.

Lemma loadSites_failure_keeps_sites_witness :
  (exists msg d', SimStore.sim_fs (ReadFile "./config/sites.json") SimStore.unreadable
                  = Fault msg d') /\
  mem (loadSites SimStore.platform (mem SimStore.stocked) SimStore.unreadable)
  = mem SimStore.stocked.
Proof.
  assert (H : exists msg d',
             SimStore.sim_fs (ReadFile "./config/sites.json") SimStore.unreadable
             = Fault msg d') by (do 2 eexists; reflexivity).
  split; [exact H |].
  apply (loadSites_failure_keeps_sites SimStore.platform (mem SimStore.stocked)
                                       SimStore.unreadable).
  right; left. exact H.
Defined.

(** X14.  When the sites file holds a JSON value that cannot be gone
    through (an object, a number, [null]), [loadSites] has emptied the
    sites in memory before the loop throws, and the error is swallowed:
    it resolves with no site left.  The proxies are as before. *)
Theorem loadSites_non_array_empties (P : Platform) (m : Manager) (d d' : disk P)
    (text : string) :
  existsSync P (sitesFile m) d = true ->
  fs P (ReadFile (sitesFile m)) d = Ok text d' ->
  parseSites P text = NotIterable ->
  let s := loadSites P m d in
  listSites (mem s) = [] /\
  (forall key, getSite (mem s) key = None) /\
  proxies (mem s) = proxies m /\
  settled s = Resolved tt.
Proof.
  intros He Hr Hp. cbn zeta. rewrite loadSites_run, He. cbn [negb]. cbn zeta.
  rewrite Hr, Hp. now repeat split.
Qed.

Lemma loadSites_non_array_empties_witness :
  let s := loadSites SimStore.platform (mem SimStore.stocked) (SimStore.holding "{}") in
  SimStore.sim_exists "./config/sites.json" (SimStore.holding "{}") = true /\
  SimStore.parse SimStore.read_site "{}" = NotIterable /\
  listSites (mem SimStore.stocked) <> [] /\
  listSites (mem s) = [] /\
  settled s = Resolved tt.
Proof.
  cbn zeta. split; [reflexivity |]. split; [reflexivity |]. split; [discriminate |].
  destruct (loadSites_non_array_empties SimStore.platform (mem SimStore.stocked)
              (SimStore.holding "{}") (SimStore.holding "{}") "{}"
              eq_refl eq_refl eq_refl) as (H1 & _ & _ & H4).
  split; [exact H1 | exact H4].
Defined.

Lemma set_all_sites_snoc items x s :
  set_all_sites (items ++ [x]) s = JsMap.set (set_all_sites items s) (id x) x.
Proof. unfold set_all_sites. now rewrite fold_left_app. Qed.




Lemma set_all_sites_distinct items :
  NoDup (map id items) ->
  set_all_sites items JsMap.empty = map (fun x => (id x, x)) items.
Proof.
  induction items as [| x items IH] using rev_ind; [reflexivity |].
  rewrite map_app. cbn [map]. intros Hnd.
  rewrite set_all_sites_snoc, map_app. cbn [map].
  assert (Hitems : NoDup (map id items)) by (now apply NoDup_app_remove_r in Hnd).
  rewrite IH by exact Hitems.
  apply set_absent, get_none. unfold JsMap.keys. rewrite map_map. cbn [fst].
  intros Hin. apply NoDup_remove_2 in Hnd. rewrite app_nil_r in Hnd. contradiction.
Qed.



Lemma keyed_entries (s : JsMap.t StoredSiteConfig) :
  keyed_by_id s ->
  map (fun x => (id x, x)) (JsMap.values s) = s /\ NoDup (map id (JsMap.values s)).
Proof.
  intros (Hall & Hnd). unfold JsMap.values, JsMap.keys in *. rewrite !map_map.
  assert (He : forall e, In e s -> (id (snd e), snd e) = e).
  { rewrite Forall_forall in Hall. intros [k v] Hin. specialize (Hall _ Hin).
    cbn [fst snd] in *. now rewrite Hall. }
  split.
  - rewrite <- (map_id s) at 2. apply map_ext_in. exact He.
  - replace (map (fun x => id (snd x)) s) with (map fst s); [exact Hnd |].
    apply map_ext_in. intros e Hin. apply He in Hin.
    now rewrite <- Hin at 1.
Qed.

(** X17.  Saving and loading again gives the sites back, in their
    order, to any manager on the same sites file: on a disk that gives
    back what was written, with a [JSON] that reads back the listing it
    wrote, and when every site is stored under its own id. *)
Theorem save_then_load_restores_sites (P : Platform) (m m' : Manager) (d : disk P) :
  keeps_files P ->
  keyed_by_id (sites m) ->
  parseSites P (stringifySites P (listSites m)) = ParsedArray (listSites m) ->
  settled (saveSites P m d) = Resolved tt ->
  sitesFile m' = sitesFile m ->
  sites (mem (loadSites P m' (dsk (saveSites P m d)))) = sites m.
Proof.
  intros Hdisk Hkeyed Hcodec Hsaved Hfile.
  destruct (saveSites_settled P m d) as (_ & [(_ & _ & d1 & Hw) | (msg & Hr & _)]);
    cbn zeta in *; [| rewrite Hr in Hsaved; discriminate].
  apply Hdisk in Hw. destruct Hw as (He & d2 & Hread).
  destruct (keyed_entries _ Hkeyed) as (Hentries & Hnd).
  rewrite loadSites_run, Hfile, He. cbn [negb]. cbn zeta.
  rewrite Hread, Hcodec. cbn [mem with_sites sites].
  unfold listSites. rewrite set_all_sites_distinct by exact Hnd. exact Hentries.
Qed.

Lemma sim_keeps_files : keeps_files SimStore.platform.
Proof.
  intros path text d d' Hw. cbn [fs existsSync SimStore.platform] in *.
  cbn [SimStore.sim_fs] in *.
  destruct (SimStore.frozen d); [discriminate |].
  destruct (SimStore.is_locked d path) eqn:Hl; [discriminate |].
  destruct (Js.truthy (dir_of path) && negb (SimStore.is_dir d (dir_of path)));
    [discriminate |].
  injection Hw as <-. unfold SimStore.sim_exists, SimStore.is_locked in *.
  cbn [SimStore.with_files SimStore.files SimStore.locked].
  unfold JsMap.has. rewrite Hl, get_set_same. split; [reflexivity |].
  eexists. reflexivity.
Qed.

Lemma save_then_load_restores_sites_witness :
  let m := mem SimStore.stocked in
  let saved := saveSites SimStore.platform m SimStore.blank in
  keyed_by_id (sites m) /\
  SimStore.parse SimStore.read_site (SimStore.put_all SimStore.put_site (listSites m))
  = ParsedArray (listSites m) /\
  settled saved = Resolved tt /\
  sites (mem (loadSites SimStore.platform SimStore.fresh (dsk saved))) = sites m.
Proof.
  cbn zeta.
  assert (H1 : keyed_by_id (sites (mem SimStore.stocked))).
  { split; cbn; repeat constructor; cbn; intuition discriminate. }
  assert (H2 : SimStore.parse SimStore.read_site
                 (SimStore.put_all SimStore.put_site (listSites (mem SimStore.stocked)))
               = ParsedArray (listSites (mem SimStore.stocked)))
    by (vm_compute; reflexivity).
  assert (H3 : settled (saveSites SimStore.platform (mem SimStore.stocked) SimStore.blank)
               = Resolved tt)
    by (vm_compute; reflexivity).
  split; [exact H1 |]. split; [exact H2 |]. split; [exact H3 |].
  exact (save_then_load_restores_sites SimStore.platform (mem SimStore.stocked)
           SimStore.fresh SimStore.blank sim_keeps_files H1 H2 H3 eq_refl).
Defined.

End StoreLoading.

(** ** The store of configurations: proxies *)

Section StoreProxies.
Import ConfigStore.

(** X18.  [getProxyForSite] gives a proxy exactly when the site is
    stored, names a proxy (a name that is not empty) and that proxy is
    stored; what it gives is the server and the credentials of that
    proxy, without its name. *)
Theorem getProxyForSite_spec (m : Manager) (siteId : string) (config : ProxyConfig) :
  getProxyForSite m siteId = Some config <->
  exists site pname proxy,
    getSite m siteId = Some site /\
    proxyName site = Some pname /\
    pname <> "" /\
    getProxy m pname = Some proxy /\
    config = mkProxyConfig (proxy_server proxy) (proxy_username proxy)
                           (proxy_password proxy).
Proof.
  unfold getProxyForSite, getSite, getProxy. split.
  - destruct (JsMap.get (sites m) siteId) as [site |]; [| discriminate].
    destruct (proxyName site) as [pname |] eqn:Hp; [| discriminate].
    unfold Js.truthy. destruct (String.eqb_spec pname ""); cbn [negb]; [discriminate |].
    destruct (JsMap.get (proxies m) pname) as [proxy |] eqn:Hx; [| discriminate].
    intros [= <-]. exists site, pname, proxy. now repeat split.
  - intros (site & pname & proxy & -> & -> & Hne & Hx & ->).
    unfold Js.truthy. destruct (String.eqb_spec pname ""); [contradiction |].
    cbn [negb]. now rewrite Hx.
Qed.

Lemma getProxyForSite_spec_witness :
  getProxyForSite (mem SimStore.stocked) "pinnacle"
  = Some (mkProxyConfig "http://10.0.0.1:8080" (Some "bob") None).
Proof.
  apply (getProxyForSite_spec (mem SimStore.stocked) "pinnacle").
  exists (stamped SimStore.pinnacle "2026-11-02T09:00:00.000Z"), "nyc", SimStore.nyc.
  split; [reflexivity |]. split; [reflexivity |]. split; [discriminate |].
  split; reflexivity.
Defined.

Lemma deleteProxy_mem (P : Platform) key m d :
  mem (deleteProxy P key m d) = with_proxies m (JsMap.remove (proxies m) key).
Proof.
  rewrite deleteProxy_run. cbn zeta.
  destruct (JsMap.has (proxies m) key); cbn [mem]; [apply saveProxies_mem | reflexivity].
Qed.

Lemma addProxy_mem (P : Platform) proxy m d :
  mem (addProxy P proxy m d)
  = with_proxies m (JsMap.set (proxies m) (proxy_name proxy) proxy).
Proof. now rewrite addProxy_run, saveProxies_mem. Qed.

(** X19.  [deleteProxy] does not touch the sites: a site that names the
    deleted proxy keeps naming it, and [getProxyForSite] then gives
    nothing for that site. *)
Theorem deleteProxy_leaves_sites_pointing (P : Platform) (pname siteId : string)
    (site : StoredSiteConfig) (m : Manager) (d : disk P) :
  getSite m siteId = Some site ->
  proxyName site = Some pname ->
  let s := deleteProxy P pname m d in
  sites (mem s) = sites m /\
  option_map proxyName (getSite (mem s) siteId) = Some (Some pname) /\
  getProxy (mem s) pname = None /\
  getProxyForSite (mem s) siteId = None.
Proof.
  intros Hsite Hname. cbn zeta. rewrite deleteProxy_mem.
  unfold getProxyForSite, getSite, getProxy in *. cbn [with_proxies sites proxies].
  rewrite Hsite, Hname, get_remove_same. cbn [option_map].
  repeat split; try congruence. now destruct (Js.truthy pname).
Qed.

Lemma deleteProxy_leaves_sites_pointing_witness :
  let s := deleteProxy SimStore.platform "nyc" (mem SimStore.stocked)
                       (dsk SimStore.stocked) in
  getSite (mem SimStore.stocked) "pinnacle"
  = Some (stamped SimStore.pinnacle "2026-11-02T09:00:00.000Z") /\
  getProxyForSite (mem SimStore.stocked) "pinnacle" <> None /\
  option_map proxyName (getSite (mem s) "pinnacle") = Some (Some "nyc") /\
  getProxyForSite (mem s) "pinnacle" = None.
Proof.
  cbn zeta. split; [reflexivity |]. split; [discriminate |].
  destruct (deleteProxy_leaves_sites_pointing SimStore.platform "nyc" "pinnacle"
              (stamped SimStore.pinnacle "2026-11-02T09:00:00.000Z")
              (mem SimStore.stocked) (dsk SimStore.stocked) eq_refl eq_refl)
    as (_ & H2 & _ & H4).
  split; [exact H2 | exact H4].
Defined.

(** X20.  After [addProxy(proxy)], [getProxy(proxy.name)] gives that
    proxy as it was passed, whatever was stored under the name before and
    however the save settled; the other proxies and the sites are as
    before, and the one file written, if any, is the proxies file with
    the listing of the proxies. *)
Theorem addProxy_then_getProxy (P : Platform) (proxy : StoredProxy)
    (m : Manager) (d : disk P) :
  let s := addProxy P proxy m d in
  getProxy (mem s) (proxy_name proxy) = Some proxy /\
  (forall key, key <> proxy_name proxy -> getProxy (mem s) key = getProxy m key) /\
  sites (mem s) = sites m /\
  (written (fs_calls s) = [] \/
   written (fs_calls s) = [(proxiesFile m, stringifyProxies P (listProxies (mem s)))]).
Proof.
  cbn zeta. rewrite addProxy_mem. unfold getProxy. cbn [with_proxies sites proxies].
  split; [apply get_set_same |].
  split; [intros key Hkey; now apply get_set_other |].
  split; [reflexivity |].
  rewrite addProxy_run.
  match goal with
  | |- context [saveProxies P ?m' d] =>
      destruct (saveProxies_settled P m' d) as (_ & [(_ & Hw & _) | (msg & _ & Hw & _)])
  end; cbn zeta in *; rewrite Hw; [now right | now left].
Qed.

Lemma addProxy_then_getProxy_witness :
  let s := addProxy SimStore.platform SimStore.nyc SimStore.fresh SimStore.blank in
  getProxy (mem s) "nyc" = Some SimStore.nyc /\
  "ldn" <> "nyc" /\
  getProxy (mem s) "ldn" = None.
Proof.
  cbn zeta.
  destruct (addProxy_then_getProxy SimStore.platform SimStore.nyc SimStore.fresh
              SimStore.blank) as (H1 & H2 & _).
  split; [exact H1 |]. split; [discriminate |]. apply H2. discriminate.
Defined.

(** X29.  [deleteProxy] of a name that is not stored resolves to
    [false], calls nothing and leaves the manager as it was.  Of a stored
    name, it takes the proxy out of memory and keeps the others; it then
    resolves to [true] with the proxies file written, its text the
    listing of the proxies left, or rejects with the fault of the save,
    nothing written and the proxy gone from memory all the same. *)
Theorem deleteProxy_outcomes (P : Platform) (key : string) (m : Manager) (d : disk P) :
  let s := deleteProxy P key m d in
  (getProxy m key = None -> s = mkStep [] m d (Resolved false)) /\
  (getProxy m key <> None ->
   getProxy (mem s) key = None /\
   (forall k, k <> key -> getProxy (mem s) k = getProxy m k) /\
   ((settled s = Resolved true /\
     written (fs_calls s)
     = [(proxiesFile m, stringifyProxies P (listProxies (mem s)))]) \/
    (exists msg, settled s = Rejected msg /\ written (fs_calls s) = [] /\
                 fs_faulted s msg))).
Proof.
  cbn zeta. unfold getProxy. split.
  - intros Hnone. rewrite deleteProxy_run. cbn zeta. unfold JsMap.has.
    rewrite Hnone, remove_missing by exact Hnone. now rewrite with_proxies_same.
  - intros Hsome. rewrite deleteProxy_mem. cbn [with_proxies proxies].
    split; [apply get_remove_same |].
    split; [intros k Hk; now apply get_remove_other |].
    rewrite deleteProxy_run. cbn zeta. unfold JsMap.has.
    destruct (JsMap.get (proxies m) key); [| contradiction].
    cbn [settled fs_calls].
    match goal with
    | |- context [saveProxies P ?m' d] =>
        destruct (saveProxies_settled P m' d)
          as (_ & [(Hs & Hw & _) | (msg & Hs & Hw & e & Hin & Hf)])
    end; cbn zeta in *; rewrite Hs, Hw.
    + left. now split.
    + right. exists msg. split; [reflexivity |]. split; [reflexivity |].
      exists e. split; assumption.
Qed.

Lemma deleteProxy_outcomes_witness :
  let s := deleteProxy SimStore.platform "nyc" (mem SimStore.stocked) SimStore.read_only in
  getProxy (mem SimStore.stocked) "nyc" <> None /\
  settled s = Rejected "EROFS: read-only file system" /\
  getProxy (mem s) "nyc" = None.
Proof.
  cbn zeta.
  assert (H : getProxy (mem SimStore.stocked) "nyc" <> None) by discriminate.
  split; [exact H |]. split; [reflexivity |].
  destruct (deleteProxy_outcomes SimStore.platform "nyc" (mem SimStore.stocked)
              SimStore.read_only) as (_ & Hsome).
  destruct (Hsome H) as (Hgone & _). exact Hgone.
Defined.

End StoreProxies.

(** ** The workflows: placeholders and login detection *)

(** X21.  [PinnacleWorkflow.getBalance] is a placeholder: it always
    returns a result, never a balance; all it does is probe the page for
    the login check; a success still carries the text [Not implemented];
    and a fault of a probe comes back as a failure with the message of
    the fault. *)
Theorem pinnacle_balance_is_placeholder (B : Browser) (p : page B) :
  let r := PinnacleBalance.getBalance B p in
  (exists res, out r = Ret res /\ data res = Some None /\
               (success res = true -> error res = Some "Not implemented")) /\
  Forall (fun a => is_probe a = true) (actions r) /\
  (forall msg, faulted nothing_hidden r msg ->
               out r = Ret (mkResult false (Some None) (Some msg) (clock B (fin r)))).
Proof.
  cbn zeta. split; [| split].
  - apply wp_run with
      (Q := fun r => exists res, out r = Ret res /\ data res = Some None /\
                                 (success res = true -> error res = Some "Not implemented")).
    unfold PinnacleBalance.getBalance, Pinnacle.isLoggedIn.
    wp_steps.
    all: eexists; split; [reflexivity |]; split; [reflexivity |]; cbn [success error];
      first [reflexivity | discriminate | intros; reflexivity].
  - apply wp_run with (Q := fun r => Forall (fun a => is_probe a = true) (actions r)).
    unfold PinnacleBalance.getBalance, Pinnacle.isLoggedIn.
    wp_steps; cbn; repeat constructor.
  - unfold PinnacleBalance.getBalance.
    apply caught_faults_fail with
      (failure := fun msg t => mkResult false (Some None) (Some msg) t).
    + apply propagates_bind; [apply pinnacle_isLoggedIn_propagates | propagate].
    + reflexivity.
Qed.

Lemma pinnacle_balance_is_placeholder_witness :
  out (PinnacleBalance.getBalance Sim.browser SimPages.pinnacle_session)
  = Ret (mkResult true (Some None) (Some "Not implemented") 0) /\
  faulted nothing_hidden (PinnacleBalance.getBalance Sim.browser SimPages.pinnacle_closing)
          "Target closed" /\
  out (PinnacleBalance.getBalance Sim.browser SimPages.pinnacle_closing)
  = Ret (mkResult false (Some None) (Some "Target closed") 0).
Proof.
  split; [vm_compute; reflexivity |].
  assert (H : faulted nothing_hidden
                (PinnacleBalance.getBalance Sim.browser SimPages.pinnacle_closing)
                "Target closed").
  { exists (mkEvent (Exists Pinnacle.sel_account_menu) (Some "Target closed")).
    split; [vm_compute; tauto | split; reflexivity]. }
  split; [exact H |].
  destruct (pinnacle_balance_is_placeholder Sim.browser SimPages.pinnacle_closing)
    as (_ & _ & Hf).
  rewrite (Hf _ H). reflexivity.
Defined.

(** Answers of the browser that were fixed on the way are compared with
    the ones a statement names. *)
Ltac same_answers :=
  repeat match goal with
         | H : Ok _ _ = Ok _ _ |- _ => inversion H; subst; clear H
         | H : Fault _ _ = Ok _ _ |- _ => discriminate H
         | H : Ok _ _ = Fault _ _ |- _ => discriminate H
         | H : Ret _ = Ret _ |- _ => inversion H; subst; clear H
         | H : Throw _ = Ret _ |- _ => discriminate H
         | E : perform ?B ?a ?q = _, H : perform ?B ?a ?q = _ |- _ => rewrite E in H
         end.

(** X22.  BetOnline and Pinnacle take a page for logged in only on
    positive evidence: [isLoggedIn] returns [true] exactly when every
    probe for the login form answers no and a probe for the account
    (the balance; the account menu or the logout link) answers yes.  A
    page on which nothing matches is logged out. *)
Theorem logged_in_needs_evidence (B : Browser) (p : page B) :
  (out (BetOnline.isLoggedIn B p) = Ret true <->
   exists p1 p2 p3,
     perform B (Exists BetOnline.sel_login) p = Ok false p1 /\
     perform B (Exists BetOnline.sel_kc_login) p1 = Ok false p2 /\
     perform B (Exists BetOnline.sel_balance) p2 = Ok true p3) /\
  (out (Pinnacle.isLoggedIn B p) = Ret true <->
   exists p1 p2 p3 p4 p5 menu logout,
     perform B (Exists Pinnacle.sel_sign_in) p = Ok false p1 /\
     perform B (Exists Pinnacle.sel_username) p1 = Ok false p2 /\
     perform B (Exists Pinnacle.sel_password) p2 = Ok false p3 /\
     perform B (Exists Pinnacle.sel_account_menu) p3 = Ok menu p4 /\
     perform B (Exists Pinnacle.sel_logout) p4 = Ok logout p5 /\
     menu || logout = true).
Proof.
  split.
  - apply wp_run with
      (Q := fun r => out r = Ret true <->
                     exists p1 p2 p3,
                       perform B (Exists BetOnline.sel_login) p = Ok false p1 /\
                       perform B (Exists BetOnline.sel_kc_login) p1 = Ok false p2 /\
                       perform B (Exists BetOnline.sel_balance) p2 = Ok true p3).
    unfold BetOnline.isLoggedIn.
    wp_steps.
    all: split;
      [ intros Hout; same_answers; do 3 eexists;
        repeat split; first [reflexivity | eassumption]
      | intros (p1 & p2 & p3 & H1 & H2 & H3); same_answers; reflexivity ].
  - apply wp_run with
      (Q := fun r => out r = Ret true <->
                     exists p1 p2 p3 p4 p5 menu logout,
                       perform B (Exists Pinnacle.sel_sign_in) p = Ok false p1 /\
                       perform B (Exists Pinnacle.sel_username) p1 = Ok false p2 /\
                       perform B (Exists Pinnacle.sel_password) p2 = Ok false p3 /\
                       perform B (Exists Pinnacle.sel_account_menu) p3 = Ok menu p4 /\
                       perform B (Exists Pinnacle.sel_logout) p4 = Ok logout p5 /\
                       menu || logout = true).
    unfold Pinnacle.isLoggedIn.
    wp_steps.
    all: split;
      [ intros Hout; same_answers; do 7 eexists;
        repeat split; first [reflexivity | eassumption]
      | intros (p1 & p2 & p3 & p4 & p5 & menu & logout & H1 & H2 & H3 & H4 & H5 & H6);
        same_answers; first [reflexivity | now f_equal] ].
Qed.

Lemma logged_in_needs_evidence_witness :
  out (BetOnline.isLoggedIn Sim.browser (Sim.betonline_logged_in [])) = Ret true /\
  out (BetOnline.isLoggedIn Sim.browser SimPages.bare_page) = Ret false /\
  out (Pinnacle.isLoggedIn Sim.browser SimPages.bare_page) = Ret false /\
  out (Sports411.isLoggedIn Sim.browser SimPages.bare_page) = Ret true.
Proof.
  destruct (logged_in_needs_evidence Sim.browser (Sim.betonline_logged_in [])) as (H & _).
  split; [| repeat split; vm_compute; reflexivity].
  apply H. exists (Sim.betonline_logged_in []), (Sim.betonline_logged_in []),
             (Sim.betonline_logged_in []).
  repeat split; vm_compute; reflexivity.
Defined.

(** ** The scraping scripts: the shape of what they read *)

Section Shapes.

Lemma truthy_spec (s : string) : Js.truthy s = true <-> s <> "".
Proof.
  unfold Js.truthy. destruct (String.eqb_spec s ""); cbn [negb]; split; congruence.
Qed.

Lemma every_filter (f : ascii -> bool) (s : string) : every f (Js.filter f s) = true.
Proof.
  induction s as [| c s IH]; cbn [Js.filter every]; [reflexivity |].
  destruct (f c) eqn:E; cbn [every]; [now rewrite E | exact IH].
Qed.

Lemma span_spec (f : ascii -> bool) (s a b : string) :
  Js.span f s = (a, b) -> every f a = true /\ s = a ++ b.
Proof.
  revert a b. induction s as [| c s IH]; intros a b; cbn [Js.span].
  - intros [= <- <-]. now split.
  - destruct (f c) eqn:E.
    + destruct (Js.span f s) as [a' b'] eqn:Es. intros [= <- <-].
      destruct (IH a' b' eq_refl) as (Ha & ->). cbn [every append]. now rewrite E.
    + intros [= <- <-]. now split.
Qed.

Lemma digits1_spec (s d rest : string) :
  Regex.digits1 s = Some (d, rest) ->
  d <> "" /\ every Js.is_digit d = true /\ s = d ++ rest.
Proof.
  unfold Regex.digits1. destruct (Js.span Js.is_digit s) as [a b] eqn:Es.
  destruct (Js.truthy a) eqn:Et; [| discriminate]. intros [= <- <-].
  apply span_spec in Es. apply truthy_spec in Et. tauto.
Qed.

Lemma lit_spec (c : ascii) (s rest : string) :
  Regex.lit c s = Some rest -> s = String c rest.
Proof.
  destruct s as [| c' s]; cbn [Regex.lit]; [discriminate |].
  destruct (Ascii.eqb_spec c c') as [<- | _]; [| discriminate]. now intros [= ->].
Qed.

Lemma search_spec {A : Type} (at_head : string -> option A) (s : string) (r : A) :
  Regex.search at_head s = Some r ->
  exists before rest, s = before ++ rest /\ at_head rest = Some r.
Proof.
  induction s as [| c s IH]; cbn [Regex.search].
  - destruct (at_head "") eqn:E; [| discriminate].
    intros [= ->]. exists "", "". now split.
  - destruct (at_head (String c s)) eqn:E.
    + intros [= ->]. exists "", (String c s). now split.
    + intros H. destruct (IH H) as (before & rest & -> & Hr).
      exists (String c before), rest. now split.
Qed.

Lemma append_assoc (a b c : string) : (a ++ b) ++ c = a ++ (b ++ c).
Proof. induction a as [| x a IH]; cbn [append]; [reflexivity | now rewrite IH]. Qed.

Lemma append_not_empty (a b : string) : a <> "" -> a ++ b <> "".
Proof. destruct a; [congruence | discriminate]. Qed.

Lemma money_here_spec (s m : string) :
  Regex.money_here s = Some m -> money_shaped m /\ exists rest, s = m ++ rest.
Proof.
  unfold Regex.money_here.
  destruct (Regex.lit "$"%char s) as [s1 |] eqn:E1; [| discriminate].
  destruct (Js.span Regex.is_digit_or_comma s1) as [whole s2] eqn:E2.
  destruct (Js.truthy whole) eqn:Et; [| discriminate].
  destruct (Regex.lit "."%char s2) as [s3 |] eqn:E3; [| discriminate].
  destruct (Regex.digits1 s3) as [[frac rest] |] eqn:E4; [| discriminate].
  intros [= <-].
  apply lit_spec in E1, E3. apply span_spec in E2. apply truthy_spec in Et.
  apply digits1_spec in E4. destruct E2 as (Hw & ->), E4 as (Hf & Hd & ->).
  subst s s2. split.
  - exists whole, frac. tauto.
  - exists rest. cbn [append]. f_equal. rewrite append_assoc. reflexivity.
Qed.

Lemma money_spec (s m : string) :
  Regex.money s = Some m -> money_shaped m /\ inside m s.
Proof.
  intros H. apply search_spec in H. destruct H as (before & rest & -> & H).
  apply money_here_spec in H. destruct H as (Hm & after & ->).
  split; [exact Hm |]. now exists before, after.
Qed.

Lemma or_else_money (o : option string) :
  (forall m, o = Some m -> money_shaped m) ->
  Js.or_else o "" = "" \/ money_shaped (Js.or_else o "").
Proof.
  intros H. destruct o as [m |]; cbn [Js.or_else]; [| now left].
  destruct (Js.truthy m); [right; now apply H | now left].
Qed.

(** X23.  Whatever the columns of a BetOnline history row hold, the
    [betId] scraped from it is made of digits and hyphens only, and
    [stake] and [toWin] are either empty or a dollar amount (a dollar
    sign, digits and commas, a point, digits) that stands in the text of
    its column.  A row with fewer than six columns is pending with an
    empty stake. *)
Theorem betonline_row_fields_shape (row : RowNode) :
  let bet := BetOnline.scrape_row row in
  (forall s, BetOnline.betId bet = Some s ->
             every BetOnline.is_digit_or_hyphen s = true) /\
  (BetOnline.stake bet = "" \/ money_shaped (BetOnline.stake bet)) /\
  (BetOnline.toWin bet = "" \/ money_shaped (BetOnline.toWin bet)) /\
  (forall txt, nth_error (columns row) 6 = Some txt ->
               BetOnline.toWin bet <> "" -> inside (BetOnline.toWin bet) txt) /\
  ((List.length (columns row) <= 5)%nat ->
   BetOnline.status bet = "Pending" /\ BetOnline.stake bet = "" /\
   BetOnline.toWin bet = "").
Proof.
  cbn zeta. unfold BetOnline.scrape_row.
  cbn [BetOnline.betId BetOnline.stake BetOnline.toWin BetOnline.status].
  split; [| split; [| split; [| split]]].
  - intros s. destruct (nth_error (columns row) 0); cbn [option_map]; [| discriminate].
    intros [= <-]. apply every_filter.
  - apply or_else_money. intros m Hm. now apply money_spec in Hm.
  - apply or_else_money. intros m Hm.
    destruct (nth_error (columns row) 6); [| discriminate]. now apply money_spec in Hm.
  - intros txt ->. destruct (Regex.money txt) as [m |] eqn:Hm; cbn [Js.or_else];
      [| congruence].
    destruct (Js.truthy m); [| congruence]. intros _. now apply money_spec in Hm.
  - intros Hshort.
    assert (H5 : nth_error (columns row) 5 = None) by (apply nth_error_None; lia).
    assert (H6 : nth_error (columns row) 6 = None) by (apply nth_error_None; lia).
    rewrite H5, H6. cbn [BetOnline.mentions option_map Js.or_else].
    repeat split; reflexivity.
Qed.

Lemma betonline_row_fields_shape_witness :
  let bet := BetOnline.scrape_row Sim.won_row in
  BetOnline.betId bet = Some "12345-1" /\
  every BetOnline.is_digit_or_hyphen "12345-1" = true /\
  nth_error (columns Sim.won_row) 6 = Some "$100.00" /\
  BetOnline.toWin bet <> "" /\
  inside (BetOnline.toWin bet) "$100.00".
Proof.
  cbn zeta.
  destruct (betonline_row_fields_shape Sim.won_row) as (H1 & _ & _ & H4 & _).
  assert (Hid : BetOnline.betId (BetOnline.scrape_row Sim.won_row) = Some "12345-1")
    by (vm_compute; reflexivity).
  assert (Hwin : BetOnline.toWin (BetOnline.scrape_row Sim.won_row) <> "")
    by (vm_compute; discriminate).
  split; [exact Hid |]. split; [exact (H1 _ Hid) |]. split; [reflexivity |].
  split; [exact Hwin |]. exact (H4 _ eq_refl Hwin).
Defined.

Lemma stamp_here_spec (s a b : string) :
  Regex.stamp_here s = Some (a, b) -> a <> "" /\ b <> "".
Proof.
  unfold Regex.stamp_here.
  destruct (Regex.digits1 s) as [[m s1] |] eqn:E1; [| discriminate].
  destruct (Regex.lit "/"%char s1) as [s2 |]; [| discriminate].
  destruct (Regex.digits1 s2) as [[d s3] |]; [| discriminate].
  destruct (Regex.lit "@"%char s3) as [s4 |]; [| discriminate].
  destruct (Regex.digits1 s4) as [[hh s5] |] eqn:E5; [| discriminate].
  destruct (Regex.lit ":"%char s5) as [s6 |]; [| discriminate].
  destruct (Regex.digits1 s6) as [[mm s7] |]; [| discriminate].
  destruct (Regex.lit " "%char s7) as [s8 |]; [| discriminate].
  destruct s8 as [| c [| c' s9]]; try discriminate.
  destruct (Ascii.eqb_spec c' "M"%char) as [-> | Hc].
  - destruct (Regex.is_A_or_P c); [| discriminate]. intros [= <- <-].
    apply digits1_spec in E1, E5.
    split; apply append_not_empty; tauto.
  - destruct c' as [[] [] [] [] [] [] [] []]; try discriminate.
    now contradiction Hc.
Qed.

(** X24.  Whatever a Sports411 ticket element holds, the [betId] scraped
    from it is [null] or a run of digits that is not empty, and [date]
    and [time] are [null] together or not at all; a ticket without a
    [.date-data] element has none of the three. *)
Theorem sports411_ticket_fields_shape (t : TicketNode) :
  let bet := Sports411.scrape_ticket t in
  (forall s, Sports411.betId bet = Some s -> s <> "" /\ every Js.is_digit s = true) /\
  (Sports411.date bet = None <-> Sports411.time bet = None) /\
  (date_data t = None ->
   Sports411.betId bet = None /\ Sports411.date bet = None /\
   Sports411.time bet = None).
Proof.
  cbn zeta. unfold Sports411.scrape_ticket.
  cbn [Sports411.betId Sports411.date Sports411.time].
  split; [| split].
  - intros s. destruct (date_data t) as [txt |]; [| discriminate].
    destruct (Regex.ticket txt) as [n |] eqn:Hn; cbn [Js.or_null]; [| discriminate].
    destruct (Js.truthy n); [| discriminate]. intros [= <-].
    apply search_spec in Hn. destruct Hn as (before & rest & _ & Hn).
    unfold Regex.ticket_here in Hn.
    destruct (Regex.lits "Ticket # " rest) as [s1 |]; [| discriminate].
    destruct (Regex.digits1 s1) as [[d r] |] eqn:Hd; [| discriminate].
    injection Hn as <-. apply digits1_spec in Hd. tauto.
  - destruct (date_data t) as [txt |]; [| tauto].
    destruct (Regex.stamp txt) as [[a b] |] eqn:Hs; cbn [option_map fst snd Js.or_null];
      [| tauto].
    apply search_spec in Hs. destruct Hs as (before & rest & _ & Hs).
    apply stamp_here_spec in Hs. destruct Hs as (Ha & Hb).
    apply truthy_spec in Ha, Hb. rewrite Ha, Hb. split; discriminate.
  - intros ->. repeat split; reflexivity.
Qed.

Lemma sports411_ticket_fields_shape_witness :
  let bet := Sports411.scrape_ticket (Sim.ticket "101") in
  Sports411.betId bet = Some "101" /\
  every Js.is_digit "101" = true /\
  Sports411.date bet = Some "12/25" /\
  Sports411.time bet = Some "3:30 PM".
Proof.
  cbn zeta.
  destruct (sports411_ticket_fields_shape (Sim.ticket "101")) as (H1 & _ & _).
  assert (Hid : Sports411.betId (Sports411.scrape_ticket (Sim.ticket "101")) = Some "101")
    by (vm_compute; reflexivity).
  split; [exact Hid |]. split; [exact (proj2 (H1 _ Hid)) |].
  split; vm_compute; reflexivity.
Defined.

End Shapes.

(** ** The workflows: what the history and the login do and leave *)

(** X25.  The Sports411 history takes a date range only when both ends
    are given: with one end alone it runs as with none, whatever that end
    is.  With both ends given and one of them an invalid [Date], it fails
    with an empty payload before it has set a range or read a ticket,
    whatever the iteration budget. *)
Theorem sports411_history_date_range (B : Browser) (fuel : nat) (p : page B) :
  (forall fromDate toDate,
      fromDate = None \/ toDate = None ->
      Sports411.getBetHistory B fuel fromDate toDate p
      = Sports411.getBetHistory B fuel None None p) /\
  (forall fromDate toDate,
      fromDate = Js.InvalidDate \/ toDate = Js.InvalidDate ->
      let r := Sports411.getBetHistory B fuel (Some fromDate) (Some toDate) p in
      exists res, out r = Ret res /\ success res = false /\ data res = Some [] /\
                  count is_extraction (actions r) = 0%nat /\
                  count is_date_range (actions r) = 0%nat).
Proof.
  split.
  - intros fromDate toDate [-> | ->]; [reflexivity |]. now destruct fromDate.
  - intros fromDate toDate Hinvalid. cbn zeta.
    apply wp_run with
      (Q := fun r => exists res, out r = Ret res /\ success res = false /\
                                 data res = Some [] /\
                                 count is_extraction (actions r) = 0%nat /\
                                 count is_date_range (actions r) = 0%nat).
    unfold Sports411.getBetHistory, Sports411.isLoggedIn, Sports411.scrape_history,
      Sports411.open_history, Sports411.set_date_range.
    assert (Hcase : fromDate = Js.InvalidDate \/
                    exists iso, fromDate = Js.ValidDate iso /\ toDate = Js.InvalidDate).
    { destruct fromDate as [iso |]; [right | now left].
      destruct Hinvalid as [Hf | Ht]; [discriminate | now exists iso]. }
    destruct Hcase as [-> | (iso & -> & ->)]; cbn [iso_day].
    + wp_steps.
      all: eexists; split; [reflexivity |]; repeat split; vm_compute; reflexivity.
    + wp_steps.
      all: eexists; split; [reflexivity |]; repeat split; vm_compute; reflexivity.
Qed.

Lemma sports411_history_date_range_witness :
  let r := Sports411.getBetHistory Sim.browser 0 (Some (Js.ValidDate "2024-12-01T00:00:00.000Z"))
             (Some Js.InvalidDate) (Sim.sports411_logged_in Sim.three_pages false) in
  out r = Ret (mkResult false (Some []) (Some "Invalid time value") 2000) /\
  count is_extraction (actions r) = 0%nat.
Proof.
  cbn zeta. split; [vm_compute; reflexivity |].
  destruct (sports411_history_date_range Sim.browser 0
              (Sim.sports411_logged_in Sim.three_pages false)) as (_ & H).
  destruct (H (Js.ValidDate "2024-12-01T00:00:00.000Z") Js.InvalidDate (or_intror eq_refl))
    as (res & _ & _ & _ & Hx & _).
  exact Hx.
Defined.

Section CallsOnly.
Variable B : Browser.
Variable allowed : Action -> bool.

Lemma calls_only_silent {A : Type} (m : M B A) :
  (forall p, evs (m p) = []) -> calls_only allowed m.
Proof. intros H p. unfold actions. rewrite H. constructor. Qed.

Lemma calls_only_ret {A : Type} (v : A) : calls_only allowed (ret (B := B) v).
Proof. now apply calls_only_silent. Qed.

Lemma calls_only_throw {A : Type} msg : calls_only allowed (throw (B := B) (A := A) msg).
Proof. now apply calls_only_silent. Qed.

Lemma calls_only_diverge {A : Type} : calls_only allowed (diverge (B := B) (A := A)).
Proof. now apply calls_only_silent. Qed.

Lemma calls_only_now : calls_only allowed (now (B := B)).
Proof. now apply calls_only_silent. Qed.

Lemma calls_only_page_url : calls_only allowed (page_url (B := B)).
Proof. now apply calls_only_silent. Qed.

Lemma calls_only_success_now : calls_only allowed (success_now (B := B)).
Proof. now apply calls_only_silent. Qed.

Lemma calls_only_failure_now msg : calls_only allowed (failure_now (B := B) msg).
Proof. now apply calls_only_silent. Qed.

Lemma calls_only_result {T : Type} ok (payload : T) err :
  calls_only allowed (result (B := B) ok payload err).
Proof. now apply calls_only_silent. Qed.

Lemma calls_only_iso_day d : calls_only allowed (iso_day (B := B) d).
Proof. apply calls_only_silent. now destruct d. Qed.

Lemma calls_only_bind {A C : Type} (m : M B A) (k : A -> M B C) :
  calls_only allowed m -> (forall v, calls_only allowed (k v)) ->
  calls_only allowed (bind m k).
Proof.
  intros Hm Hk p. rewrite bind_unfold. specialize (Hm p).
  destruct (out (m p)) as [v | msg |]; [| exact Hm | exact Hm].
  unfold actions, continue in *. cbn [evs]. rewrite map_app.
  apply Forall_app. split; [exact Hm | apply Hk].
Qed.

Lemma calls_only_try_catch {A : Type} (m : M B A) (h : string -> M B A) :
  calls_only allowed m -> (forall msg, calls_only allowed (h msg)) ->
  calls_only allowed (try_catch m h).
Proof.
  intros Hm Hh p. unfold try_catch. specialize (Hm p).
  destruct (out (m p)) as [v | msg |]; [exact Hm | | exact Hm].
  unfold actions in *. cbn [evs]. rewrite map_app.
  apply Forall_app. split; [exact Hm | apply Hh].
Qed.

Lemma calls_only_first_match (selectors : list string) (act : string -> M B unit) :
  (forall sel, allowed (Exists sel) = true) ->
  (forall sel, calls_only allowed (act sel)) ->
  calls_only allowed (first_match selectors act).
Proof.
  intros Hprobe Hact. induction selectors as [| sel rest IH]; cbn [first_match].
  - apply calls_only_ret.
  - apply calls_only_bind; [apply calls_only_call, Hprobe |].
    intros found. destruct found; [apply Hact | exact IH].
Qed.

End CallsOnly.

(** The calls of a computation made of known pieces are checked one by one. *)
Ltac only_calls :=
  repeat first
    [ apply calls_only_bind
    | apply calls_only_try_catch
    | apply calls_only_ret
    | apply calls_only_throw
    | apply calls_only_diverge
    | apply calls_only_now
    | apply calls_only_page_url
    | apply calls_only_iso_day
    | apply calls_only_success_now
    | apply calls_only_failure_now
    | apply calls_only_result
    | lazymatch goal with
      | |- forall _, _ => intro
      | |- calls_only ?h (call ?a) =>
          apply (calls_only_call _ h a); cbn;
          rewrite ?String.eqb_refl, ?orb_true_r; reflexivity
      | |- calls_only ?h (first_match _ _) =>
          apply calls_only_first_match; [intro; reflexivity |]
      | |- calls_only _ (if ?b then _ else _) => destruct b
      | |- calls_only _ (match ?o with Some _ => _ | None => _ end) => destruct o
      end ].

Section QuietHistory.
Variable B : Browser.

Lemma scrape_pages_no_login (fuel : nat) (allBets : list Sports411.Bet) :
  calls_only no_login_call (Sports411.scrape_pages B fuel allBets).
Proof.
  revert allBets. induction fuel as [| fuel IH]; intros allBets;
    cbn [Sports411.scrape_pages]; only_calls. apply IH.
Qed.

Lemma scroll_no_login (n : nat) : calls_only no_login_call (BetOnline.scroll B n).
Proof. induction n as [| n IH]; cbn [BetOnline.scroll]; only_calls. exact IH. Qed.

Lemma captcha_wait_types_nothing (texts : list string) (fuel : nat) (startTime : Z) :
  calls_only (types_only texts) (BetOnline.captcha_wait B fuel startTime).
Proof.
  revert startTime. induction fuel as [| fuel IH]; intros startTime;
    cbn [BetOnline.captcha_wait]; unfold BetOnline.isLoggedIn; only_calls. apply IH.
Qed.

End QuietHistory.

(** X26.  [getBetHistory] never logs in by itself: whatever the page
    does, none of the three workflows types a text, saves the session or
    hands over to the manual login while it reads the history. *)
Theorem history_never_logs_in (B : Browser) (w : SiteWorkflow B) (budget : nat)
    (fromDate toDate : option Js.Date) (p : page B) :
  site_workflow w ->
  Forall (fun a => is_login_call a = false)
         (actions (getBetHistory w budget fromDate toDate p)).
Proof.
  intros Hw.
  assert (H : calls_only no_login_call (getBetHistory w budget fromDate toDate)).
  { destruct Hw as [config | config | config];
      cbn [getBetHistory PinnacleWorkflow Sports411Workflow BetOnlineWorkflow].
    - unfold Pinnacle.getBetHistory, Pinnacle.isLoggedIn. only_calls.
    - unfold Sports411.getBetHistory, Sports411.isLoggedIn, Sports411.scrape_history,
        Sports411.open_history, Sports411.set_date_range.
      destruct fromDate, toDate; only_calls; apply scrape_pages_no_login.
    - unfold BetOnline.getBetHistory, BetOnline.isLoggedIn, BetOnline.scrape_history.
      only_calls; apply scroll_no_login. }
  specialize (H p). eapply Forall_impl; [| exact H].
  intros a Ha. unfold no_login_call in Ha. now destruct (is_login_call a).
Qed.

Lemma history_never_logs_in_witness :
  site_workflow (Sports411Workflow (B := Sim.browser) Sim.with_credentials) /\
  Forall (fun a => is_login_call a = false)
         (actions (getBetHistory (Sports411Workflow (B := Sim.browser) Sim.with_credentials)
                                 3 None None
                                 (Sim.sports411_logged_in Sim.three_pages false))).
Proof.
  split; [constructor |].
  apply (history_never_logs_in Sim.browser). constructor.
Defined.

(** X27.  [login] types nothing but the configured credentials: with a
    user name and a password in the configuration, every text typed by
    any of the three workflows is one of the two; with no credentials,
    nothing is typed. *)
Theorem login_types_credentials_only (B : Browser) (config : SiteConfig)
    (w : SiteWorkflow B) (budget : nat) (p : page B) :
  w = PinnacleWorkflow config \/ w = Sports411Workflow config \/
  w = BetOnlineWorkflow config ->
  let texts := match credentials config with
               | Some (user, pass) => [user; pass]
               | None => []
               end in
  Forall (fun a => types_only texts a = true) (actions (login w budget p)).
Proof.
  intros Hw. cbn zeta.
  assert (Hcred : forall default,
             credentials (with_default_url default config) = credentials config)
    by reflexivity.
  enough (H : calls_only (types_only match credentials config with
                                     | Some (user, pass) => [user; pass]
                                     | None => []
                                     end) (login w budget)) by apply H.
  destruct Hw as [-> | [-> | ->]];
    cbn [login PinnacleWorkflow Sports411Workflow BetOnlineWorkflow].
  - unfold Pinnacle.login. rewrite Hcred.
    destruct (credentials config) as [[user pass] |];
      unfold Pinnacle.auto_login, Pinnacle.enter_credentials, Pinnacle.isLoggedIn;
      only_calls.
  - unfold Sports411.login. rewrite Hcred.
    destruct (credentials config) as [[user pass] |];
      unfold Sports411.submit_credentials, Sports411.isLoggedIn; only_calls.
  - unfold BetOnline.login. rewrite Hcred.
    destruct (credentials config) as [[user pass] |];
      unfold BetOnline.auto_login, BetOnline.submit, BetOnline.dismiss_popup,
        BetOnline.isLoggedIn; only_calls.
    apply captcha_wait_types_nothing.
Qed.

Lemma login_types_credentials_only_witness :
  let w := Sports411Workflow (B := Sim.browser) Sim.with_credentials in
  Forall (fun a => types_only ["alice"; "secret"] a = true)
         (actions (login w 0 Sim.sports411_rejecting)) /\
  In (TypeText "#account" "alice") (actions (login w 0 Sim.sports411_rejecting)).
Proof.
  cbn zeta. split; [| vm_compute; tauto].
  apply (login_types_credentials_only Sim.browser Sim.with_credentials).
  right; left; reflexivity.
Defined.

(** X28.  The constructors of the three workflows fill in the base URL
    with [||]: a base URL that is missing or empty becomes the default of
    the site, one that is given stays; the id, the name and the
    credentials are untouched, and doing it twice changes nothing. *)
Theorem default_url_fills_empty (default : string) (config : SiteConfig) :
  default <> "" ->
  let filled := with_default_url default config in
  (exists u, baseUrl filled = Some u /\ u <> "" /\
             (forall b, baseUrl config = Some b -> b <> "" -> u = b) /\
             (baseUrl config = None \/ baseUrl config = Some "" -> u = default)) /\
  credentials filled = credentials config /\
  id filled = id config /\ name filled = name config /\
  with_default_url default filled = filled.
Proof.
  intros Hdefault. cbn zeta. split; [| split; [| split; [| split]]]; try reflexivity.
  - exists (Js.or_else (baseUrl config) default). split; [reflexivity |].
    destruct (baseUrl config) as [b |]; cbn [Js.or_else].
    + destruct (Js.truthy b) eqn:Hb.
      * apply truthy_spec in Hb. repeat split; [exact Hb | now intros ? [= ->] |].
        intros [H | [= ->]]; [discriminate | contradiction].
      * split; [exact Hdefault |]. split; [| reflexivity].
        intros b' [= <-] Hne. apply truthy_spec in Hne. congruence.
    + split; [exact Hdefault |]. split; [discriminate | reflexivity].
  - unfold with_default_url. cbn [id name baseUrl username password]. f_equal.
    destruct (baseUrl config) as [b |]; cbn [Js.or_else].
    + destruct (Js.truthy b) eqn:Hb; cbn [Js.or_else]; [now rewrite Hb |].
      apply truthy_spec in Hdefault. now rewrite Hdefault.
    + apply truthy_spec in Hdefault. now rewrite Hdefault.
Qed.

Lemma default_url_fills_empty_witness :
  Sports411.DEFAULT_URL <> "" /\
  baseUrl (with_default_url Sports411.DEFAULT_URL Sim.with_credentials)
  = Some "https://sports411.ag" /\
  credentials (with_default_url Sports411.DEFAULT_URL Sim.with_credentials)
  = Some ("alice", "secret").
Proof.
  assert (H : Sports411.DEFAULT_URL <> "") by discriminate.
  split; [exact H |].
  destruct (default_url_fills_empty Sports411.DEFAULT_URL Sim.with_credentials H)
    as ((u & Hu & _ & _ & Hd) & Hc & _).
  split; [| rewrite Hc; reflexivity].
  rewrite Hu. f_equal. apply Hd. now left.
Defined.
